(** * scantool.net sensor page: a shallow embedding of [sensors.c]

    The file follows the C source function by function: the response
    scanner [find_valid_response], the sensor formulae, the refresh-rate
    estimator [calculate_refresh_rate] and the dialog procedure
    [sensor_proc] with the static variables it shares with them.

    C strings are [string]s read up to their first NUL character, C [int]s
    are [Z], C [float]/[double] values are [spec_float]s of the IEEE-754
    binary32/binary64 formats, and function-static or file-static variables
    are fields of one [state] record that every function threads through. *)

From Stdlib Require Import ZArith String Ascii List Bool Lia.
From Stdlib Require Import DecimalString DecimalZ.
From Stdlib Require Import Floats.SpecFloat.
From stdpp Require Import base list gmap strings.

Local Open Scope string_scope.
Local Open Scope Z_scope.

(** ** C strings *)

Module CString.

Definition NUL : ascii := Ascii.zero.

Definition is_nul (c : ascii) : bool := Ascii.eqb c NUL.

(** [*p] for a pointer [p] into a NUL-terminated buffer, the pointer being
    represented by the text that starts at it. *)
Definition deref (p : string) : ascii :=
  match p with
  | EmptyString => NUL
  | String c _ => c
  end.

(** [p + 1] *)
Definition next (p : string) : string :=
  match p with
  | EmptyString => EmptyString
  | String _ q => q
  end.

(** The characters of [p] before its terminating NUL. *)
Fixpoint c_str (p : string) : string :=
  match p with
  | EmptyString => EmptyString
  | String c q => if is_nul c then EmptyString else String c (c_str q)
  end.

(** [strlen(p)] *)
Definition strlen (p : string) : Z := Z.of_nat (String.length (c_str p)).

(** [strcat(dst, src)] *)
Definition strcat (dst src : string) : string := c_str dst ++ c_str src.

(** [p[k] = 0]: cuts the text at index [k] when [k] lies inside it and
    leaves the text as it is when [k] is at or past its terminator. *)
Definition terminate_at (k : Z) (p : string) : string :=
  if k <? 0 then c_str p
  else if k <? strlen p then substring 0 (Z.to_nat k) (c_str p)
  else c_str p.

(** [p + k] for [0 <= k <= strlen(p)] *)
Fixpoint offset (k : nat) (p : string) : string :=
  match k with
  | O => p
  | S k' => offset k' (next p)
  end.

End CString.

Import CString.

(** ** [find_valid_response] *)

Section FindValidResponse.

(** [SPECIAL_DELIMITER] comes from a header of the serial module. *)
Variable SPECIAL_DELIMITER : ascii.

Definition at_token_end (c : ascii) : bool :=
  is_nul c || Ascii.eqb c SPECIAL_DELIMITER.

(** The copying loop, which runs while [in_ptr] points neither at the
    terminator nor at a delimiter and moves one character from [in_ptr]
    to [out_ptr] per round: the characters written through [out_ptr] and
    the final [in_ptr]. *)
Fixpoint copy_token (in_ptr : string) : string * string :=
  match in_ptr with
  | EmptyString => (EmptyString, in_ptr)
  | String c rest =>
      if at_token_end c then (EmptyString, in_ptr)
      else let (out, p) := copy_token rest in (String c out, p)
  end.

(** The skipping loop, with the same condition and the body [in_ptr++]. *)
Fixpoint skip_token (in_ptr : string) : string :=
  match in_ptr with
  | EmptyString => in_ptr
  | String c rest => if at_token_end c then in_ptr else skip_token rest
  end.

Definition starts_with_41 (in_ptr : string) : bool :=
  Ascii.eqb (deref in_ptr) "4" && Ascii.eqb (deref (next in_ptr)) "1".

(** The outer loop, which runs while [in_ptr] is not at the terminator.  One unit of [fuel] pays for one
    evaluation of the loop condition; [None] means that the fuel ran out
    before the loop was left.  The result is the final content of [buf],
    which starts as the empty string ([buf[0] = 0]). *)
Fixpoint find_loop (fuel : nat) (in_ptr : string) : option string :=
  match fuel with
  | O => None
  | S fuel' =>
      if is_nul (deref in_ptr) then Some EmptyString
      else if starts_with_41 in_ptr then Some (fst (copy_token in_ptr))
      else find_loop fuel' (skip_token in_ptr)
  end.

(** [int find_valid_response(char *buf, const char *response)]: the
    returned flag and the text left in [buf]. *)
Definition find_valid_response (fuel : nat) (response : string)
  : option (bool * string) :=
  match find_loop fuel response with
  | None => None
  | Some buf => Some (0 <? strlen buf, buf)
  end.

End FindValidResponse.

(** ** C arithmetic

    [int] is 32 bits wide; arithmetic that can leave its range is written
    with the two's-complement wrap-around.  [float] is IEEE-754 binary32
    and [double] binary64, with round-to-nearest-even, as [SpecFloat]
    defines them. *)

Module CArith.

Definition INT_MIN : Z := - 2 ^ 31.
Definition INT_MAX : Z := 2 ^ 31 - 1.

Definition wrap_int (n : Z) : Z := (n + 2 ^ 31) mod 2 ^ 32 - 2 ^ 31.

Definition f32 (m e : Z) : spec_float := binary_normalize 24 128 m e false.
Definition f64 (m e : Z) : spec_float := binary_normalize 53 1024 m e false.

(** [(float)n] and [(double)n] for an [int] *)
Definition float_of_int (n : Z) : spec_float := f32 n 0.
Definition double_of_int (n : Z) : spec_float := f64 n 0.

(** [(float)x] for a [double] *)
Definition float_of_double (x : spec_float) : spec_float :=
  match x with
  | S754_finite s m e => binary_round 24 128 s m e
  | _ => x
  end.

(** [(int)x]: the fractional part is discarded.  The C standard leaves
    the conversion of an infinity, a NaN or a value outside the range of
    [int] undefined; [INT_MIN] is what the x86 conversion produces. *)
Definition int_of_float (x : spec_float) : Z :=
  match x with
  | S754_zero _ => 0
  | S754_finite s m e =>
      let n := if 0 <=? e then Zpos m * 2 ^ e
               else Z.quot (Zpos m) (2 ^ (- e)) in
      let n := if s then - n else n in
      if (INT_MIN <=? n) && (n <=? INT_MAX) then n else INT_MIN
  | _ => INT_MIN
  end.

Definition float_add := SFadd 24 128.
Definition float_div := SFdiv 24 128.
Definition double_mul := SFmul 53 1024.
Definition double_div := SFdiv 53 1024.

(** The [double] literal [0.001]: the binary64 number nearest to 1/1000. *)
Definition double_0_001 : spec_float :=
  Eval vm_compute in double_div (double_of_int 1) (double_of_int 1000).

(** [(double)x] for a [float]: the same number in the wider format. *)
Definition double_of_float (x : spec_float) : spec_float :=
  match x with
  | S754_finite s m e => binary_round 53 1024 s m e
  | _ => x
  end.

Definition float_sub := SFsub 24 128.
Definition float_mul := SFmul 24 128.
Definition double_sub := SFsub 53 1024.

(** The [double] literals of the formulae: each is the binary64 number
    nearest to the decimal fraction written in the source. *)
Definition double_1_609 : spec_float :=
  Eval vm_compute in double_div (double_of_int 1609) (double_of_int 1000).
Definition double_0_2953 : spec_float :=
  Eval vm_compute in double_div (double_of_int 2953) (double_of_int 10000).
Definition double_0_01 : spec_float :=
  Eval vm_compute in double_div (double_of_int 1) (double_of_int 100).
Definition double_0_00132276 : spec_float :=
  Eval vm_compute in
    double_div (double_of_int 132276) (double_of_int 100000000).
Definition double_0_145 : spec_float :=
  Eval vm_compute in double_div (double_of_int 145) (double_of_int 1000).
Definition double_0_005 : spec_float :=
  Eval vm_compute in double_div (double_of_int 5) (double_of_int 1000).
Definition double_0_079 : spec_float :=
  Eval vm_compute in double_div (double_of_int 79) (double_of_int 1000).
Definition double_0_1450377 : spec_float :=
  Eval vm_compute in
    double_div (double_of_int 1450377) (double_of_int 10000000).
Definition double_0_0000305 : spec_float :=
  Eval vm_compute in double_div (double_of_int 305) (double_of_int 10000000).
Definition double_0_000122 : spec_float :=
  Eval vm_compute in double_div (double_of_int 122) (double_of_int 1000000).
Definition double_0_25 : spec_float :=
  Eval vm_compute in double_div (double_of_int 25) (double_of_int 100).
Definition double_249_089 : spec_float :=
  Eval vm_compute in double_div (double_of_int 249089) (double_of_int 1000).
Definition double_0_00390625 : spec_float :=
  Eval vm_compute in
    double_div (double_of_int 390625) (double_of_int 100000000).
Definition double_0_1 : spec_float :=
  Eval vm_compute in double_div (double_of_int 1) (double_of_int 10).

(** The text [sprintf] writes for ["%i"]. *)
Definition sprintf_i (n : Z) : string := NilZero.string_of_int (Z.to_int n).

End CArith.

Import CArith.

(** ** [strtol(s, 0, 16)] *)

Section Strtol.

(** The largest [long]; its width is the platform's. *)
Variable LONG_MAX : Z.

Definition isspace (c : ascii) : bool :=
  let n := nat_of_ascii c in
  Nat.eqb n 32 || (Nat.leb 9 n && Nat.leb n 13).

Definition hex_digit (c : ascii) : option Z :=
  let n := Z.of_nat (nat_of_ascii c) in
  if (48 <=? n) && (n <=? 57) then Some (n - 48)
  else if (65 <=? n) && (n <=? 70) then Some (n - 55)
  else if (97 <=? n) && (n <=? 102) then Some (n - 87)
  else None.

Fixpoint skip_spaces (s : string) : string :=
  match s with
  | String c rest => if isspace c then skip_spaces rest else s
  | EmptyString => s
  end.

(** The digits are accumulated most significant first. *)
Fixpoint hex_digits (acc : Z) (s : string) : Z :=
  match s with
  | String c rest =>
      match hex_digit c with
      | Some v => hex_digits (16 * acc + v) rest
      | None => acc
      end
  | EmptyString => acc
  end.

(** An optional ["0x"] or ["0X"] is part of the number when a hexadecimal
    digit follows it. *)
Definition skip_0x (s : string) : string :=
  match s with
  | String z (String x (String h rest)) =>
      if Ascii.eqb z "0" && (Ascii.eqb x "x" || Ascii.eqb x "X")
         && bool_decide (is_Some (hex_digit h))
      then String h rest else s
  | _ => s
  end.

Definition strtol16 (s : string) : Z :=
  let s := skip_spaces s in
  let '(negative, s) :=
    match s with
    | String c rest =>
        if Ascii.eqb c "-" then (true, rest)
        else if Ascii.eqb c "+" then (false, rest)
        else (false, s)
    | EmptyString => (false, s)
    end in
  let v := hex_digits 0 (skip_0x s) in
  if negative then Z.max (- v) (- LONG_MAX - 1) else Z.min v LONG_MAX.

End Strtol.

(** ** Sensor formulae *)

(** [system_of_measurements], a variable of the options module. *)
Inductive measurement_system := METRIC | IMPERIAL.

Definition engine_rpm_formula (system_of_measurements : measurement_system)
    (data : Z) : string :=
  match system_of_measurements with
  | METRIC =>
      sprintf_i (int_of_float (float_div (float_of_int data) (float_of_int 4)))
        ++ " r/min"
  | IMPERIAL =>
      sprintf_i (int_of_float (float_div (float_of_int data) (float_of_int 4)))
        ++ " rpm"
  end.

(** The character [0xB0] that the temperature formulae print with ["%c"]. *)
Definition DEGREE : ascii := "176"%char.

(** ** The formulae that print integers and fixed texts

    Each takes [system_of_measurements] as its first argument, used or
    not, so that all have the type [formula_t] of a row of [sensors[]]. *)

Definition coolant_temp_formula (system_of_measurements : measurement_system)
    (data : Z) : string :=
  match system_of_measurements with
  | METRIC => sprintf_i (wrap_int (data - 40)) ++ String DEGREE " C"
  | IMPERIAL =>
      sprintf_i
        (int_of_float
           (float_add
              (float_div
                 (float_mul (float_sub (float_of_int data) (float_of_int 40))
                    (float_of_int 9))
                 (float_of_int 5))
              (float_of_int 32)))
        ++ String DEGREE " F"
  end.

Definition fuel_system1_status_formula (_ : measurement_system) (data : Z)
  : string :=
  let data := Z.land data 0xFF00 in
  if data =? 0x0100 then "open loop"
  else if data =? 0x0200 then "closed loop"
  else if data =? 0x0400 then "open loop, driving"
  else if data =? 0x0800 then "open loop, system fault"
  else if data =? 0x1000 then "closed loop, O2 sensor fault"
  else "unknown: " ++ sprintf_i data.

Definition fuel_system2_status_formula (_ : measurement_system) (data : Z)
  : string :=
  let data := Z.land data 0x00FF in
  if data =? 0 then "unused"
  else if data =? 0x0001 then "open loop"
  else if data =? 0x0002 then "closed loop"
  else if data =? 0x0004 then "open loop, driving"
  else if data =? 0x0008 then "open loop, system fault"
  else if data =? 0x0010 then "closed loop, O2 sensor fault"
  else "unknown: " ++ sprintf_i data.

Definition vehicle_speed_formula (system_of_measurements : measurement_system)
    (data : Z) : string :=
  match system_of_measurements with
  | METRIC => sprintf_i data ++ " km/h"
  | IMPERIAL =>
      sprintf_i
        (int_of_float
           (double_div (double_of_float (float_of_int data)) double_1_609))
        ++ " mph"
  end.

Definition intake_air_temp_formula
    (system_of_measurements : measurement_system) (data : Z) : string :=
  match system_of_measurements with
  | METRIC => sprintf_i (wrap_int (data - 40)) ++ String DEGREE " C"
  | IMPERIAL =>
      sprintf_i
        (int_of_float
           (float_add
              (float_div
                 (float_mul (float_sub (float_of_int data) (float_of_int 40))
                    (float_of_int 9))
                 (float_of_int 5))
              (float_of_int 32)))
        ++ String DEGREE " F"
  end.

Definition secondary_air_status_formula (_ : measurement_system) (data : Z)
  : string :=
  let data := Z.land data 0x0700 in
  if data =? 0x0100 then "upstream of 1st cat. conv."
  else if data =? 0x0200 then "downstream of 1st cat. conv."
  else if data =? 0x0400 then "atmosphere/off"
  else "Not supported".

Definition pto_status_formula (_ : measurement_system) (data : Z) : string :=
  let data := Z.land data 0x01 in
  if data =? 0x01 then "active" else "not active".

Definition obd_requirements_formula (_ : measurement_system) (data : Z)
  : string :=
  match data with
  | 0x01 => "OBD II (California ARB)"
  | 0x02 => "OBD (Federal EPA)"
  | 0x03 => "OBD and OBD II"
  | 0x04 => "OBD I"
  | 0x05 => "Non-compliant"
  | 0x06 => "EOBD (Europe)"
  | 0x07 => "EOBD and OBD II"
  | 0x08 => "EOBD and OBD"
  | 0x09 => "EOBD, OBD and OBD II"
  | 0x0A => "JOBD (Japan)"
  | 0x0B => "JOBD and OBD II"
  | 0x0C => "JOBD and EOBD"
  | 0x0D => "JOBD, EOBD, and OBD II"
  | _ => "Unknown: " ++ sprintf_i data
  end.

(** [hrs*3600] lies between 0 and [data], and so do the differences: no
    operation of this formula or of the two [..._time_formula]s leaves the
    range of [int]. *)
Definition engine_run_time_formula (_ : measurement_system) (data : Z)
  : string :=
  let hrs := Z.quot data 3600 in
  let min := Z.quot (data - hrs * 3600) 60 in
  let sec := data - hrs * 3600 - min * 60 in
  sprintf_i hrs ++ ":" ++ sprintf_i min ++ ":" ++ sprintf_i sec.

Definition mil_distance_formula (system_of_measurements : measurement_system)
    (data : Z) : string :=
  match system_of_measurements with
  | METRIC => sprintf_i data ++ " km"
  | IMPERIAL =>
      sprintf_i
        (int_of_float
           (double_div (double_of_float (float_of_int data)) double_1_609))
        ++ " miles"
  end.

Definition commanded_egr_formula (_ : measurement_system) (data : Z)
  : string :=
  sprintf_i (Z.quot (wrap_int (data * 100)) 255) ++ "%".

Definition warm_ups_formula (_ : measurement_system) (data : Z) : string :=
  sprintf_i data.

Definition clr_distance_formula (system_of_measurements : measurement_system)
    (data : Z) : string :=
  match system_of_measurements with
  | METRIC => sprintf_i data ++ " km"
  | IMPERIAL =>
      sprintf_i
        (int_of_float
           (double_div (double_of_float (float_of_int data)) double_1_609))
        ++ " miles"
  end.

Definition amb_air_temp_formula (system_of_measurements : measurement_system)
    (data : Z) : string :=
  let c := wrap_int (data - 40) in
  let f := wrap_int (Z.quot (wrap_int (c * 9)) 5 + 32) in
  match system_of_measurements with
  | METRIC => sprintf_i c ++ String DEGREE " C"
  | IMPERIAL => sprintf_i f ++ String DEGREE " F"
  end.

Definition mil_time_formula (_ : measurement_system) (data : Z) : string :=
  let hrs := Z.quot data 60 in
  let min := data - hrs * 60 in
  sprintf_i hrs ++ " hrs " ++ sprintf_i min ++ " min".

Definition clr_time_formula (_ : measurement_system) (data : Z) : string :=
  let hrs := Z.quot data 60 in
  let min := data - hrs * 60 in
  sprintf_i hrs ++ " hrs " ++ sprintf_i min ++ " min".

(** ** The formulae that print a floating-point value

    These pass a [double] to a ["%W.Pf"] conversion of [sprintf] (a [float]
    argument is promoted to [double] by the call).  The decimal text of
    that conversion is written by the C library; the formulae take it as
    the function [printf_f], applied to the minimum field width [W] (0 when
    the format gives none), the precision [P] and the value.  The
    arithmetic before the conversion is that of the source: an operation
    between two [float]s or a [float] and an [int] is done in [float], one
    with a [double] literal in [double], and a result stored in a [float]
    variable is rounded to [float]. *)

Section FloatFormulae.

Variable printf_f : Z -> Z -> spec_float -> string.

(** [(float)data*100/255] *)
Definition percent_of_255 (data : Z) : spec_float :=
  float_div (float_mul (float_of_int data) (float_of_int 100))
    (float_of_int 255).

(** [((float)data - 128)*100/128] *)
Definition fuel_trim (data : Z) : spec_float :=
  float_div
    (float_mul (float_sub (float_of_int data) (float_of_int 128))
       (float_of_int 100))
    (float_of_int 128).

(** [(float)data/255*100] *)
Definition fraction_of_255 (data : Z) : spec_float :=
  float_mul (float_div (float_of_int data) (float_of_int 255))
    (float_of_int 100).

(** [(float)data*x] for a [double] literal [x] *)
Definition scaled (data : Z) (x : spec_float) : spec_float :=
  double_mul (double_of_float (float_of_int data)) x.

Definition engine_load_formula (_ : measurement_system) (data : Z) : string :=
  printf_f 0 1 (double_of_float (percent_of_255 data)) ++ "%".

Definition intake_pressure_formula
    (system_of_measurements : measurement_system) (data : Z) : string :=
  match system_of_measurements with
  | METRIC => sprintf_i data ++ " kPa"
  | IMPERIAL => printf_f 0 1 (scaled data double_0_2953) ++ " in.hg."
  end.

Definition timing_advance_formula (_ : measurement_system) (data : Z)
  : string :=
  printf_f 0 1
    (double_of_float
       (float_div (float_sub (float_of_int data) (float_of_int 128))
          (float_of_int 2)))
    ++ String DEGREE "".

Definition air_flow_rate_formula (system_of_measurements : measurement_system)
    (data : Z) : string :=
  match system_of_measurements with
  | METRIC => printf_f 0 1 (scaled data double_0_01) ++ " g/s"
  | IMPERIAL => printf_f 0 1 (scaled data double_0_00132276) ++ " lb/min"
  end.

Definition throttle_position_formula (_ : measurement_system) (data : Z)
  : string :=
  printf_f 0 1 (double_of_float (percent_of_255 data)) ++ "%".

(** [data*3] is an [int] product; [(float)(data*3*0.145)] rounds the
    [double] product to [float]. *)
Definition fuel_pressure_formula (system_of_measurements : measurement_system)
    (data : Z) : string :=
  match system_of_measurements with
  | METRIC => sprintf_i (wrap_int (data * 3)) ++ " kPaG"
  | IMPERIAL =>
      printf_f 0 3
        (double_of_float
           (float_of_double
              (double_mul (double_of_int (wrap_int (data * 3)))
                 double_0_145)))
        ++ " psi"
  end.

Definition short_term_fuel_trim_formula (_ : measurement_system) (data : Z)
  : string :=
  printf_f 0 2 (double_of_float (fuel_trim data)) ++ "%".

Definition long_term_fuel_trim_formula (_ : measurement_system) (data : Z)
  : string :=
  printf_f 0 2 (double_of_float (fuel_trim data)) ++ "%".

(** [data >> 8] of a negative [int] is the arithmetic shift, as the x86
    compilers implement it. *)
Definition o2_sensor_formula (_ : measurement_system) (data : Z) : string :=
  if Z.land data 0xFF =? 0xFF then
    printf_f 0 3 (scaled (Z.shiftr data 8) double_0_005) ++ " V"
  else
    printf_f 0 3 (scaled (Z.shiftr data 8) double_0_005) ++ " V @ "
      ++ printf_f 0 2 (double_of_float (fuel_trim (Z.land data 0xFF)))
      ++ "% s.t. fuel trim".

Definition frp_relative_formula (system_of_measurements : measurement_system)
    (data : Z) : string :=
  let kpa := float_of_double (scaled data double_0_079) in
  let psi :=
    float_of_double (double_mul (double_of_float kpa) double_0_1450377) in
  match system_of_measurements with
  | METRIC => printf_f 0 2 (double_of_float kpa) ++ " kPa"
  | IMPERIAL => printf_f 0 1 (double_of_float psi) ++ " PSI"
  end.

Definition frp_widerange_formula (system_of_measurements : measurement_system)
    (data : Z) : string :=
  let kpa := wrap_int (data * 10) in
  let psi :=
    float_of_double (double_mul (double_of_int kpa) double_0_1450377) in
  match system_of_measurements with
  | METRIC => sprintf_i kpa ++ " kPa"
  | IMPERIAL => printf_f 0 1 (double_of_float psi) ++ " PSI"
  end.

Definition o2_sensor_wrv_formula (_ : measurement_system) (data : Z)
  : string :=
  let eq_ratio :=
    float_of_double (scaled (Z.shiftr data 16) double_0_0000305) in
  let o2_voltage :=
    float_of_double (scaled (Z.land data 0xFFFF) double_0_000122) in
  printf_f 0 3 (double_of_float o2_voltage) ++ " V, Eq. ratio: "
    ++ printf_f 0 3 (double_of_float eq_ratio).

Definition egr_error_formula (_ : measurement_system) (data : Z) : string :=
  let modifier :=
    if data <? 128 then "less than commanded"
    else if 128 <? data then "more than commanded"
    else "no error" in
  printf_f 0 2
    (double_of_float
       (float_mul
          (float_div (float_of_int (wrap_int (data - 128)))
             (float_of_int 255))
          (float_of_int 100)))
    ++ "% (" ++ modifier ++ ")".

Definition evap_pct_formula (_ : measurement_system) (data : Z) : string :=
  printf_f 0 1 (double_of_float (fraction_of_255 data)) ++ "%".

Definition fuel_level_formula (_ : measurement_system) (data : Z) : string :=
  printf_f 0 1 (double_of_float (fraction_of_255 data)) ++ "%".

Definition evap_vp_formula (system_of_measurements : measurement_system)
    (data : Z) : string :=
  let pa := float_of_double (scaled data double_0_25) in
  let in_h2o :=
    float_of_double (double_div (double_of_float pa) double_249_089) in
  match system_of_measurements with
  | METRIC => printf_f 4 2 (double_of_float pa) ++ " Pa"
  | IMPERIAL => printf_f 2 3 (double_of_float in_h2o) ++ " in. H2O"
  end.

Definition baro_pressure_formula (system_of_measurements : measurement_system)
    (data : Z) : string :=
  match system_of_measurements with
  | METRIC => sprintf_i data ++ " kPa"
  | IMPERIAL => printf_f 0 1 (scaled data double_0_2953) ++ " in.hg."
  end.

Definition o2_sensor_wrc_formula (_ : measurement_system) (data : Z)
  : string :=
  let eq_ratio :=
    float_of_double (scaled (Z.shiftr data 16) double_0_0000305) in
  let o2_ma :=
    float_of_double
      (double_mul
         (double_of_float
            (float_sub (float_of_int (Z.land data 0xFFFF))
               (float_of_int 0x8000)))
         double_0_00390625) in
  printf_f 0 3 (double_of_float o2_ma) ++ " mA, Eq. ratio: "
    ++ printf_f 0 3 (double_of_float eq_ratio).

Definition cat_temp_formula (system_of_measurements : measurement_system)
    (data : Z) : string :=
  let c :=
    float_of_double
      (double_sub (scaled data double_0_1) (double_of_int 40)) in
  let f :=
    float_add
      (float_div (float_mul c (float_of_int 9)) (float_of_int 5))
      (float_of_int 32) in
  match system_of_measurements with
  | METRIC => printf_f 4 1 (double_of_float c) ++ String DEGREE " C"
  | IMPERIAL => printf_f 4 1 (double_of_float f) ++ String DEGREE " F"
  end.

Definition ecu_voltage_formula (_ : measurement_system) (data : Z) : string :=
  printf_f 2 3 (scaled data double_0_001) ++ " V".

Definition abs_load_formula (_ : measurement_system) (data : Z) : string :=
  printf_f 3 1 (double_of_float (percent_of_255 data)) ++ "%".

Definition eq_ratio_formula (_ : measurement_system) (data : Z) : string :=
  printf_f 1 3 (scaled data double_0_0000305).

Definition relative_tp_formula (_ : measurement_system) (data : Z) : string :=
  printf_f 3 1 (double_of_float (percent_of_255 data)) ++ "%".

Definition abs_tp_formula (_ : measurement_system) (data : Z) : string :=
  printf_f 3 1 (double_of_float (percent_of_255 data)) ++ "%".

Definition tac_pct_formula (_ : measurement_system) (data : Z) : string :=
  printf_f 3 1 (double_of_float (percent_of_255 data)) ++ "%".

End FloatFormulae.

(** ** The sensor table and the dialog *)

Definition formula_t : Type := measurement_system -> Z -> string.

(** The functions a row of [sensors[]] can point to. *)
Inductive formula_id :=
  | fn_throttle_position_formula | fn_engine_rpm_formula
  | fn_vehicle_speed_formula | fn_engine_load_formula
  | fn_timing_advance_formula | fn_intake_pressure_formula
  | fn_air_flow_rate_formula | fn_fuel_system1_status_formula
  | fn_fuel_system2_status_formula | fn_short_term_fuel_trim_formula
  | fn_long_term_fuel_trim_formula | fn_intake_air_temp_formula
  | fn_coolant_temp_formula | fn_fuel_pressure_formula
  | fn_secondary_air_status_formula | fn_pto_status_formula
  | fn_o2_sensor_formula | fn_obd_requirements_formula
  | fn_engine_run_time_formula | fn_mil_distance_formula
  | fn_frp_relative_formula | fn_frp_widerange_formula
  | fn_o2_sensor_wrv_formula | fn_commanded_egr_formula
  | fn_egr_error_formula | fn_evap_pct_formula | fn_fuel_level_formula
  | fn_warm_ups_formula | fn_clr_distance_formula | fn_evap_vp_formula
  | fn_baro_pressure_formula | fn_o2_sensor_wrc_formula | fn_cat_temp_formula
  | fn_ecu_voltage_formula | fn_abs_load_formula | fn_eq_ratio_formula
  | fn_relative_tp_formula | fn_amb_air_temp_formula | fn_abs_tp_formula
  | fn_tac_pct_formula | fn_mil_time_formula | fn_clr_time_formula.

(** The function behind each pointer, given the ["%f"] conversion of the
    C library. *)
Definition formula_body (printf_f : Z -> Z -> spec_float -> string)
    (f : formula_id) : formula_t :=
  match f with
  | fn_throttle_position_formula => throttle_position_formula printf_f
  | fn_engine_rpm_formula => engine_rpm_formula
  | fn_vehicle_speed_formula => vehicle_speed_formula
  | fn_engine_load_formula => engine_load_formula printf_f
  | fn_timing_advance_formula => timing_advance_formula printf_f
  | fn_intake_pressure_formula => intake_pressure_formula printf_f
  | fn_air_flow_rate_formula => air_flow_rate_formula printf_f
  | fn_fuel_system1_status_formula => fuel_system1_status_formula
  | fn_fuel_system2_status_formula => fuel_system2_status_formula
  | fn_short_term_fuel_trim_formula => short_term_fuel_trim_formula printf_f
  | fn_long_term_fuel_trim_formula => long_term_fuel_trim_formula printf_f
  | fn_intake_air_temp_formula => intake_air_temp_formula
  | fn_coolant_temp_formula => coolant_temp_formula
  | fn_fuel_pressure_formula => fuel_pressure_formula printf_f
  | fn_secondary_air_status_formula => secondary_air_status_formula
  | fn_pto_status_formula => pto_status_formula
  | fn_o2_sensor_formula => o2_sensor_formula printf_f
  | fn_obd_requirements_formula => obd_requirements_formula
  | fn_engine_run_time_formula => engine_run_time_formula
  | fn_mil_distance_formula => mil_distance_formula
  | fn_frp_relative_formula => frp_relative_formula printf_f
  | fn_frp_widerange_formula => frp_widerange_formula printf_f
  | fn_o2_sensor_wrv_formula => o2_sensor_wrv_formula printf_f
  | fn_commanded_egr_formula => commanded_egr_formula
  | fn_egr_error_formula => egr_error_formula printf_f
  | fn_evap_pct_formula => evap_pct_formula printf_f
  | fn_fuel_level_formula => fuel_level_formula printf_f
  | fn_warm_ups_formula => warm_ups_formula
  | fn_clr_distance_formula => clr_distance_formula
  | fn_evap_vp_formula => evap_vp_formula printf_f
  | fn_baro_pressure_formula => baro_pressure_formula printf_f
  | fn_o2_sensor_wrc_formula => o2_sensor_wrc_formula printf_f
  | fn_cat_temp_formula => cat_temp_formula printf_f
  | fn_ecu_voltage_formula => ecu_voltage_formula printf_f
  | fn_abs_load_formula => abs_load_formula printf_f
  | fn_eq_ratio_formula => eq_ratio_formula printf_f
  | fn_relative_tp_formula => relative_tp_formula printf_f
  | fn_amb_air_temp_formula => amb_air_temp_formula
  | fn_abs_tp_formula => abs_tp_formula printf_f
  | fn_tac_pct_formula => tac_pct_formula printf_f
  | fn_mil_time_formula => mil_time_formula
  | fn_clr_time_formula => clr_time_formula
  end.

(** A row of [sensors[]].  A null [formula] marks the row that ends the
    table. *)
Record SENSOR := mkSENSOR {
  formula : option formula_id;
  label : string;
  screen_buf : string;
  command : string;
  enabled : Z;
  bytes : Z
}.

Definition end_of_table : SENSOR := mkSENSOR None "" "" "" 0 0.

(** The fields of a [DIALOG] entry that [sensors.c] reads or writes;
    [dp3] holds the index of the row of [sensors[]] it points to. *)
Record DIALOG := mkDIALOG {
  flags : Z;
  d1 : Z;
  d2 : Z;
  dp3 : option nat
}.

Definition D_DISABLED : Z := 32.
Definition D_DIRTY : Z := 64.

Definition TRUE : Z := 1.
Definition FALSE : Z := 0.

Definition SENSORS_PER_PAGE : Z := 9.
Definition NUM_OF_RETRIES : Z := 3.
Definition SENSORS_TO_TIME_OUT : Z := 3.
Definition REFRESH_RATE_PRECISION : Z := 10.

Inductive sensor_state_t := SENSOR_OFF | SENSOR_ACTIVE | SENSOR_NA.

Inductive message :=
  | MSG_START | MSG_END | MSG_DRAW | MSG_IDLE
  | MSG_TOGGLE | MSG_UPDATE | MSG_REFRESH
  | MSG_OTHER.

Inductive dialog_ret := D_O_K | D_REDRAWME.

(** Constants of the serial module. *)
Inductive comport_status_t := READY | NOT_OPEN | USER_IGNORED.

Inductive response_status_t := EMPTY | DATA | PROMPT.

Inductive response_type_t :=
  | HEX_DATA | BUS_BUSY | BUS_ERROR | DATA_ERROR | DATA_ERROR2
  | ERR_NO_DATA | SERIAL_ERROR | RUBBISH
  | OTHER_RESPONSE (code : Z).

(** Calls that leave [sensors.c]. *)
Inductive event :=
  | send_command (cmd : string)
  | start_serial_timer (delay : Z)
  | stop_serial_timer
  | reset_chip
  | install_int_inc_refresh_time (speed : Z)
  | broadcast_dialog_message (msg : message) (c : Z)
  | alert (lines : list string)
  | alert3 (lines : list string)
  | display_options.

Record state := mkState {
  (* file-scope variables of sensors.c *)
  device_connected : bool;
  reset_hardware : bool;
  num_of_sensors : Z;
  num_of_disabled_sensors : Z;
  sensors_on_page : Z;
  current_page : Z;
  inst_refresh_rate : spec_float;
  avg_refresh_rate : spec_float;
  refresh_time : Z;
  sensors : list SENSOR;
  (* the entries of sensor_dialog[] whose procedure is sensor_proc, in
     the order of the array, and those whose procedure is toggle_proc *)
  sensor_rows : list DIALOG;
  toggle_rows : list DIALOG;
  (* comport.status of the serial module and the unit system of the
     options module *)
  comport_status : comport_status_t;
  system_of_measurements : measurement_system;
  (* static variables of calculate_refresh_rate *)
  initialization_occured : bool;
  num_of_sensors_off : Z;
  reset_on_all_off_occured : bool;
  sensors_on_counter : Z;
  avg_refresh_rate_accumulator : spec_float;
  (* static variables of sensor_proc *)
  current_sensor : Z;
  new_page : bool;
  receiving_response : bool;
  num_of_sensors_timed_out : Z;
  ignore_device_not_connected : bool;
  retry_attempts : Z;
  vehicle_response : string;
  (* calls made to the other modules and to the GUI library, oldest first *)
  trace : list event
}.

Definition set_device_connected (v : bool) (s : state) : state :=
  mkState v (reset_hardware s) (num_of_sensors s) (num_of_disabled_sensors s) (sensors_on_page s) (current_page s) (inst_refresh_rate s) (avg_refresh_rate s) (refresh_time s) (sensors s) (sensor_rows s) (toggle_rows s) (comport_status s) (system_of_measurements s) (initialization_occured s) (num_of_sensors_off s) (reset_on_all_off_occured s) (sensors_on_counter s) (avg_refresh_rate_accumulator s) (current_sensor s) (new_page s) (receiving_response s) (num_of_sensors_timed_out s) (ignore_device_not_connected s) (retry_attempts s) (vehicle_response s) (trace s).
Definition set_reset_hardware (v : bool) (s : state) : state :=
  mkState (device_connected s) v (num_of_sensors s) (num_of_disabled_sensors s) (sensors_on_page s) (current_page s) (inst_refresh_rate s) (avg_refresh_rate s) (refresh_time s) (sensors s) (sensor_rows s) (toggle_rows s) (comport_status s) (system_of_measurements s) (initialization_occured s) (num_of_sensors_off s) (reset_on_all_off_occured s) (sensors_on_counter s) (avg_refresh_rate_accumulator s) (current_sensor s) (new_page s) (receiving_response s) (num_of_sensors_timed_out s) (ignore_device_not_connected s) (retry_attempts s) (vehicle_response s) (trace s).
Definition set_num_of_sensors (v : Z) (s : state) : state :=
  mkState (device_connected s) (reset_hardware s) v (num_of_disabled_sensors s) (sensors_on_page s) (current_page s) (inst_refresh_rate s) (avg_refresh_rate s) (refresh_time s) (sensors s) (sensor_rows s) (toggle_rows s) (comport_status s) (system_of_measurements s) (initialization_occured s) (num_of_sensors_off s) (reset_on_all_off_occured s) (sensors_on_counter s) (avg_refresh_rate_accumulator s) (current_sensor s) (new_page s) (receiving_response s) (num_of_sensors_timed_out s) (ignore_device_not_connected s) (retry_attempts s) (vehicle_response s) (trace s).
Definition set_num_of_disabled_sensors (v : Z) (s : state) : state :=
  mkState (device_connected s) (reset_hardware s) (num_of_sensors s) v (sensors_on_page s) (current_page s) (inst_refresh_rate s) (avg_refresh_rate s) (refresh_time s) (sensors s) (sensor_rows s) (toggle_rows s) (comport_status s) (system_of_measurements s) (initialization_occured s) (num_of_sensors_off s) (reset_on_all_off_occured s) (sensors_on_counter s) (avg_refresh_rate_accumulator s) (current_sensor s) (new_page s) (receiving_response s) (num_of_sensors_timed_out s) (ignore_device_not_connected s) (retry_attempts s) (vehicle_response s) (trace s).
Definition set_sensors_on_page (v : Z) (s : state) : state :=
  mkState (device_connected s) (reset_hardware s) (num_of_sensors s) (num_of_disabled_sensors s) v (current_page s) (inst_refresh_rate s) (avg_refresh_rate s) (refresh_time s) (sensors s) (sensor_rows s) (toggle_rows s) (comport_status s) (system_of_measurements s) (initialization_occured s) (num_of_sensors_off s) (reset_on_all_off_occured s) (sensors_on_counter s) (avg_refresh_rate_accumulator s) (current_sensor s) (new_page s) (receiving_response s) (num_of_sensors_timed_out s) (ignore_device_not_connected s) (retry_attempts s) (vehicle_response s) (trace s).
Definition set_current_page (v : Z) (s : state) : state :=
  mkState (device_connected s) (reset_hardware s) (num_of_sensors s) (num_of_disabled_sensors s) (sensors_on_page s) v (inst_refresh_rate s) (avg_refresh_rate s) (refresh_time s) (sensors s) (sensor_rows s) (toggle_rows s) (comport_status s) (system_of_measurements s) (initialization_occured s) (num_of_sensors_off s) (reset_on_all_off_occured s) (sensors_on_counter s) (avg_refresh_rate_accumulator s) (current_sensor s) (new_page s) (receiving_response s) (num_of_sensors_timed_out s) (ignore_device_not_connected s) (retry_attempts s) (vehicle_response s) (trace s).
Definition set_inst_refresh_rate (v : spec_float) (s : state) : state :=
  mkState (device_connected s) (reset_hardware s) (num_of_sensors s) (num_of_disabled_sensors s) (sensors_on_page s) (current_page s) v (avg_refresh_rate s) (refresh_time s) (sensors s) (sensor_rows s) (toggle_rows s) (comport_status s) (system_of_measurements s) (initialization_occured s) (num_of_sensors_off s) (reset_on_all_off_occured s) (sensors_on_counter s) (avg_refresh_rate_accumulator s) (current_sensor s) (new_page s) (receiving_response s) (num_of_sensors_timed_out s) (ignore_device_not_connected s) (retry_attempts s) (vehicle_response s) (trace s).
Definition set_avg_refresh_rate (v : spec_float) (s : state) : state :=
  mkState (device_connected s) (reset_hardware s) (num_of_sensors s) (num_of_disabled_sensors s) (sensors_on_page s) (current_page s) (inst_refresh_rate s) v (refresh_time s) (sensors s) (sensor_rows s) (toggle_rows s) (comport_status s) (system_of_measurements s) (initialization_occured s) (num_of_sensors_off s) (reset_on_all_off_occured s) (sensors_on_counter s) (avg_refresh_rate_accumulator s) (current_sensor s) (new_page s) (receiving_response s) (num_of_sensors_timed_out s) (ignore_device_not_connected s) (retry_attempts s) (vehicle_response s) (trace s).
Definition set_refresh_time (v : Z) (s : state) : state :=
  mkState (device_connected s) (reset_hardware s) (num_of_sensors s) (num_of_disabled_sensors s) (sensors_on_page s) (current_page s) (inst_refresh_rate s) (avg_refresh_rate s) v (sensors s) (sensor_rows s) (toggle_rows s) (comport_status s) (system_of_measurements s) (initialization_occured s) (num_of_sensors_off s) (reset_on_all_off_occured s) (sensors_on_counter s) (avg_refresh_rate_accumulator s) (current_sensor s) (new_page s) (receiving_response s) (num_of_sensors_timed_out s) (ignore_device_not_connected s) (retry_attempts s) (vehicle_response s) (trace s).
Definition set_sensors (v : list SENSOR) (s : state) : state :=
  mkState (device_connected s) (reset_hardware s) (num_of_sensors s) (num_of_disabled_sensors s) (sensors_on_page s) (current_page s) (inst_refresh_rate s) (avg_refresh_rate s) (refresh_time s) v (sensor_rows s) (toggle_rows s) (comport_status s) (system_of_measurements s) (initialization_occured s) (num_of_sensors_off s) (reset_on_all_off_occured s) (sensors_on_counter s) (avg_refresh_rate_accumulator s) (current_sensor s) (new_page s) (receiving_response s) (num_of_sensors_timed_out s) (ignore_device_not_connected s) (retry_attempts s) (vehicle_response s) (trace s).
Definition set_sensor_rows (v : list DIALOG) (s : state) : state :=
  mkState (device_connected s) (reset_hardware s) (num_of_sensors s) (num_of_disabled_sensors s) (sensors_on_page s) (current_page s) (inst_refresh_rate s) (avg_refresh_rate s) (refresh_time s) (sensors s) v (toggle_rows s) (comport_status s) (system_of_measurements s) (initialization_occured s) (num_of_sensors_off s) (reset_on_all_off_occured s) (sensors_on_counter s) (avg_refresh_rate_accumulator s) (current_sensor s) (new_page s) (receiving_response s) (num_of_sensors_timed_out s) (ignore_device_not_connected s) (retry_attempts s) (vehicle_response s) (trace s).
Definition set_toggle_rows (v : list DIALOG) (s : state) : state :=
  mkState (device_connected s) (reset_hardware s) (num_of_sensors s) (num_of_disabled_sensors s) (sensors_on_page s) (current_page s) (inst_refresh_rate s) (avg_refresh_rate s) (refresh_time s) (sensors s) (sensor_rows s) v (comport_status s) (system_of_measurements s) (initialization_occured s) (num_of_sensors_off s) (reset_on_all_off_occured s) (sensors_on_counter s) (avg_refresh_rate_accumulator s) (current_sensor s) (new_page s) (receiving_response s) (num_of_sensors_timed_out s) (ignore_device_not_connected s) (retry_attempts s) (vehicle_response s) (trace s).
Definition set_comport_status (v : comport_status_t) (s : state) : state :=
  mkState (device_connected s) (reset_hardware s) (num_of_sensors s) (num_of_disabled_sensors s) (sensors_on_page s) (current_page s) (inst_refresh_rate s) (avg_refresh_rate s) (refresh_time s) (sensors s) (sensor_rows s) (toggle_rows s) v (system_of_measurements s) (initialization_occured s) (num_of_sensors_off s) (reset_on_all_off_occured s) (sensors_on_counter s) (avg_refresh_rate_accumulator s) (current_sensor s) (new_page s) (receiving_response s) (num_of_sensors_timed_out s) (ignore_device_not_connected s) (retry_attempts s) (vehicle_response s) (trace s).
Definition set_system_of_measurements (v : measurement_system) (s : state) : state :=
  mkState (device_connected s) (reset_hardware s) (num_of_sensors s) (num_of_disabled_sensors s) (sensors_on_page s) (current_page s) (inst_refresh_rate s) (avg_refresh_rate s) (refresh_time s) (sensors s) (sensor_rows s) (toggle_rows s) (comport_status s) v (initialization_occured s) (num_of_sensors_off s) (reset_on_all_off_occured s) (sensors_on_counter s) (avg_refresh_rate_accumulator s) (current_sensor s) (new_page s) (receiving_response s) (num_of_sensors_timed_out s) (ignore_device_not_connected s) (retry_attempts s) (vehicle_response s) (trace s).
Definition set_initialization_occured (v : bool) (s : state) : state :=
  mkState (device_connected s) (reset_hardware s) (num_of_sensors s) (num_of_disabled_sensors s) (sensors_on_page s) (current_page s) (inst_refresh_rate s) (avg_refresh_rate s) (refresh_time s) (sensors s) (sensor_rows s) (toggle_rows s) (comport_status s) (system_of_measurements s) v (num_of_sensors_off s) (reset_on_all_off_occured s) (sensors_on_counter s) (avg_refresh_rate_accumulator s) (current_sensor s) (new_page s) (receiving_response s) (num_of_sensors_timed_out s) (ignore_device_not_connected s) (retry_attempts s) (vehicle_response s) (trace s).
Definition set_num_of_sensors_off (v : Z) (s : state) : state :=
  mkState (device_connected s) (reset_hardware s) (num_of_sensors s) (num_of_disabled_sensors s) (sensors_on_page s) (current_page s) (inst_refresh_rate s) (avg_refresh_rate s) (refresh_time s) (sensors s) (sensor_rows s) (toggle_rows s) (comport_status s) (system_of_measurements s) (initialization_occured s) v (reset_on_all_off_occured s) (sensors_on_counter s) (avg_refresh_rate_accumulator s) (current_sensor s) (new_page s) (receiving_response s) (num_of_sensors_timed_out s) (ignore_device_not_connected s) (retry_attempts s) (vehicle_response s) (trace s).
Definition set_reset_on_all_off_occured (v : bool) (s : state) : state :=
  mkState (device_connected s) (reset_hardware s) (num_of_sensors s) (num_of_disabled_sensors s) (sensors_on_page s) (current_page s) (inst_refresh_rate s) (avg_refresh_rate s) (refresh_time s) (sensors s) (sensor_rows s) (toggle_rows s) (comport_status s) (system_of_measurements s) (initialization_occured s) (num_of_sensors_off s) v (sensors_on_counter s) (avg_refresh_rate_accumulator s) (current_sensor s) (new_page s) (receiving_response s) (num_of_sensors_timed_out s) (ignore_device_not_connected s) (retry_attempts s) (vehicle_response s) (trace s).
Definition set_sensors_on_counter (v : Z) (s : state) : state :=
  mkState (device_connected s) (reset_hardware s) (num_of_sensors s) (num_of_disabled_sensors s) (sensors_on_page s) (current_page s) (inst_refresh_rate s) (avg_refresh_rate s) (refresh_time s) (sensors s) (sensor_rows s) (toggle_rows s) (comport_status s) (system_of_measurements s) (initialization_occured s) (num_of_sensors_off s) (reset_on_all_off_occured s) v (avg_refresh_rate_accumulator s) (current_sensor s) (new_page s) (receiving_response s) (num_of_sensors_timed_out s) (ignore_device_not_connected s) (retry_attempts s) (vehicle_response s) (trace s).
Definition set_avg_refresh_rate_accumulator (v : spec_float) (s : state) : state :=
  mkState (device_connected s) (reset_hardware s) (num_of_sensors s) (num_of_disabled_sensors s) (sensors_on_page s) (current_page s) (inst_refresh_rate s) (avg_refresh_rate s) (refresh_time s) (sensors s) (sensor_rows s) (toggle_rows s) (comport_status s) (system_of_measurements s) (initialization_occured s) (num_of_sensors_off s) (reset_on_all_off_occured s) (sensors_on_counter s) v (current_sensor s) (new_page s) (receiving_response s) (num_of_sensors_timed_out s) (ignore_device_not_connected s) (retry_attempts s) (vehicle_response s) (trace s).
Definition set_current_sensor (v : Z) (s : state) : state :=
  mkState (device_connected s) (reset_hardware s) (num_of_sensors s) (num_of_disabled_sensors s) (sensors_on_page s) (current_page s) (inst_refresh_rate s) (avg_refresh_rate s) (refresh_time s) (sensors s) (sensor_rows s) (toggle_rows s) (comport_status s) (system_of_measurements s) (initialization_occured s) (num_of_sensors_off s) (reset_on_all_off_occured s) (sensors_on_counter s) (avg_refresh_rate_accumulator s) v (new_page s) (receiving_response s) (num_of_sensors_timed_out s) (ignore_device_not_connected s) (retry_attempts s) (vehicle_response s) (trace s).
Definition set_new_page (v : bool) (s : state) : state :=
  mkState (device_connected s) (reset_hardware s) (num_of_sensors s) (num_of_disabled_sensors s) (sensors_on_page s) (current_page s) (inst_refresh_rate s) (avg_refresh_rate s) (refresh_time s) (sensors s) (sensor_rows s) (toggle_rows s) (comport_status s) (system_of_measurements s) (initialization_occured s) (num_of_sensors_off s) (reset_on_all_off_occured s) (sensors_on_counter s) (avg_refresh_rate_accumulator s) (current_sensor s) v (receiving_response s) (num_of_sensors_timed_out s) (ignore_device_not_connected s) (retry_attempts s) (vehicle_response s) (trace s).
Definition set_receiving_response (v : bool) (s : state) : state :=
  mkState (device_connected s) (reset_hardware s) (num_of_sensors s) (num_of_disabled_sensors s) (sensors_on_page s) (current_page s) (inst_refresh_rate s) (avg_refresh_rate s) (refresh_time s) (sensors s) (sensor_rows s) (toggle_rows s) (comport_status s) (system_of_measurements s) (initialization_occured s) (num_of_sensors_off s) (reset_on_all_off_occured s) (sensors_on_counter s) (avg_refresh_rate_accumulator s) (current_sensor s) (new_page s) v (num_of_sensors_timed_out s) (ignore_device_not_connected s) (retry_attempts s) (vehicle_response s) (trace s).
Definition set_num_of_sensors_timed_out (v : Z) (s : state) : state :=
  mkState (device_connected s) (reset_hardware s) (num_of_sensors s) (num_of_disabled_sensors s) (sensors_on_page s) (current_page s) (inst_refresh_rate s) (avg_refresh_rate s) (refresh_time s) (sensors s) (sensor_rows s) (toggle_rows s) (comport_status s) (system_of_measurements s) (initialization_occured s) (num_of_sensors_off s) (reset_on_all_off_occured s) (sensors_on_counter s) (avg_refresh_rate_accumulator s) (current_sensor s) (new_page s) (receiving_response s) v (ignore_device_not_connected s) (retry_attempts s) (vehicle_response s) (trace s).
Definition set_ignore_device_not_connected (v : bool) (s : state) : state :=
  mkState (device_connected s) (reset_hardware s) (num_of_sensors s) (num_of_disabled_sensors s) (sensors_on_page s) (current_page s) (inst_refresh_rate s) (avg_refresh_rate s) (refresh_time s) (sensors s) (sensor_rows s) (toggle_rows s) (comport_status s) (system_of_measurements s) (initialization_occured s) (num_of_sensors_off s) (reset_on_all_off_occured s) (sensors_on_counter s) (avg_refresh_rate_accumulator s) (current_sensor s) (new_page s) (receiving_response s) (num_of_sensors_timed_out s) v (retry_attempts s) (vehicle_response s) (trace s).
Definition set_retry_attempts (v : Z) (s : state) : state :=
  mkState (device_connected s) (reset_hardware s) (num_of_sensors s) (num_of_disabled_sensors s) (sensors_on_page s) (current_page s) (inst_refresh_rate s) (avg_refresh_rate s) (refresh_time s) (sensors s) (sensor_rows s) (toggle_rows s) (comport_status s) (system_of_measurements s) (initialization_occured s) (num_of_sensors_off s) (reset_on_all_off_occured s) (sensors_on_counter s) (avg_refresh_rate_accumulator s) (current_sensor s) (new_page s) (receiving_response s) (num_of_sensors_timed_out s) (ignore_device_not_connected s) v (vehicle_response s) (trace s).
Definition set_vehicle_response (v : string) (s : state) : state :=
  mkState (device_connected s) (reset_hardware s) (num_of_sensors s) (num_of_disabled_sensors s) (sensors_on_page s) (current_page s) (inst_refresh_rate s) (avg_refresh_rate s) (refresh_time s) (sensors s) (sensor_rows s) (toggle_rows s) (comport_status s) (system_of_measurements s) (initialization_occured s) (num_of_sensors_off s) (reset_on_all_off_occured s) (sensors_on_counter s) (avg_refresh_rate_accumulator s) (current_sensor s) (new_page s) (receiving_response s) (num_of_sensors_timed_out s) (ignore_device_not_connected s) (retry_attempts s) v (trace s).
Definition set_trace (v : list event) (s : state) : state :=
  mkState (device_connected s) (reset_hardware s) (num_of_sensors s) (num_of_disabled_sensors s) (sensors_on_page s) (current_page s) (inst_refresh_rate s) (avg_refresh_rate s) (refresh_time s) (sensors s) (sensor_rows s) (toggle_rows s) (comport_status s) (system_of_measurements s) (initialization_occured s) (num_of_sensors_off s) (reset_on_all_off_occured s) (sensors_on_counter s) (avg_refresh_rate_accumulator s) (current_sensor s) (new_page s) (receiving_response s) (num_of_sensors_timed_out s) (ignore_device_not_connected s) (retry_attempts s) (vehicle_response s) v.

(** What [display_options()] leaves behind. *)
Record options_result := mkOptions {
  status_after : comport_status_t;
  system_after : measurement_system
}.

(** What the other modules and the user answer during one call of
    [sensor_proc]. *)
Record env := mkEnv {
  (* status and chunk returned by read_comport(buf) *)
  read_comport : response_status_t * string;
  (* process_response(cmd, msg): the kind it returns and the text it
     leaves in msg *)
  process_response : string -> string -> response_type_t * string;
  (* serial_time_out when it is tested *)
  serial_time_out : bool;
  (* button chosen in "Device is not responding." *)
  alert3_answer : Z;
  alert3_options : options_result;
  (* buttons chosen in "Port is not ready.", one per round *)
  port_dialogue : list (Z * options_result);
  (* the text the C library's sprintf writes for a "%W.Pf" conversion,
     given the width W, the precision P and the value *)
  sprintf_f : Z -> Z -> spec_float -> string
}.

(** ** Helpers for the shared state *)

Definition log (ev : event) (s : state) : state :=
  set_trace (trace s ++ [ev]) s.

(** [f & m] read as a truth value *)
Definition flag_set (f m : Z) : bool := negb (Z.land f m =? 0).

Definition with_flags (f : Z) (d : DIALOG) : DIALOG :=
  mkDIALOG f (d1 d) (d2 d) (dp3 d).
Definition with_d2 (v : Z) (d : DIALOG) : DIALOG :=
  mkDIALOG (flags d) (d1 d) v (dp3 d).
Definition with_dp3 (q : option nat) (d : DIALOG) : DIALOG :=
  mkDIALOG (flags d) (d1 d) (d2 d) q.

Definition with_screen_buf (text : string) (r : SENSOR) : SENSOR :=
  mkSENSOR (formula r) (label r) text (command r) (enabled r) (bytes r).
Definition with_enabled (v : Z) (r : SENSOR) : SENSOR :=
  mkSENSOR (formula r) (label r) (screen_buf r) (command r) v (bytes r).

(** [sensors[k]]; the row after the last one is the end-of-table row. *)
Definition sensor_at (s : state) (k : nat) : SENSOR :=
  default end_of_table (sensors s !! k).

(** [strcpy(sensors[k].screen_buf, text)] *)
Definition strcpy_screen_buf (k : nat) (text : string) (s : state) : state :=
  set_sensors (alter (with_screen_buf text) k (sensors s)) s.

(** [sensors[k].enabled = v] *)
Definition store_enabled (k : nat) (v : Z) (s : state) : state :=
  set_sensors (alter (with_enabled v) k (sensors s)) s.

Definition put_sensor_row (i : nat) (d : DIALOG) (s : state) : state :=
  set_sensor_rows (<[i := d]> (sensor_rows s)) s.
Definition put_toggle_row (i : nat) (d : DIALOG) (s : state) : state :=
  set_toggle_rows (<[i := d]> (toggle_rows s)) s.

(** ** [inc_refresh_time] and [calculate_refresh_rate] *)

Definition inc_refresh_time (s : state) : state :=
  set_refresh_time (wrap_int (refresh_time s + 1)) s.

(** [1/(refresh_time*REFRESH_RATE_PRECISION*0.001)], computed in [double]
    and stored in a [float]. *)
Definition rate_of_ticks (ticks : Z) : spec_float :=
  float_of_double
    (double_div (double_of_int 1)
       (double_mul (double_of_int (wrap_int (ticks * REFRESH_RATE_PRECISION)))
          double_0_001)).

Definition calculate_refresh_rate (sensor_state : sensor_state_t) (s : state)
  : state :=
  if negb (initialization_occured s) then
    match sensor_state with
    | SENSOR_ACTIVE =>
        let s := set_refresh_time 0 s in
        let s := log (install_int_inc_refresh_time REFRESH_RATE_PRECISION) s in
        set_initialization_occured true s
    | _ => s
    end
  else if (sensors_on_page s <=? num_of_sensors_off s)
          && negb (reset_on_all_off_occured s) then
    let s := set_inst_refresh_rate (float_of_int 0) s in
    let s := set_avg_refresh_rate (float_of_int 0) s in
    let s := set_reset_on_all_off_occured true s in
    log (broadcast_dialog_message MSG_REFRESH 0) s
  else
    match sensor_state with
    | SENSOR_OFF => s
    | _ =>
        let s := set_reset_on_all_off_occured false s in
        let s := set_inst_refresh_rate (rate_of_ticks (refresh_time s)) s in
        let s :=
          if sensors_on_counter s
             <? sensors_on_page s - num_of_disabled_sensors s then
            let s := set_sensors_on_counter (sensors_on_counter s + 1) s in
            set_avg_refresh_rate_accumulator
              (float_add (avg_refresh_rate_accumulator s)
                 (inst_refresh_rate s)) s
          else
            let s :=
              set_avg_refresh_rate
                (float_div (avg_refresh_rate_accumulator s)
                   (float_of_int (sensors_on_counter s))) s in
            let s := set_avg_refresh_rate_accumulator (float_of_int 0) s in
            set_sensors_on_counter 0 s in
        let s :=
          match sensor_state with
          | SENSOR_ACTIVE => set_refresh_time 0 s
          | _ => s
          end in
        log (broadcast_dialog_message MSG_REFRESH 0) s
    end.

(** ** [toggle_proc]

    Its button caption and colour are not part of the state; [d2] is 1
    while the button shows ON. *)

Definition toggle_proc_update (d : DIALOG) (s : state) : DIALOG * state :=
  let '(d, s) :=
    if sensors_on_page s <=? d1 d then
      let d' := with_flags (Z.lor (flags d) D_DISABLED) d in
      (d', if d2 d =? 0
           then set_num_of_disabled_sensors (num_of_disabled_sensors s - 1) s
           else s)
    else
      let s :=
        if flag_set (flags d) D_DISABLED && (d2 d =? 0)
        then set_num_of_disabled_sensors (num_of_disabled_sensors s + 1) s
        else s in
      (with_flags (Z.land (flags d) (Z.lnot D_DISABLED)) d, s) in
  (with_flags (Z.lor (flags d) D_DIRTY) d, s).

Definition toggle_proc_msg (msg : message) (i : nat) (c : Z) (s : state)
  : state :=
  match toggle_rows s !! i with
  | None => s
  | Some d =>
      match msg with
      | MSG_START =>
          let '(d, s) := toggle_proc_update (with_d2 1 d) s in
          put_toggle_row i d s
      | MSG_UPDATE =>
          let '(d, s) := toggle_proc_update d s in
          put_toggle_row i d s
      | MSG_TOGGLE =>
          if ((c =? d1 d) || ((c =? -2) && (d2 d =? 1))
              || ((c =? -1) && (d2 d =? 0)))
             && negb (flag_set (flags d) D_DISABLED)
          then put_toggle_row i (with_d2 (if d2 d =? 0 then 1 else 0) d) s
          else s
      | _ => s
      end
  end.

(** ** [sensor_proc] *)

(** How a call ends: it returns, it never returns, or its behaviour is
    undefined: it writes past the end of an array, reads memory whose
    content the program has not set or calls through a null pointer. *)
Inductive outcome :=
  | Returns (ret : dialog_ret) (s : state)
  | Hangs
  | Undefined.

(** [(current_sensor == sensors_on_page - 1) ? 0 : current_sensor + 1] *)
Definition next_sensor (s : state) : Z :=
  if current_sensor s =? sensors_on_page s - 1 then 0
  else current_sensor s + 1.

(** The statements after the [switch]. *)
Definition sensor_proc_end (d : DIALOG) (k : nat) (s : state) : state :=
  if flag_set (flags d) D_DISABLED
  then strcpy_screen_buf k "not monitoring" s
  else s.

(** [case MSG_UPDATE], up to its [break]. *)
Definition sensor_proc_update (d : DIALOG) (k : nat) (s : state)
  : DIALOG * state :=
  let s :=
    if d1 d =? 0 then
      let s := set_current_sensor 0 s in
      let s := set_num_of_sensors_timed_out 0 s in
      let s := set_new_page true s in
      let s := set_inst_refresh_rate (float_of_int 0) s in
      let s := set_avg_refresh_rate (float_of_int 0) s in
      set_refresh_time 0 s
    else s in
  let on := negb (enabled (sensor_at s k) =? 0) in
  let disabled := flag_set (flags d) D_DISABLED in
  let d := if (on && disabled) || (negb on && negb disabled)
           then with_d2 1 d else d in
  (with_flags (Z.lor (flags d) D_DIRTY) d, s).

(** [case MSG_START], which runs into [case MSG_UPDATE]. *)
Definition sensor_proc_start (d : DIALOG) (k : nat) (s : state)
  : DIALOG * state :=
  let s :=
    if d1 d =? 0 then
      let s := log stop_serial_timer s in
      let s := set_receiving_response false s in
      let s := set_device_connected false s in
      let s := set_ignore_device_not_connected false s in
      set_num_of_disabled_sensors 0 s
    else s in
  let d := with_d2 0 d in
  let d := with_flags (Z.land (flags d) (Z.lnot D_DISABLED)) d in
  sensor_proc_update d k s.

(** [case MSG_TOGGLE]: [Some] when the row toggles and the function
    returns [D_REDRAWME], [None] when the [switch] is left by [break]. *)
Definition sensor_proc_toggle (d : DIALOG) (k : nat) (c : Z) (s : state)
  : option (DIALOG * state) :=
  let disabled := flag_set (flags d) D_DISABLED in
  if (d1 d =? c) || ((c =? -2) && negb disabled) || ((c =? -1) && disabled)
  then
    if disabled then
      let d := with_flags (Z.land (flags d) (Z.lnot D_DISABLED)) d in
      let s := store_enabled k TRUE s in
      let s :=
        set_num_of_disabled_sensors (num_of_disabled_sensors s - 1) s in
      Some (d, strcpy_screen_buf k "N/A" s)
    else
      let d := with_flags (Z.lor (flags d) D_DISABLED) d in
      let s := store_enabled k FALSE s in
      let s :=
        set_num_of_disabled_sensors (num_of_disabled_sensors s + 1) s in
      let s := strcpy_screen_buf k "not monitoring" s in
      Some (d, if num_of_disabled_sensors s =? sensors_on_page s
               then set_num_of_sensors_timed_out 0 s else s)
  else None.

(** [sensor_proc(MSG_TOGGLE, &row i, c)] as a whole. *)
Definition sensor_proc_msg_toggle (i : nat) (c : Z) (s : state)
  : dialog_ret * state :=
  match sensor_rows s !! i with
  | None => (D_O_K, s)
  | Some d =>
      match dp3 d with
      | None => (D_O_K, s)
      | Some k =>
          match sensor_proc_toggle d k c s with
          | Some (d, s) => (D_REDRAWME, put_sensor_row i d s)
          | None => (D_O_K, sensor_proc_end d k s)
          end
      end
  end.

(** [broadcast_dialog_message(msg, c)] for the messages whose handlers
    change the state of this file.  The array holds, for each line of the
    page, the toggle button before the sensor row.  The remaining
    procedures of the dialog change their own entries only. *)
Definition broadcast_toggle (c : Z) (s : state) : state :=
  fold_left
    (fun s i => snd (sensor_proc_msg_toggle i c (toggle_proc_msg MSG_TOGGLE i c s)))
    (seq 0 (length (sensor_rows s))) s.

(** [sensor_proc(MSG_START, ...)] and [sensor_proc(MSG_UPDATE, ...)] *)
Definition sensor_proc_msg_init (msg : message) (i : nat) (s : state)
  : dialog_ret * state :=
  match sensor_rows s !! i with
  | None => (D_O_K, s)
  | Some d =>
      match dp3 d with
      | None => (D_O_K, s)
      | Some k =>
          let '(d, s) :=
            match msg with
            | MSG_START => sensor_proc_start d k s
            | _ => sensor_proc_update d k s
            end in
          (D_O_K, sensor_proc_end d k (put_sensor_row i d s))
      end
  end.

Definition broadcast_init (msg : message) (c : Z) (s : state) : state :=
  fold_left
    (fun s i => snd (sensor_proc_msg_init msg i (toggle_proc_msg msg i c s)))
    (seq 0 (length (sensor_rows s))) s.

(** Where the [MSG_IDLE] case goes next: the function is over, the
    [switch] is left by [break], or control reaches the test of
    [serial_time_out]. *)
Inductive flow :=
  | Done (o : outcome)
  | Break (s : state)
  | Next (s : state).

Definition apply_options (o : options_result) (s : state) : state :=
  set_system_of_measurements (system_after o)
    (set_comport_status (status_after o) s).

(** The loop [find_valid_response] runs is left within two evaluations of
    its condition or never (lemmas [find_loop_settled] and
    [find_loop_never] below). *)
Definition enough_fuel : nat := 2.

Section SensorProc.

Variable SPECIAL_DELIMITER : ascii.
Variable OBD_REQUEST_TIMEOUT : Z.
Variable LONG_MAX : Z.

(** The [switch] that picks the alert once the retries are used up; no
case matches the other kinds. *)
Definition retry_alert_lines (response_type : response_type_t)
  : option (list string) :=
  match response_type with
  | BUS_BUSY => Some ["OBD Bus Busy: could not read sensor"]
  | DATA_ERROR | DATA_ERROR2 =>
      Some ["Data Error: there has been a loss of data.";
            "You may have a bad connection to the vehicle,";
            "check the cable."]
  | SERIAL_ERROR | RUBBISH =>
      Some ["Serial Link Error: please check connection";
            "between computer and OBD interface."]
  | _ => None
  end.

Definition retry_alert (response_type : response_type_t) (s : state)
  : state :=
  match retry_alert_lines response_type with
  | Some lines => log (alert lines) s
  | None => s
  end.

(** From [strcpy(sensor->screen_buf, "N/A")] after the [HEX_DATA] test to
    the end of the [PROMPT] branch. *)
Definition handle_failure (k : nat) (response_type : response_type_t)
    (s : state) : outcome :=
  let s := strcpy_screen_buf k "N/A" s in
  let s := calculate_refresh_rate SENSOR_NA s in
  match response_type with
  | ERR_NO_DATA =>
      let s := set_current_sensor (next_sensor s) s in
      Returns D_REDRAWME (set_retry_attempts NUM_OF_RETRIES s)
  | BUS_ERROR =>
      let s :=
        log (alert ["Bus Error: OBDII bus is shorted to Vbatt or Ground."])
          s in
      Returns D_REDRAWME (set_retry_attempts NUM_OF_RETRIES s)
  | _ =>
      if 0 <? retry_attempts s then
        Returns D_O_K (set_retry_attempts (retry_attempts s - 1) s)
      else
        let s := retry_alert response_type s in
        Returns D_REDRAWME (set_retry_attempts NUM_OF_RETRIES s)
  end.

(** The branch [response_status == PROMPT]; [buf] is the chunk that
    [read_comport] delivered.  The arrays [buf] and [screen_buf] have their
    sizes here.  The capacity of [vehicle_response], 512 characters, is not
    part of the state: a statement about a response that is accumulated
    over several calls carries it as a hypothesis. *)
Definition handle_prompt (k : nat) (buf : string) (e : env) (s : state)
  : flow :=
  let s := set_device_connected true s in
  let s := set_num_of_sensors_timed_out 0 s in
  let s := set_receiving_response false s in
  let s := log stop_serial_timer s in
  if new_page s then Break s
  else
    let r := sensor_at s k in
    let '(response_type, text) :=
      process_response e (command r) (strcat (vehicle_response s) buf) in
    let s := set_vehicle_response text s in
    match response_type with
    | HEX_DATA =>
        match find_valid_response SPECIAL_DELIMITER enough_fuel text with
        | None => Done Hangs
        | Some (true, buf) =>
            (* the token was copied into the array buf[80] of sensor_proc,
               which holds 79 characters and the terminator *)
            if 80 <=? strlen buf then Done Undefined
            (* a token shorter than four characters leaves buf + 4
               pointing behind its terminator *)
            else if strlen buf <? 4 then Done Undefined
            else
              let s := calculate_refresh_rate SENSOR_ACTIVE s in
              let buf := terminate_at (4 + bytes r * 2) buf in
              let data := wrap_int (strtol16 LONG_MAX (offset 4 buf)) in
              match formula r with
              | None => Done Undefined
              | Some f =>
                  let text :=
                    formula_body (sprintf_f e) f
                      (system_of_measurements s) data in
                  (* the formula prints into buf, from where the text is
                     copied to the array screen_buf[64] *)
                  if 64 <=? strlen text then Done Undefined
                  else
                    let s := strcpy_screen_buf k text s in
                    let s := set_current_sensor (next_sensor s) s in
                    Done (Returns D_REDRAWME
                            (set_retry_attempts NUM_OF_RETRIES s))
              end
        | Some (false, _) => Done (handle_failure k ERR_NO_DATA s)
        end
    | _ => Done (handle_failure k response_type s)
    end.

(** The body of [if (comport.status == READY)]. *)
Definition ready_block (d : DIALOG) (k : nat) (e : env) (s : state)
  : flow :=
  let disabled := flag_set (flags d) D_DISABLED in
  let s := if disabled then calculate_refresh_rate SENSOR_OFF s else s in
  if negb (receiving_response s) then
    if disabled then
      let s := set_current_sensor (next_sensor s) s in
      Done (Returns D_O_K (set_receiving_response false s))
    else
      let s := log (send_command (command (sensor_at s k))) s in
      let s := set_new_page false s in
      let s := set_receiving_response true s in
      let s := log (start_serial_timer OBD_REQUEST_TIMEOUT) s in
      Next (set_vehicle_response "" s)
  else
    let '(response_status, buf) := read_comport e in
    if disabled then
      Done (Returns D_O_K (set_current_sensor (next_sensor s) s))
    else
      match response_status with
      | DATA => Next (set_vehicle_response (strcat (vehicle_response s) buf) s)
      | PROMPT => handle_prompt k buf e s
      | EMPTY => Next s
      end.

(** The loop that runs while [comport.status == NOT_OPEN].  Each round
    shows "Port is not ready." and takes one answer; without an answer
    the loop waits. *)
Fixpoint port_not_ready (answers : list (Z * options_result)) (s : state)
  : option state :=
  match comport_status s with
  | NOT_OPEN =>
      match answers with
      | [] => None
      | (button, after) :: rest =>
          let s :=
            log (alert ["Port is not ready.";
                        "Please check that you specified the correct port";
                        "and that no other application is using it"]) s in
          if button =? 1
          then port_not_ready rest (apply_options after (log display_options s))
          else port_not_ready rest (set_comport_status USER_IGNORED s)
      end
  | _ => Some s
  end.

(** The body of [if (serial_time_out)]. *)
Definition handle_time_out (k : nat) (e : env) (s : state) : outcome :=
  let s := set_receiving_response false s in
  let s := strcpy_screen_buf k "N/A" s in
  let s :=
    if SENSORS_TO_TIME_OUT <=? num_of_sensors_timed_out s then
      let s := set_num_of_sensors_timed_out 0 s in
      let s := set_device_connected false s in
      if negb (ignore_device_not_connected s) then
        let s :=
          log (alert3 ["Device is not responding.";
                       "Please check that it is connected";
                       "and the port settings are correct"]) s in
        if alert3_answer e =? 2
        then apply_options (alert3_options e) (log display_options s)
        else if alert3_answer e =? 3
             then set_ignore_device_not_connected true s
             else s
      else s
    else set_num_of_sensors_timed_out (num_of_sensors_timed_out s + 1) s in
  match port_not_ready (port_dialogue e) s with
  | None => Hangs
  | Some s =>
      let s := log stop_serial_timer s in
      Returns D_REDRAWME (set_current_sensor (next_sensor s) s)
  end.

(** [case MSG_IDLE] *)
Definition sensor_proc_idle (d : DIALOG) (k : nat) (e : env) (s : state)
  : flow :=
  if d1 d =? current_sensor s then
    let f :=
      match comport_status s with
      | READY => ready_block d k e s
      | _ => Next s
      end in
    match f with
    | Next s => if serial_time_out e then Done (handle_time_out k e s)
                else Break s
    | _ => f
    end
  else Break s.

(** [case MSG_DRAW], without the drawing itself. *)
Definition sensor_proc_draw (i : nat) (d : DIALOG) (s : state) : state :=
  if d2 d =? 0 then s
  else broadcast_toggle (d1 d) (put_sensor_row i (with_d2 0 d) s).

(** [int sensor_proc(int msg, DIALOG *d, int c)] for the [i]-th sensor
    row of the dialog. *)
Definition sensor_proc (msg : message) (i : nat) (c : Z) (e : env)
    (s : state) : outcome :=
  match sensor_rows s !! i with
  | None => Returns D_O_K s
  | Some d =>
      if match msg with MSG_IDLE => reset_hardware s | _ => false end then
        let s := set_reset_hardware false s in
        let s := if receiving_response s
                 then set_receiving_response false s else s in
        Returns D_O_K (log reset_chip s)
      else
        match dp3 d, msg with
        | _, MSG_DRAW => Returns D_O_K (sensor_proc_draw i d s)
        | None, _ => Returns D_O_K s
        | Some k, (MSG_START | MSG_UPDATE) =>
            let '(ret, s) := sensor_proc_msg_init msg i s in Returns ret s
        | Some k, MSG_TOGGLE =>
            let '(ret, s) := sensor_proc_msg_toggle i c s in Returns ret s
        | Some k, MSG_END =>
            let s := if d1 d =? sensors_on_page s - 1
                     then log stop_serial_timer s else s in
            let d := with_dp3 None d in
            Returns D_O_K (sensor_proc_end d k (put_sensor_row i d s))
        | Some k, MSG_IDLE =>
            match sensor_proc_idle d k e s with
            | Done o => o
            | Break s | Next s => Returns D_O_K (sensor_proc_end d k s)
            end
        | Some k, _ => Returns D_O_K (sensor_proc_end d k s)
        end
  end.

End SensorProc.

(** ** [fill_sensors], [page_flipper_proc] and [display_sensor_dialog] *)

Definition fill_sensors (page_number : Z) (s : state) : state :=
  let '(s, index) :=
    fold_left
      (fun '(s, index) i =>
         match sensor_rows s !! i with
         | None => (s, index)
         | Some d =>
             let k := Z.to_nat (index + page_number * SENSORS_PER_PAGE) in
             match formula (sensor_at s k) with
             | Some _ =>
                 let s := strcpy_screen_buf k "N/A" s in
                 (put_sensor_row i (with_dp3 (Some k) d) s, index + 1)
             | None =>
                 let d := with_dp3 None d in
                 let d := with_flags (Z.lor (flags d) D_DIRTY) d in
                 (put_sensor_row i d s, index)
             end
         end)
      (seq 0 (length (sensor_rows s))) (s, 0) in
  set_sensors_on_page index s.

Definition last_page (s : state) : Z :=
  if negb (Z.rem (num_of_sensors s) SENSORS_PER_PAGE =? 0)
  then Z.quot (num_of_sensors s) SENSORS_PER_PAGE
  else Z.quot (num_of_sensors s) SENSORS_PER_PAGE - 1.

(** What [page_flipper_proc] does once its button, whose [d1] is
    [direction], has been pressed. *)
Definition turn_page (direction : Z) (s : state) : state :=
  let s :=
    if direction =? -1 then set_current_page (current_page s - 1) s
    else if direction =? 1 then set_current_page (current_page s + 1) s
    else s in
  if current_page s <? 0 then set_current_page 0 s
  else if last_page s <? current_page s
       then set_current_page (last_page s) s
       else s.

Definition page_flipper_proc_close (direction : Z) (s : state) : state :=
  let s := turn_page direction s in
  let s := fill_sensors (current_page s) s in
  broadcast_init MSG_UPDATE 0 s.

(** What [toggle_proc] does once the button of line [i] has been pressed. *)
Definition toggle_proc_close (i : nat) (s : state) : state :=
  match toggle_rows s !! i with
  | Some d => broadcast_toggle (d1 d) s
  | None => s
  end.

(** The loop that counts the rows before the end of the table. *)
Fixpoint count_rows (l : list SENSOR) : Z :=
  match l with
  | r :: l' =>
      match formula r with
      | Some _ => 1 + count_rows l'
      | None => 0
      end
  | [] => 0
  end.

(** [load_sensor_states]; [config i] is what [get_config_int] returns for
    the key of row [i]. *)
Fixpoint load_rows (config : nat -> Z) (i : nat) (l : list SENSOR)
  : list SENSOR :=
  match l with
  | r :: l' =>
      match formula r with
      | Some _ => with_enabled (config i) r :: load_rows config (S i) l'
      | None => l
      end
  | [] => []
  end.

(** [display_sensor_dialog] up to the [MSG_START] and [MSG_DRAW] messages
    with which [do_dialog] opens the dialog. *)
Definition display_sensor_dialog (config : nat -> Z) (s : state) : state :=
  let s := set_num_of_sensors (count_rows (sensors s)) s in
  let s := set_current_page 0 s in
  let s := set_reset_hardware true s in
  let s := set_sensors (load_rows config 0 (sensors s)) s in
  let s := fill_sensors 0 s in
  let s := broadcast_init MSG_START 0 s in
  fold_left
    (fun s i =>
       match sensor_rows s !! i with
       | Some d => sensor_proc_draw i d s
       | None => s
       end)
    (seq 0 (length (sensor_rows s))) s.

(** The table of the source and the variables as their initialisers leave
    them.  The two variables that belong to other modules are arguments. *)
Definition sensors_table : list SENSOR :=
  [ mkSENSOR (Some fn_throttle_position_formula) "Absolute Throttle Position:" "" "0111" 1 1;
    mkSENSOR (Some fn_engine_rpm_formula) "Engine RPM:" "" "010C" 1 2;
    mkSENSOR (Some fn_vehicle_speed_formula) "Vehicle Speed:" "" "010D" 1 1;
    mkSENSOR (Some fn_engine_load_formula) "Calculated Load Value:" "" "0104" 1 1;
    mkSENSOR (Some fn_timing_advance_formula) "Timing Advance:" "" "010E" 1 1;
    mkSENSOR (Some fn_intake_pressure_formula) "Intake Manifold Pressure:" "" "010B" 1 1;
    mkSENSOR (Some fn_air_flow_rate_formula) "Air Flow Rate (MAF sensor):" "" "0110" 1 2;
    mkSENSOR (Some fn_fuel_system1_status_formula) "Fuel System 1 Status:" "" "0103" 1 2;
    mkSENSOR (Some fn_fuel_system2_status_formula) "Fuel System 2 Status:" "" "0103" 1 2;
    mkSENSOR (Some fn_short_term_fuel_trim_formula) "Short Term Fuel Trim (Bank 1):" "" "0106" 1 2;
    mkSENSOR (Some fn_long_term_fuel_trim_formula) "Long Term Fuel Trim (Bank 1):" "" "0107" 1 2;
    mkSENSOR (Some fn_short_term_fuel_trim_formula) "Short Term Fuel Trim (Bank 2):" "" "0108" 1 2;
    mkSENSOR (Some fn_long_term_fuel_trim_formula) "Long Term Fuel Trim (Bank 2):" "" "0109" 1 2;
    mkSENSOR (Some fn_intake_air_temp_formula) "Intake Air Temperature:" "" "010F" 1 1;
    mkSENSOR (Some fn_coolant_temp_formula) "Coolant Temperature:" "" "0105" 1 1;
    mkSENSOR (Some fn_fuel_pressure_formula) "Fuel Pressure (gauge):" "" "010A" 1 1;
    mkSENSOR (Some fn_secondary_air_status_formula) "Secondary air status:" "" "0112" 1 1;
    mkSENSOR (Some fn_pto_status_formula) "Power Take-Off Status:" "" "011E" 1 1;
    mkSENSOR (Some fn_o2_sensor_formula) "O2 Sensor 1, Bank 1:" "" "0114" 1 2;
    mkSENSOR (Some fn_o2_sensor_formula) "O2 Sensor 2, Bank 1:" "" "0115" 1 2;
    mkSENSOR (Some fn_o2_sensor_formula) "O2 Sensor 3, Bank 1:" "" "0116" 1 2;
    mkSENSOR (Some fn_o2_sensor_formula) "O2 Sensor 4, Bank 1:" "" "0117" 1 2;
    mkSENSOR (Some fn_o2_sensor_formula) "O2 Sensor 1, Bank 2:" "" "0118" 1 2;
    mkSENSOR (Some fn_o2_sensor_formula) "O2 Sensor 2, Bank 2:" "" "0119" 1 2;
    mkSENSOR (Some fn_o2_sensor_formula) "O2 Sensor 3, Bank 2:" "" "011A" 1 2;
    mkSENSOR (Some fn_o2_sensor_formula) "O2 Sensor 4, Bank 2:" "" "011B" 1 2;
    mkSENSOR (Some fn_obd_requirements_formula) "OBD conforms to:" "" "011C" 1 1;
    mkSENSOR (Some fn_o2_sensor_wrv_formula) "O2 Sensor 1, Bank 1 (WR):" "" "0124" 1 4;
    mkSENSOR (Some fn_o2_sensor_wrv_formula) "O2 Sensor 2, Bank 1 (WR):" "" "0125" 1 4;
    mkSENSOR (Some fn_o2_sensor_wrv_formula) "O2 Sensor 3, Bank 1 (WR):" "" "0126" 1 4;
    mkSENSOR (Some fn_o2_sensor_wrv_formula) "O2 Sensor 4, Bank 1 (WR):" "" "0127" 1 4;
    mkSENSOR (Some fn_o2_sensor_wrv_formula) "O2 Sensor 1, Bank 2 (WR):" "" "0128" 1 4;
    mkSENSOR (Some fn_o2_sensor_wrv_formula) "O2 Sensor 2, Bank 2 (WR):" "" "0129" 1 4;
    mkSENSOR (Some fn_o2_sensor_wrv_formula) "O2 Sensor 3, Bank 2 (WR):" "" "012A" 1 4;
    mkSENSOR (Some fn_o2_sensor_wrv_formula) "O2 Sensor 4, Bank 2 (WR):" "" "012B" 1 4;
    mkSENSOR (Some fn_engine_run_time_formula) "Time Since Engine Start:" "" "011F" 1 2;
    mkSENSOR (Some fn_frp_relative_formula) "FRP rel. to manifold vacuum:" "" "0122" 1 2;
    mkSENSOR (Some fn_frp_widerange_formula) "Fuel Pressure (gauge):" "" "0123" 1 2;
    mkSENSOR (Some fn_commanded_egr_formula) "Commanded EGR:" "" "012C" 1 1;
    mkSENSOR (Some fn_egr_error_formula) "EGR Error:" "" "012D" 1 1;
    mkSENSOR (Some fn_evap_pct_formula) "Commanded Evaporative Purge:" "" "012E" 1 1;
    mkSENSOR (Some fn_fuel_level_formula) "Fuel Level Input:" "" "012F" 1 1;
    mkSENSOR (Some fn_warm_ups_formula) "Warm-ups since ECU reset:" "" "0130" 1 1;
    mkSENSOR (Some fn_clr_distance_formula) "Distance since ECU reset:" "" "0131" 1 2;
    mkSENSOR (Some fn_evap_vp_formula) "Evap System Vapor Pressure:" "" "0132" 1 2;
    mkSENSOR (Some fn_o2_sensor_wrc_formula) "O2 Sensor 1, Bank 1 (WR):" "" "0134" 1 4;
    mkSENSOR (Some fn_o2_sensor_wrc_formula) "O2 Sensor 2, Bank 1 (WR):" "" "0135" 1 4;
    mkSENSOR (Some fn_o2_sensor_wrc_formula) "O2 Sensor 3, Bank 1 (WR):" "" "0136" 1 4;
    mkSENSOR (Some fn_o2_sensor_wrc_formula) "O2 Sensor 4, Bank 1 (WR):" "" "0137" 1 4;
    mkSENSOR (Some fn_o2_sensor_wrc_formula) "O2 Sensor 1, Bank 2 (WR):" "" "0138" 1 4;
    mkSENSOR (Some fn_o2_sensor_wrc_formula) "O2 Sensor 2, Bank 2 (WR):" "" "0139" 1 4;
    mkSENSOR (Some fn_o2_sensor_wrc_formula) "O2 Sensor 3, Bank 2 (WR):" "" "013A" 1 4;
    mkSENSOR (Some fn_o2_sensor_wrc_formula) "O2 Sensor 4, Bank 2 (WR):" "" "013B" 1 4;
    mkSENSOR (Some fn_mil_distance_formula) "Distance since MIL activated:" "" "0121" 1 2;
    mkSENSOR (Some fn_baro_pressure_formula) "Barometric Pressure:" "" "0133" 1 1;
    mkSENSOR (Some fn_cat_temp_formula) "CAT Temperature, B1S1:" "" "013C" 1 2;
    mkSENSOR (Some fn_cat_temp_formula) "CAT Temperature, B2S1:" "" "013D" 1 2;
    mkSENSOR (Some fn_cat_temp_formula) "CAT Temperature, B1S2:" "" "013E" 1 2;
    mkSENSOR (Some fn_cat_temp_formula) "CAT Temperature, B2S2:" "" "013F" 1 2;
    mkSENSOR (Some fn_ecu_voltage_formula) "ECU voltage:" "" "0142" 1 2;
    mkSENSOR (Some fn_abs_load_formula) "Absolute Engine Load:" "" "0143" 1 2;
    mkSENSOR (Some fn_eq_ratio_formula) "Commanded Equivalence Ratio:" "" "0144" 1 2;
    mkSENSOR (Some fn_amb_air_temp_formula) "Ambient Air Temperature:" "" "0146" 1 1;
    mkSENSOR (Some fn_relative_tp_formula) "Relative Throttle Position:" "" "0145" 1 1;
    mkSENSOR (Some fn_abs_tp_formula) "Absolute Throttle Position B:" "" "0147" 1 1;
    mkSENSOR (Some fn_abs_tp_formula) "Absolute Throttle Position C:" "" "0148" 1 1;
    mkSENSOR (Some fn_abs_tp_formula) "Accelerator Pedal Position D:" "" "0149" 1 1;
    mkSENSOR (Some fn_abs_tp_formula) "Accelerator Pedal Position E:" "" "014A" 1 1;
    mkSENSOR (Some fn_abs_tp_formula) "Accelerator Pedal Position F:" "" "014B" 1 1;
    mkSENSOR (Some fn_tac_pct_formula) "Comm. Throttle Actuator Cntrl:" "" "014C" 1 1;
    mkSENSOR (Some fn_mil_time_formula) "Engine running while MIL on:" "" "014D" 1 2;
    mkSENSOR (Some fn_clr_time_formula) "Time since ECU reset:" "" "014E" 1 2 ].

Definition D_EXIT : Z := 1.

Definition program_start (status : comport_status_t)
    (system : measurement_system) : state :=
  {| device_connected := false;
     reset_hardware := true;
     num_of_sensors := 0;
     num_of_disabled_sensors := 0;
     sensors_on_page := 0;
     current_page := 0;
     inst_refresh_rate := float_of_int 0;
     avg_refresh_rate := float_of_int 0;
     refresh_time := 0;
     sensors := sensors_table;
     sensor_rows :=
       map (fun i => mkDIALOG 0 (Z.of_nat i) 0 None) (seq 0 9);
     toggle_rows :=
       map (fun i => mkDIALOG D_EXIT (Z.of_nat i) 0 None) (seq 0 9);
     comport_status := status;
     system_of_measurements := system;
     initialization_occured := false;
     num_of_sensors_off := 0;
     reset_on_all_off_occured := false;
     sensors_on_counter := 0;
     avg_refresh_rate_accumulator := float_of_int 0;
     current_sensor := 0;
     new_page := false;
     receiving_response := false;
     num_of_sensors_timed_out := 0;
     ignore_device_not_connected := false;
     retry_attempts := NUM_OF_RETRIES;
     vehicle_response := "";
     trace := [] |}.

(** ** Sequences of calls *)

Inductive call :=
  | to_sensor_proc (msg : message) (i : nat) (c : Z) (e : env)
  | timer_tick
  | press_toggle (i : nat)
  | press_page_flipper (direction : Z).

Section Run.

Variable SPECIAL_DELIMITER : ascii.
Variable OBD_REQUEST_TIMEOUT : Z.
Variable LONG_MAX : Z.

Definition step (c : call) (s : state) : option state :=
  match c with
  | to_sensor_proc msg i c e =>
      match sensor_proc SPECIAL_DELIMITER OBD_REQUEST_TIMEOUT LONG_MAX
              msg i c e s with
      | Returns _ s => Some s
      | _ => None
      end
  | timer_tick => Some (inc_refresh_time s)
  | press_toggle i => Some (toggle_proc_close i s)
  | press_page_flipper direction => Some (page_flipper_proc_close direction s)
  end.

Fixpoint run (calls : list call) (s : state) : option state :=
  match calls with
  | [] => Some s
  | c :: rest =>
      match step c s with
      | Some s => run rest s
      | None => None
      end
  end.

End Run.

Definition CR : ascii := "013"%char.
Definition TAB : ascii := "009"%char.

(** ** A ["%f"] conversion for the examples

    The conversion of a C library that rounds the exact value of its
    argument to the nearest number with [precision] decimals, ties to
    even, and pads the text with blanks on the left up to [width]
    characters. *)

Fixpoint repeat_char (c : ascii) (n : nat) : string :=
  match n with
  | O => EmptyString
  | S n' => String c (repeat_char c n')
  end.

Definition pad_left (c : ascii) (width : Z) (text : string) : string :=
  repeat_char c (Z.to_nat width - String.length text) ++ text.

(** [m * 2^e * 10^p] rounded to the nearest integer, ties to even *)
Definition round_scaled (m e p : Z) : Z :=
  let num := m * 10 ^ p in
  if 0 <=? e then num * 2 ^ e
  else
    let den := 2 ^ (- e) in
    let q := num / den in
    let r := num mod den in
    if den <? 2 * r then q + 1
    else if (2 * r =? den) && Z.odd q then q + 1
    else q.

(** [n / 10^p] written with [p] decimals, for [n >= 0] *)
Definition decimal_text (n p : Z) : string :=
  if p <=? 0 then sprintf_i n
  else sprintf_i (n / 10 ^ p) ++ "."
         ++ pad_left "0" p (sprintf_i (n mod 10 ^ p)).

Definition sprintf_f_nearest (width precision : Z) (x : spec_float)
  : string :=
  pad_left " " width
    match x with
    | S754_zero s => (if s then "-" else "") ++ decimal_text 0 precision
    | S754_infinity s => if s then "-inf" else "inf"
    | S754_nan => "nan"
    | S754_finite s m e =>
        (if s then "-" else "")
          ++ decimal_text (round_scaled (Zpos m) e precision) precision
    end.

(** ** Environments and states of the examples *)

(** Values for the constants that the serial module and the platform
    define. *)
Definition demo_timeout : Z := 300.
Definition demo_long_max : Z := 2 ^ 31 - 1.

(** Nothing has arrived and the timer has not expired. *)
Definition awaiting : env :=
  mkEnv (EMPTY, "") (fun _ msg => (RUBBISH, msg)) false 1
    (mkOptions READY METRIC) []
    sprintf_f_nearest.

(** Nothing has arrived and the timer has expired; the user presses OK
    when asked. *)
Definition expired : env :=
  mkEnv (EMPTY, "") (fun _ msg => (RUBBISH, msg)) true 1
    (mkOptions READY METRIC) []
    sprintf_f_nearest.

(** As [expired]; the user presses Ignore when asked, also for the port. *)
Definition expired_ignore : env :=
  mkEnv (EMPTY, "") (fun _ msg => (RUBBISH, msg)) true 3
    (mkOptions READY METRIC) [(2, mkOptions READY METRIC)]
    sprintf_f_nearest.

(** The prompt arrives after text that [process_response] calls rubbish. *)
Definition garbled : env :=
  mkEnv (PROMPT, "?>") (fun _ msg => (RUBBISH, msg)) false 1
    (mkOptions READY METRIC) []
    sprintf_f_nearest.

(** The prompt arrives after the reply to "010C"; [process_response]
    removes the blanks and line ends and reports hexadecimal data. *)
Definition rpm_reply : env :=
  mkEnv (PROMPT, "41 0C 1A F8 " ++ String CR (String CR ">"))
    (fun _ _ => (HEX_DATA, "410C1AF8")) false 1
    (mkOptions READY METRIC) []
    sprintf_f_nearest.

Definition idle (i : nat) (e : env) : call := to_sensor_proc MSG_IDLE i 0 e.

Definition run_demo (calls : list call) (s : state) : state :=
  match run TAB demo_timeout demo_long_max calls s with
  | Some s' => s'
  | None => s
  end.

(** The dialog just opened, every sensor enabled in the configuration. *)
Definition opened (status : comport_status_t) : state :=
  display_sensor_dialog (fun _ => TRUE) (program_start status METRIC).

(** The chip was reset, the first row timed out and the second row, Engine
    RPM, has sent its command. *)
Definition rpm_requested : state :=
  run_demo [idle 0 awaiting; idle 0 awaiting; idle 0 expired; idle 1 awaiting]
    (opened READY).

(** The reply to that command has been decoded and one hundred timer ticks
    have passed. *)
Definition rpm_shown : state :=
  run_demo (idle 1 rpm_reply :: repeat timer_tick 100) rpm_requested.

(** The third row has sent its command and received rubbish once. *)
Definition one_retry_used : state :=
  run_demo [idle 2 awaiting; idle 2 garbled] rpm_shown.

(** Then every toggle button of the page has been pressed. *)
Definition all_disabled : state :=
  run_demo (map press_toggle (seq 0 9)) one_retry_used.

(** The text of the specification's example: three lines ended by carriage
    returns, then the prompt. *)
Definition elm_banner_response : string :=
  "ELM327" ++ String CR ("BUS INIT: OK" ++ String CR ("41 0C 1A F8" ++ String CR ">")).

(** ** Vocabulary of the statements *)

(** [P] holds for the [n] integers from [z] on. *)
Fixpoint holds_from (n : nat) (z : Z) (P : Z -> bool) : bool :=
  match n with
  | O => true
  | S n' => P z && holds_from n' (z + 1) P
  end.

(** The number [engine_rpm_formula] prints. *)
Definition rpm_of (data : Z) : Z :=
  int_of_float (float_div (float_of_int data) (float_of_int 4)).

(** The alerts among the calls of a trace. *)
Fixpoint alerts_of (tr : list event) : list event :=
  match tr with
  | [] => []
  | alert l :: tr' => alert l :: alerts_of tr'
  | alert3 l :: tr' => alert3 l :: alerts_of tr'
  | _ :: tr' => alerts_of tr'
  end.

(** The unit [engine_rpm_formula] prints. *)
Definition rpm_unit (system : measurement_system) : string :=
  match system with
  | METRIC => " r/min"
  | IMPERIAL => " rpm"
  end.

(** The variables that a page switch sets back. *)
Definition polling_reset (s : state) : Prop :=
  current_sensor s = 0 /\ num_of_sensors_timed_out s = 0 /\ new_page s = true
  /\ inst_refresh_rate s = float_of_int 0
  /\ avg_refresh_rate s = float_of_int 0 /\ refresh_time s = 0.


(** Row [i] of the dialog, which shows sensor [k] and is enabled, is the row
    under the polling cursor; the port is ready and no reset is pending. *)
Definition polled (s : state) (i : nat) (d : DIALOG) (k : nat) : Prop :=
  sensor_rows s !! i = Some d /\ dp3 d = Some k /\ d1 d = current_sensor s
  /\ flag_set (flags d) D_DISABLED = false
  /\ reset_hardware s = false /\ comport_status s = READY.

(** The kinds of response that are retried. *)
Definition retryable (t : response_type_t) : Prop :=
  t = BUS_BUSY \/ t = DATA_ERROR \/ t = DATA_ERROR2 \/ t = SERIAL_ERROR
  \/ t = RUBBISH.

(** During the call the prompt arrives and [process_response] reports [t]. *)
Definition reports (t : response_type_t) (e : env) : Prop :=
  fst (read_comport e) = PROMPT
  /\ forall cmd msg, fst (process_response e cmd msg) = t.

(** The "Device is not responding." prompts among the calls of a trace. *)
Fixpoint alert3s_of (tr : list event) : list event :=
  match tr with
  | [] => []
  | alert3 l :: tr' => alert3 l :: alert3s_of tr'
  | _ :: tr' => alert3s_of tr'
  end.


(** One exchange with row [i]: a call in which the command is sent and a
    call in which the prompt is read. *)
Definition exchange (i : nat) (ef : env * env) : list call :=
  [idle i (fst ef); idle i (snd ef)].

(** The timer has not expired when the command is sent, and the response
    is of kind [t]. *)
Definition answered (t : response_type_t) (ef : env * env) : Prop :=
  serial_time_out (fst ef) = false /\ reports t (snd ef).

(** Four exchanges that end in rubbish, and the state after three and
    after four of them on the third row of the first page. *)
Definition four_rubbish : list (env * env) :=
  repeat (awaiting, garbled) 4.

Definition after_three_rubbish : state :=
  run_demo (flat_map (exchange 2) (firstn 3 four_rubbish)) rpm_shown.

Definition after_four_rubbish : state :=
  run_demo (flat_map (exchange 2) four_rubbish) rpm_shown.

(** The prompt raised when the device is taken to be disconnected. *)
Definition device_not_responding : event :=
  alert3 ["Device is not responding."; "Please check that it is connected";
          "and the port settings are correct"].

(** Three and four timeouts in a row, on the third to sixth row of the
    first page, after the reply that [rpm_shown] has decoded. *)
Definition three_timeouts : list call :=
  [idle 2 awaiting; idle 2 expired; idle 3 awaiting; idle 3 expired;
   idle 4 awaiting; idle 4 expired].

Definition after_three_timeouts : state := run_demo three_timeouts rpm_shown.

Definition after_four_timeouts : state :=
  run_demo [idle 5 awaiting; idle 5 expired_ignore] after_three_timeouts.

Definition after_eight_timeouts : state :=
  run_demo [idle 6 awaiting; idle 6 expired; idle 7 awaiting; idle 7 expired;
            idle 8 awaiting; idle 8 expired; idle 0 awaiting; idle 0 expired]
    after_four_timeouts.

(** The sensor rows carry their position in [d1] and no two of them show
    the same sensor, as [fill_sensors] leaves them. *)
Definition well_laid_out (s : state) : Prop :=
  (forall j d, sensor_rows s !! j = Some d -> d1 d = Z.of_nat j)
  /\ (forall j j' d d' k,
        sensor_rows s !! j = Some d -> sensor_rows s !! j' = Some d' ->
        dp3 d = Some k -> dp3 d' = Some k -> j = j').

(** The test that makes a row toggle when [MSG_TOGGLE] arrives with [c]. *)
Definition toggles (c : Z) (d : DIALOG) : bool :=
  let disabled := flag_set (flags d) D_DISABLED in
  (d1 d =? c) || ((c =? -2) && negb disabled) || ((c =? -1) && disabled).

(** What [MSG_TOGGLE] with [c] leaves of a sensor row and of the sensor it
    shows. *)
Definition row_after_toggle (c : Z) (d : DIALOG) : DIALOG :=
  match dp3 d with
  | None => d
  | Some _ =>
      if toggles c d then
        if flag_set (flags d) D_DISABLED
        then with_flags (Z.land (flags d) (Z.lnot D_DISABLED)) d
        else with_flags (Z.lor (flags d) D_DISABLED) d
      else d
  end.

Definition sensor_after_toggle (c : Z) (d : DIALOG) (r : SENSOR) : SENSOR :=
  if toggles c d then
    if flag_set (flags d) D_DISABLED
    then with_screen_buf "N/A" (with_enabled TRUE r)
    else with_screen_buf "not monitoring" (with_enabled FALSE r)
  else if flag_set (flags d) D_DISABLED
       then with_screen_buf "not monitoring" r
       else r.

(** The lines [l] of the dialog receive [MSG_TOGGLE] in turn. *)
Definition toggle_lines (c : Z) (l : list nat) (s : state) : state :=
  fold_left
    (fun s i => snd (sensor_proc_msg_toggle i c (toggle_proc_msg MSG_TOGGLE i c s)))
    l s.

(** The port could not be opened; the chip was reset, the first sensor was
    switched off and then the timer expired on its row. *)
Definition stale_disabled : state :=
  run_demo [idle 0 awaiting; press_toggle 0; idle 0 expired_ignore]
    (opened NOT_OPEN).
(** ** The configuration file

    [get_config_int] and [set_config_int] belong to the GUI library.  The
    section "sensors" of the configuration file is the map from its keys to
    the integers stored under them; a key that is missing reads as the
    default passed to [get_config_int]. *)

Definition get_config_int (cfg : gmap string Z) (name : string) (def : Z) : Z :=
  default def (cfg !! name).

Definition set_config_int (name : string) (val : Z) (cfg : gmap string Z)
  : gmap string Z :=
  <[name := val]> cfg.

(** [sprintf(temp_buf, "sensor%i", i)] *)
Definition sensor_key (i : nat) : string :=
  "sensor" ++ sprintf_i (Z.of_nat i).

(** The loop of [save_sensor_states], from row [i] on. *)
Fixpoint save_rows (i : nat) (l : list SENSOR) (cfg : gmap string Z)
  : gmap string Z :=
  match l with
  | r :: l' =>
      match formula r with
      | Some _ =>
          save_rows (S i) l' (set_config_int (sensor_key i) (enabled r) cfg)
      | None => cfg
      end
  | [] => cfg
  end.

Definition save_sensor_states (s : state) (cfg : gmap string Z)
  : gmap string Z :=
  save_rows 0 (sensors s) cfg.

Definition load_sensor_states (cfg : gmap string Z) (s : state) : state :=
  set_sensors
    (load_rows (fun i => get_config_int cfg (sensor_key i) TRUE) 0 (sensors s))
    s.
(** ** [page_flipper_proc] and [page_number_proc] on [MSG_START] and
    [MSG_UPDATE] *)

(** The entry of a page button after [case MSG_UPDATE]; [d1] is -1 for
    "Previous" and 1 for "Next". *)
Definition page_flipper_proc_update (d : DIALOG) (s : state) : DIALOG :=
  let d :=
    if d1 d =? -1 then
      if current_page s <=? 0
      then with_flags (Z.lor (flags d) D_DISABLED) d
      else with_flags (Z.land (flags d) (Z.lnot D_DISABLED)) d
    else if d1 d =? 1 then
      if last_page s <=? current_page s
      then with_flags (Z.lor (flags d) D_DISABLED) d
      else with_flags (Z.land (flags d) (Z.lnot D_DISABLED)) d
    else d in
  with_flags (Z.lor (flags d) D_DIRTY) d.

(** The text that [page_number_proc] writes to [d->dp], and its entry. *)
Definition page_number_proc_update (d : DIALOG) (s : state)
  : string * DIALOG :=
  (sprintf_i (wrap_int (current_page s + 1)) ++ " of "
     ++ sprintf_i
          (if negb (Z.rem (num_of_sensors s) SENSORS_PER_PAGE =? 0)
           then Z.quot (num_of_sensors s) SENSORS_PER_PAGE + 1
           else Z.quot (num_of_sensors s) SENSORS_PER_PAGE),
   with_flags (Z.lor (flags d) D_DIRTY) d).
(** ** [toggle_all_proc]

    Its caption and colour are not part of the state; [d2] is 1 while the
    button shows "All OFF" and 0 while it shows "All ON". *)

(** [case MSG_TOGGLE] *)
Definition toggle_all_proc_toggle (c : Z) (d : DIALOG) (s : state) : DIALOG :=
  let d :=
    if (c =? -1) || ((0 <=? c) && (num_of_disabled_sensors s <=? 0))
    then with_d2 1 d
    else if (c =? -2)
            || ((0 <=? c) && (sensors_on_page s <=? num_of_disabled_sensors s))
         then with_d2 0 d
         else d in
  with_flags (Z.lor (flags d) D_DIRTY) d.

(** [case MSG_UPDATE]; [object_message(d, MSG_TOGGLE, 0)] enters the
    function once more. *)
Definition toggle_all_proc_update (d : DIALOG) (s : state) : DIALOG :=
  let d :=
    if sensors_on_page s =? 0
    then with_flags (Z.lor (flags d) D_DISABLED) d
    else
      toggle_all_proc_toggle 0
        (with_flags (Z.land (flags d) (Z.lnot D_DISABLED)) d) s in
  with_flags (Z.lor (flags d) D_DIRTY) d.

(** [case MSG_START], which runs into [case MSG_UPDATE]. *)
Definition toggle_all_proc_start (d : DIALOG) (s : state) : DIALOG :=
  toggle_all_proc_update (with_d2 1 d) s.

(** What the button does once it has been pressed.  The broadcast reaches
    the lines of the page and then the button itself, which stands after
    them in [sensor_dialog[]]. *)
Definition toggle_all_proc_close (d : DIALOG) (s : state) : DIALOG * state :=
  let c := if d2 d =? 0 then -1 else -2 in
  let s := broadcast_toggle c s in
  (toggle_all_proc_toggle c d s, s).

(** ** [reset_chip_proc] and [options_proc], once the button has been
    pressed *)

Definition reset_chip_proc_close (s : state) : state :=
  set_reset_hardware true s.

Definition options_proc_close (o : options_result) (s : state) : state :=
  apply_options o (log display_options s).

(** ** More vocabulary of the statements *)

(** The rows that show a sensor and are switched off, which
    [num_of_disabled_sensors] is meant to count. *)
Definition counts_as_disabled (d : DIALOG) : bool :=
  match dp3 d with
  | Some _ => flag_set (flags d) D_DISABLED
  | None => false
  end.

Fixpoint disabled_rows (l : list DIALOG) : Z :=
  match l with
  | [] => 0
  | d :: l' => (if counts_as_disabled d then 1 else 0) + disabled_rows l'
  end.

(** The toggle button [t] and the sensor row [d] of one line agree: the
    button is greyed out when the line is empty and shows ON ([d2] is 1)
    exactly when the row is not switched off. *)
Definition line_in_step (t d : DIALOG) : Prop :=
  d1 t = d1 d
  /\ match dp3 d with
     | Some _ =>
         flag_set (flags t) D_DISABLED = false
         /\ d2 t = if flag_set (flags d) D_DISABLED then 0 else 1
     | None => flag_set (flags t) D_DISABLED = true
     end.

Definition lines_in_step (s : state) : Prop :=
  forall i t d,
    toggle_rows s !! i = Some t -> sensor_rows s !! i = Some d ->
    line_in_step t d.

(** The commands sent to the vehicle among the calls of a trace. *)
Fixpoint commands_of (tr : list event) : list string :=
  match tr with
  | [] => []
  | send_command cmd :: tr' => cmd :: commands_of tr'
  | _ :: tr' => commands_of tr'
  end.

(** From [s] to [s'] calls were made, none of which sent a command. *)
Definition quiet (s s' : state) : Prop :=
  exists tr, trace s' = (trace s ++ tr)%list /\ commands_of tr = [].

(** From [s] to [s'] neither the number of sensors on the page nor the
    polling cursor has changed. *)
Definition stays (s s' : state) : Prop :=
  sensors_on_page s' = sensors_on_page s
  /\ current_sensor s' = current_sensor s.

(** The number of sensors on the page has not changed; the cursor is where
    it was, at the first row or at the next row. *)
Definition moves (s s' : state) : Prop :=
  sensors_on_page s' = sensors_on_page s
  /\ (current_sensor s' = current_sensor s \/ current_sensor s' = 0
      \/ current_sensor s' = next_sensor s).



Definition partial_reply (chunk : string) : env :=
  mkEnv (DATA, chunk) (fun _ msg => (RUBBISH, msg)) false 1
    (mkOptions READY METRIC) []
    sprintf_f_nearest.

(** "Next" was pressed while the second row waited for its response. *)
Definition page_switched_while_waiting : state :=
  run_demo [press_page_flipper 1] rpm_requested.

(** The prompt arrives after the reply to "010D", 0x28 = 40 km/h, and after
    the reply to "0104", 0x80 of 0xFF. *)
Definition speed_reply : env :=
  mkEnv (PROMPT, "41 0D 28 " ++ String CR (String CR ">"))
    (fun _ _ => (HEX_DATA, "410D28")) false 1
    (mkOptions READY METRIC) []
    sprintf_f_nearest.

Definition load_reply : env :=
  mkEnv (PROMPT, "41 04 80 " ++ String CR (String CR ">"))
    (fun _ _ => (HEX_DATA, "410480")) false 1
    (mkOptions READY METRIC) []
    sprintf_f_nearest.

(** The third row, Vehicle Speed, has sent its command. *)
Definition speed_requested : state := run_demo [idle 2 awaiting] rpm_shown.

(** Its reply has been decoded and the fourth row, Calculated Load Value,
    has sent its command. *)
Definition load_requested : state :=
  run_demo [idle 2 speed_reply; idle 3 awaiting] speed_requested.

(** That reply has been decoded, then every toggle button of the page has
    been pressed. *)
Definition polled_then_disabled : list call :=
  idle 3 load_reply :: map press_toggle (seq 0 9).

(** What [MSG_START] leaves of a sensor row [d] whose sensor is enabled
    ([on]) or not: the row is not switched off, and a toggle is pending
    ([d2] is 1) for a sensor that is disabled. *)
Definition started (d : DIALOG) (on : bool) (d' : DIALOG) : Prop :=
  d1 d' = d1 d /\ dp3 d' = dp3 d
  /\ flag_set (flags d') D_DISABLED = false
  /\ d2 d' = if on then 0 else 1.

(** The lines [l] of the dialog receive [MSG_START] in turn. *)
Definition start_lines (l : list nat) (s : state) : state :=
  fold_left
    (fun s i => snd (sensor_proc_msg_init MSG_START i
                       (toggle_proc_msg MSG_START i 0 s)))
    l s.

(** The sensor rows [l] are drawn in turn. *)
Definition draw_rows (l : list nat) (s : state) : state :=
  fold_left
    (fun s i =>
       match sensor_rows s !! i with
       | Some d => sensor_proc_draw i d s
       | None => s
       end)
    l s.

(** The dialog while it is drawn for the first time: the rows before row
    [j] have been drawn.  [rs] is the table before the states were loaded
    from [config], and [N] the number of sensor rows, each of which shows
    the sensor of its own index. *)
Definition drawn_upto (config : nat -> Z) (rs : list SENSOR) (N j : nat)
    (b : state) : Prop :=
  well_laid_out b /\ length (sensor_rows b) = N
  /\ num_of_disabled_sensors b = disabled_rows (sensor_rows b)
  /\ (forall i, (i < N)%nat ->
        exists d',
          sensor_rows b !! i = Some d' /\ dp3 d' = Some i
          /\ flag_set (flags d') D_DISABLED
             = (if bool_decide (i < j)%nat then config i =? 0 else false)
          /\ d2 d' = (if bool_decide (i < j)%nat then 0
                      else if config i =? 0 then 1 else 0))
  /\ (forall i r, (i < N)%nat -> rs !! i = Some r ->
        sensors b !! i
        = Some (with_screen_buf
                  (if bool_decide (i < j)%nat && (config i =? 0)
                   then "not monitoring" else "N/A")
                  (with_enabled (config i) r))).

(** A saved configuration in which only the fourth sensor is switched off. *)
Definition fourth_switched_off (i : nat) : Z :=
  if Nat.eqb i 3 then 0 else 1.
(** * Properties *)

(** ** The response scanner *)

Section FindValidResponseFacts.

Variable D : ascii.

Lemma skip_token_at_end (p : string) :
  at_token_end D (deref (skip_token D p)) = true.
Proof.
  induction p as [|c p IH]; simpl.
  - reflexivity.
  - destruct (at_token_end D c) eqn:E; simpl; auto.
Qed.

Lemma skip_token_fixed (p : string) :
  at_token_end D (deref p) = true -> skip_token D p = p.
Proof.
  destruct p as [|c p]; simpl; auto.
  intros ->. reflexivity.
Qed.

(** A pointer that rests on a delimiter which does not begin "41" is
    where the outer loop stays for ever. *)
Lemma find_loop_never (p : string) :
  is_nul (deref p) = false ->
  at_token_end D (deref p) = true ->
  starts_with_41 p = false ->
  forall fuel, find_loop D fuel p = None.
Proof.
  intros Hn He H41 fuel.
  induction fuel as [|fuel IH]; simpl.
  - reflexivity.
  - rewrite Hn, H41, skip_token_fixed by assumption. exact IH.
Qed.

(** Two evaluations of the loop condition decide the run. *)
Lemma find_loop_settled (p : string) (buf : string) :
  find_loop D enough_fuel p = Some buf ->
  forall fuel, (2 <= fuel)%nat -> find_loop D fuel p = Some buf.
Proof.
  intros H fuel Hf.
  destruct fuel as [|[|fuel]]; try lia.
  revert H. unfold enough_fuel. simpl.
  destruct (is_nul (deref p)); auto.
  destruct (starts_with_41 p); auto.
  destruct (is_nul (deref (skip_token D p))); auto.
  destruct (starts_with_41 (skip_token D p)); auto.
  discriminate.
Qed.

Lemma find_loop_unsettled (p : string) :
  find_loop D enough_fuel p = None ->
  forall fuel, find_loop D fuel p = None.
Proof.
  unfold enough_fuel. simpl. intros H fuel.
  destruct fuel as [|fuel]; simpl; auto.
  destruct (is_nul (deref p)); try discriminate.
  destruct (starts_with_41 p); try discriminate.
  destruct (is_nul (deref (skip_token D p))) eqn:Hn; try discriminate.
  destruct (starts_with_41 (skip_token D p)) eqn:H41; try discriminate.
  apply find_loop_never; auto using skip_token_at_end.
Qed.

Lemma find_valid_response_unsettled (response : string) :
  find_valid_response D enough_fuel response = None ->
  forall fuel, find_valid_response D fuel response = None.
Proof.
  unfold find_valid_response. intros H fuel.
  destruct (find_loop D enough_fuel response) eqn:E; try discriminate.
  rewrite (find_loop_unsettled _ E). reflexivity.
Qed.

(** The text before the first delimiter or terminator. *)
Lemma skip_token_app (pre rest : string) :
  (forall c, In c (list_ascii_of_string pre) -> at_token_end D c = false) ->
  skip_token D (pre ++ String D rest) = String D rest.
Proof.
  induction pre as [|c pre IH]; simpl; intros H.
  - unfold at_token_end. rewrite Ascii.eqb_refl, orb_true_r. reflexivity.
  - rewrite (H c) by auto. apply IH. intros c' Hc'. apply H. auto.
Qed.

End FindValidResponseFacts.

Example find_valid_response_plain :
  find_valid_response TAB enough_fuel "410C1AF8" = Some (true, "410C1AF8").
Proof. reflexivity. Qed.

Example find_valid_response_no_delimiter :
  find_valid_response TAB enough_fuel "NODATA" = Some (false, "").
Proof. reflexivity. Qed.

(** C3.  On the specification's example, with the carriage return as the
    delimiter, [find_valid_response] does not return "41 0C 1A F8": it
    skips "ELM327", stops on the first carriage return and evaluates its
    loop condition there for ever, whatever the number of rounds allowed. *)
Theorem find_valid_response_banner_never_returns :
  forall fuel, find_valid_response CR fuel elm_banner_response = None.
Proof.
  apply find_valid_response_unsettled. vm_compute. reflexivity.
Qed.

(** C10.  [find_valid_response] does not terminate on an input in which a
    delimiter follows a first token that does not begin with "41": the
    skipping loop stops on the delimiter and the outer loop never moves
    past it. *)
Theorem find_valid_response_diverges_at_delimiter
    (D : ascii) (pre rest : string) :
  is_nul D = false ->
  D <> "4"%char ->
  (forall c, In c (list_ascii_of_string pre) -> at_token_end D c = false) ->
  starts_with_41 (pre ++ String D rest) = false ->
  forall fuel, find_valid_response D fuel (pre ++ String D rest) = None.
Proof.
  intros HD H4 Hpre H41.
  assert (Hstuck : forall fuel, find_loop D fuel (String D rest) = None).
  { apply find_loop_never; simpl.
    - exact HD.
    - unfold at_token_end. rewrite Ascii.eqb_refl. apply orb_true_r.
    - unfold starts_with_41. simpl.
      destruct (Ascii.eqb_spec D "4"); [contradiction | reflexivity]. }
  intros fuel. unfold find_valid_response.
  destruct fuel as [|fuel]; simpl; [reflexivity|].
  destruct (is_nul (deref (pre ++ String D rest))) eqn:Hn.
  - destruct pre as [|c pre]; simpl in Hn.
    + congruence.
    + specialize (Hpre c (or_introl eq_refl)). unfold at_token_end in Hpre.
      rewrite Hn in Hpre. discriminate.
  - rewrite H41, skip_token_app, Hstuck by assumption. reflexivity.
Qed.

Lemma find_valid_response_diverges_at_delimiter_witness :
  is_nul TAB = false /\ TAB <> "4"%char /\
  forall fuel,
    find_valid_response TAB fuel ("NODATA" ++ String TAB "410C1AF8") = None.
Proof.
  split; [reflexivity|]. split; [discriminate|].
  apply (find_valid_response_diverges_at_delimiter TAB "NODATA" "410C1AF8").
  - reflexivity.
  - discriminate.
  - intros c Hc. simpl in Hc.
    repeat (destruct Hc as [<-|Hc]; [reflexivity|]). destruct Hc.
  - reflexivity.
Defined.

(** ** The RPM decoder *)

Lemma holds_from_spec (n : nat) (P : Z -> bool) :
  forall z0, holds_from n z0 P = true ->
  forall z, z0 <= z < z0 + Z.of_nat n -> P z = true.
Proof.
  induction n as [|n IH]; simpl; intros z0 H z Hz.
  - lia.
  - apply andb_true_iff in H as [H1 H2].
    destruct (Z.eq_dec z z0) as [->|Hne]; auto.
    apply (IH (z0 + 1)); auto. lia.
Qed.

Lemma rpm_of_two_bytes (data : Z) :
  0 <= data < 65536 -> rpm_of data = data / 4.
Proof.
  intros H.
  apply Z.eqb_eq.
  apply (holds_from_spec (Z.to_nat 65536) (fun d => rpm_of d =? d / 4) 0).
  - vm_compute. reflexivity.
  - rewrite Z2Nat.id; lia.
Qed.

Arguments calculate_refresh_rate : simpl never.
Arguments find_valid_response : simpl never.
Arguments strcat : simpl never.
Arguments strlen : simpl never.
Arguments terminate_at : simpl never.
Arguments strtol16 : simpl never.
Arguments wrap_int : simpl never.
Arguments sprintf_i : simpl never.
Arguments engine_rpm_formula : simpl never.
Arguments rate_of_ticks : simpl never.
Arguments float_of_int : simpl never.
Arguments float_add : simpl never.
Arguments float_div : simpl never.
Arguments next_sensor : simpl never.
Arguments handle_failure : simpl never.
Arguments offset : simpl never.

(** ** Characters and numbers *)

Lemma hex_digit_plain (c : ascii) (v : Z) :
  hex_digit c = Some v ->
  0 <= v < 16 /\ is_nul c = false /\ isspace c = false
  /\ Ascii.eqb c "-" = false /\ Ascii.eqb c "+" = false
  /\ Ascii.eqb c "x" = false /\ Ascii.eqb c "X" = false.
Proof.
  destruct c as [[] [] [] [] [] [] [] []]; vm_compute; intros H;
    try discriminate H; injection H as <-;
    repeat split; discriminate.
Qed.

Lemma hex_digit_not_delimiter (D c : ascii) (v : Z) :
  hex_digit D = None -> hex_digit c = Some v -> at_token_end D c = false.
Proof.
  intros HD Hc. unfold at_token_end.
  destruct (hex_digit_plain c v Hc) as (_ & -> & _). simpl.
  destruct (Ascii.eqb_spec c D) as [->|]; congruence.
Qed.

Lemma wrap_int_small (n : Z) : INT_MIN <= n <= INT_MAX -> wrap_int n = n.
Proof.
  unfold wrap_int, INT_MIN, INT_MAX. intros H.
  rewrite Z.mod_small; lia.
Qed.

(** [strtol] on four hexadecimal digits. *)
Lemma strtol16_four_digits (LONG_MAX : Z) (h1 h2 h3 h4 : ascii)
    (v1 v2 v3 v4 : Z) :
  65535 <= LONG_MAX ->
  hex_digit h1 = Some v1 -> hex_digit h2 = Some v2 ->
  hex_digit h3 = Some v3 -> hex_digit h4 = Some v4 ->
  strtol16 LONG_MAX (String h1 (String h2 (String h3 (String h4 "")))) =
  4096 * v1 + 256 * v2 + 16 * v3 + v4.
Proof.
  intros HL H1 H2 H3 H4.
  destruct (hex_digit_plain _ _ H1) as (B1 & _ & S1 & M1 & P1 & _).
  destruct (hex_digit_plain _ _ H2) as (B2 & _ & _ & _ & _ & X2 & X2').
  destruct (hex_digit_plain _ _ H3) as (B3 & _).
  destruct (hex_digit_plain _ _ H4) as (B4 & _).
  unfold strtol16. simpl skip_spaces. rewrite S1, M1, P1.
  unfold skip_0x. rewrite X2, X2', andb_false_r. simpl.
  rewrite H1, H2, H3, H4. lia.
Qed.

(** ** Dialog flags *)

Lemma flag_set_disable (f : Z) : flag_set (Z.lor f D_DISABLED) D_DISABLED = true.
Proof.
  unfold flag_set. rewrite Z.land_lor_distr_l.
  change (Z.land D_DISABLED D_DISABLED) with D_DISABLED.
  destruct (Z.eqb_spec (Z.lor (Z.land f D_DISABLED) D_DISABLED) 0) as [E|]; auto.
  apply Z.lor_eq_0_iff in E as [_ E]. discriminate E.
Qed.

Lemma flag_set_enable (f : Z) :
  flag_set (Z.land f (Z.lnot D_DISABLED)) D_DISABLED = false.
Proof.
  unfold flag_set. rewrite <- Z.land_assoc.
  change (Z.land (Z.lnot D_DISABLED) D_DISABLED) with 0.
  rewrite Z.land_0_r. reflexivity.
Qed.

Lemma flag_set_dirty (f : Z) :
  flag_set (Z.lor f D_DIRTY) D_DISABLED = flag_set f D_DISABLED.
Proof.
  unfold flag_set. rewrite Z.land_lor_distr_l.
  change (Z.land D_DIRTY D_DISABLED) with 0.
  rewrite Z.lor_0_r. reflexivity.
Qed.

(** ** What the estimator writes *)

Lemma alerts_of_app (t1 t2 : list event) :
  alerts_of (t1 ++ t2) = (alerts_of t1 ++ alerts_of t2)%list.
Proof.
  induction t1 as [|ev t1 IH]; simpl; auto.
  destruct ev; simpl; rewrite ?IH; reflexivity.
Qed.

(** [calculate_refresh_rate] assigns to its own static variables, to the
    two rates and to [refresh_time], and raises no alert. *)
Lemma calculate_refresh_rate_writes (ev : sensor_state_t) (s : state) :
  exists t b w v r c a tr,
    calculate_refresh_rate ev s =
      set_trace (trace s ++ tr)
        (set_avg_refresh_rate_accumulator a
           (set_sensors_on_counter c
              (set_reset_on_all_off_occured r
                 (set_avg_refresh_rate v
                    (set_inst_refresh_rate w
                       (set_initialization_occured b
                          (set_refresh_time t s)))))))
    /\ alerts_of tr = [].
Proof.
  destruct s; unfold calculate_refresh_rate, log; simpl.
  repeat case_match; simpl; do 7 eexists.
  all: first
    [ exists []; split;
      [unfold set_trace; simpl; rewrite app_nil_r; reflexivity | reflexivity]
    | eexists; split; [unfold set_trace; simpl; reflexivity | reflexivity] ].
Qed.

(** [engine_rpm_formula] on every value two payload bytes can hold. *)
Lemma engine_rpm_formula_two_bytes (system : measurement_system) (data : Z) :
  0 <= data < 65536 ->
  engine_rpm_formula system data = sprintf_i (data / 4) ++ rpm_unit system.
Proof.
  intros H. unfold engine_rpm_formula.
  change (int_of_float (float_div (float_of_int data) (float_of_int 4)))
    with (rpm_of data).
  rewrite (rpm_of_two_bytes data H). destruct system; reflexivity.
Qed.

(** The text of [engine_rpm_formula] fits [screen_buf]. *)
Lemma engine_rpm_formula_fits (system : measurement_system) (data : Z) :
  0 <= data < 65536 ->
  (64 <=? strlen (engine_rpm_formula system data)) = false.
Proof.
  intros H. rewrite (engine_rpm_formula_two_bytes system data H).
  pose (P := fun q => (strlen (sprintf_i q ++ " r/min") <? 64)
                      && (strlen (sprintf_i q ++ " rpm") <? 64)).
  assert (G : P (data / 4) = true).
  { apply (holds_from_spec (Z.to_nat 16384) P 0).
    - vm_compute. reflexivity.
    - rewrite Z2Nat.id by lia. split.
      + apply Z.div_pos; lia.
      + apply Z.div_lt_upper_bound; lia. }
  unfold P in G. apply andb_true_iff in G as [G1 G2].
  apply Z.leb_gt. destruct system; apply Z.ltb_lt; assumption.
Qed.

(** ** The decoding path of [sensor_proc] *)

Lemma copy_token_c_str (D : ascii) (p : string) :
  c_str (fst (copy_token D p)) = fst (copy_token D p).
Proof.
  induction p as [|c p IH]; simpl; auto.
  destruct (at_token_end D c) eqn:E; simpl; auto.
  destruct (copy_token D p) as [out q]; simpl in *.
  unfold at_token_end in E. apply orb_false_iff in E as [-> _].
  rewrite IH. reflexivity.
Qed.

Lemma sensor_at_lookup (s : state) (k : nat) (r : SENSOR) :
  sensors s !! k = Some r -> sensor_at s k = r.
Proof. unfold sensor_at. intros ->. reflexivity. Qed.

Lemma sensor_at_strcpy (s : state) (k : nat) (text : string) (r : SENSOR) :
  sensors s !! k = Some r ->
  sensor_at (strcpy_screen_buf k text s) k = with_screen_buf text r.
Proof.
  intros H. unfold sensor_at, strcpy_screen_buf. destruct s; simpl in *.
  rewrite list_lookup_alter, decide_True, H by reflexivity. reflexivity.
Qed.

(** A response that begins with "41" and six more hexadecimal digits: the
    scanner returns its first token. *)
Lemma find_valid_response_token (D : ascii) (c3 c4 c5 c6 c7 c8 : ascii)
    (rest : string) :
  at_token_end D "4" = false -> at_token_end D "1" = false ->
  at_token_end D c3 = false -> at_token_end D c4 = false ->
  at_token_end D c5 = false -> at_token_end D c6 = false ->
  at_token_end D c7 = false -> at_token_end D c8 = false ->
  find_valid_response D enough_fuel
    (String "4" (String "1" (String c3 (String c4
       (String c5 (String c6 (String c7 (String c8 rest)))))))) =
  Some (true,
        String "4" (String "1" (String c3 (String c4
          (String c5 (String c6 (String c7 (String c8
             (fst (copy_token D rest)))))))))).
Proof.
  intros E1 E2 E3 E4 E5 E6 E7 E8.
  unfold find_valid_response, enough_fuel. simpl.
  rewrite E1, E2, E3, E4, E5, E6, E7, E8.
  destruct (copy_token D rest) as [out q]. reflexivity.
Qed.

(** Cutting a token at its ninth character and skipping four leaves the
    fifth to eighth. *)
Lemma payload_of_two_bytes (c1 c2 c3 c4 c5 c6 c7 c8 : ascii) (tok : string) :
  is_nul c1 = false -> is_nul c2 = false -> is_nul c3 = false ->
  is_nul c4 = false -> is_nul c5 = false -> is_nul c6 = false ->
  is_nul c7 = false -> is_nul c8 = false ->
  c_str tok = tok ->
  let buf := String c1 (String c2 (String c3 (String c4
               (String c5 (String c6 (String c7 (String c8 tok))))))) in
  (strlen buf <? 4) = false
  /\ offset 4 (terminate_at (4 + 2 * 2) buf) =
       String c5 (String c6 (String c7 (String c8 "")))
  /\ strlen buf = 8 + strlen tok.
Proof.
  intros N1 N2 N3 N4 N5 N6 N7 N8 Htok buf.
  assert (Hc : c_str buf = buf).
  { unfold buf. simpl. rewrite N1, N2, N3, N4, N5, N6, N7, N8, Htok.
    reflexivity. }
  assert (Hlen : strlen buf = 8 + Z.of_nat (String.length tok)).
  { unfold strlen. rewrite Hc. unfold buf. simpl String.length. lia. }
  split; [|split].
  - rewrite Hlen. apply Z.ltb_ge. lia.
  - unfold terminate_at. change (4 + 2 * 2 <? 0) with false. cbv iota.
    rewrite Hlen, Hc.
    destruct (4 + 2 * 2 <? 8 + Z.of_nat (String.length tok)) eqn:E.
    + change (Z.to_nat (4 + 2 * 2)) with 8%nat. unfold buf.
      destruct tok; reflexivity.
    + apply Z.ltb_ge in E. unfold buf.
      destruct tok; simpl in E; [reflexivity | lia].
  - rewrite Hlen. unfold strlen. rewrite Htok. reflexivity.
Qed.

(** C6.  Decoding of the engine speed.  Take a row of the page whose sensor
    is the two-byte engine RPM sensor and which the cursor is on, with a
    request outstanding.  When the prompt arrives, the accumulated response
    fits the 512 characters of [vehicle_response], and it is hexadecimal
    data whose text starts with 41, two mode and PID digits and four payload
    digits h1 h2 h3 h4, in a token that fits the 80 characters of [buf]
    (the token may go on after the payload, which is cut after the first
    4 + 2 * bytes characters, and more tokens may follow), [sensor_proc]
    writes the integer part of raw / 4, raw being the payload read as a
    big-endian hexadecimal number, followed by " r/min" in metric and
    " rpm" in imperial units; the cursor moves on and the retry counter is
    full again.  So the payload 1AF8 = 6904 is shown as "1726 r/min". *)
Theorem engine_rpm_decode
    (D : ascii) (T LONG_MAX : Z) (s : state) (e : env) (i k : nat)
    (d : DIALOG) (r : SENSOR) (chunk rest : string)
    (p1 p2 h1 h2 h3 h4 : ascii) (q1 q2 v1 v2 v3 v4 : Z) :
  65535 <= LONG_MAX ->
  hex_digit D = None ->
  sensor_rows s !! i = Some d -> dp3 d = Some k -> sensors s !! k = Some r ->
  formula r = Some fn_engine_rpm_formula -> bytes r = 2 ->
  d1 d = current_sensor s -> flag_set (flags d) D_DISABLED = false ->
  reset_hardware s = false -> comport_status s = READY ->
  receiving_response s = true -> new_page s = false ->
  read_comport e = (PROMPT, chunk) ->
  strlen (vehicle_response s) + strlen chunk < 512 ->
  process_response e (command r) (strcat (vehicle_response s) chunk) =
    (HEX_DATA,
     String "4" (String "1" (String p1 (String p2
       (String h1 (String h2 (String h3 (String h4 rest)))))))) ->
  8 + strlen (fst (copy_token D rest)) < 80 ->
  hex_digit p1 = Some q1 -> hex_digit p2 = Some q2 ->
  hex_digit h1 = Some v1 -> hex_digit h2 = Some v2 ->
  hex_digit h3 = Some v3 -> hex_digit h4 = Some v4 ->
  exists s',
    sensor_proc D T LONG_MAX MSG_IDLE i 0 e s = Returns D_REDRAWME s'
    /\ screen_buf (sensor_at s' k) =
         sprintf_i ((4096 * v1 + 256 * v2 + 16 * v3 + v4) / 4)
           ++ rpm_unit (system_of_measurements s)
    /\ current_sensor s' = next_sensor s
    /\ retry_attempts s' = NUM_OF_RETRIES.
Proof.
  intros HL HD Hrow Hdp Hr Hf Hb Hd1 Hen Hreset Hready Hrecv Hpage Hread
    Hfits Hproc Htoken Hp1 Hp2 H1 H2 H3 H4.
  unfold sensor_proc. rewrite Hrow, Hreset, Hdp.
  unfold sensor_proc_idle. rewrite Hd1, Z.eqb_refl, Hready.
  unfold ready_block. rewrite Hen, Hrecv, Hread. simpl negb. cbv iota.
  unfold handle_prompt, sensor_at. simpl. rewrite Hpage, Hr. simpl.
  rewrite Hproc.
  pose proof (hex_digit_not_delimiter D "4" 4 HD eq_refl) as E1.
  pose proof (hex_digit_not_delimiter D "1" 1 HD eq_refl) as E2.
  pose proof (hex_digit_not_delimiter D _ _ HD Hp1) as E3.
  pose proof (hex_digit_not_delimiter D _ _ HD Hp2) as E4.
  pose proof (hex_digit_not_delimiter D _ _ HD H1) as E5.
  pose proof (hex_digit_not_delimiter D _ _ HD H2) as E6.
  pose proof (hex_digit_not_delimiter D _ _ HD H3) as E7.
  pose proof (hex_digit_not_delimiter D _ _ HD H4) as E8.
  rewrite find_valid_response_token by assumption.
  destruct (payload_of_two_bytes "4" "1" p1 p2 h1 h2 h3 h4
              (fst (copy_token D rest))) as (Hlen & Hcut & Hsize);
    try (eapply hex_digit_plain; eassumption);
    try reflexivity; try apply copy_token_c_str.
  rewrite Hsize, (proj2 (Z.leb_gt _ _) Htoken), <- Hsize, Hlen, Hf.
  simpl formula_body. cbv iota.
  rewrite Hb, Hcut.
  rewrite (strtol16_four_digits LONG_MAX _ _ _ _ _ _ _ _ HL H1 H2 H3 H4).
  destruct (hex_digit_plain _ _ H1) as (B1 & _).
  destruct (hex_digit_plain _ _ H2) as (B2 & _).
  destruct (hex_digit_plain _ _ H3) as (B3 & _).
  destruct (hex_digit_plain _ _ H4) as (B4 & _).
  rewrite wrap_int_small by (unfold INT_MIN, INT_MAX; lia).
  match goal with
  | |- context [calculate_refresh_rate ?ev ?x] =>
      destruct (calculate_refresh_rate_writes ev x)
        as (t & b & w & v & c0 & c & a & tr & -> & _)
  end.
  simpl system_of_measurements.
  rewrite engine_rpm_formula_fits by lia.
  eexists. split; [reflexivity|].
  unfold sensor_at, next_sensor. simpl.
  rewrite list_lookup_alter, decide_True, Hr by reflexivity. simpl.
  split; [|split; reflexivity].
  apply engine_rpm_formula_two_bytes. lia.
Qed.

Lemma engine_rpm_decode_witness :
  exists s',
    sensor_proc TAB demo_timeout demo_long_max MSG_IDLE 1 0 rpm_reply
      rpm_requested = Returns D_REDRAWME s'
    /\ screen_buf (sensor_at s' 1) = "1726 r/min"
    /\ current_sensor s' = 2
    /\ retry_attempts s' = 3.
Proof.
  apply (engine_rpm_decode TAB demo_timeout demo_long_max rpm_requested
           rpm_reply 1 1
           (mkDIALOG 64 1 0 (Some 1%nat))
           (mkSENSOR (Some fn_engine_rpm_formula) "Engine RPM:" "N/A" "010C" 1 2)
           ("41 0C 1A F8 " ++ String CR (String CR ">")) ""
           "0" "C" "1" "A" "F" "8" 0 12 1 10 15 8);
    solve [vm_compute; reflexivity | vm_compute; discriminate].
Defined.

(** ** The refresh-rate estimator *)

Lemma not_pinning (s : state) :
  num_of_sensors_off s < sensors_on_page s ->
  (sensors_on_page s <=? num_of_sensors_off s)
  && negb (reset_on_all_off_occured s) = false.
Proof.
  intros H. apply andb_false_iff. left. apply Z.leb_gt. exact H.
Qed.

(** C7.  On a completion that the estimator samples (it has been
    initialised, the page holds sensors and the event is not OFF): while the
    sample count is below [sensors_on_page - num_of_disabled_sensors] the
    new instantaneous rate is added to the accumulator and the count grows
    by one; once the count has reached that number the average becomes
    accumulator / count and both are set back to zero. *)
Theorem averaging_window (ev : sensor_state_t) (s : state) :
  initialization_occured s = true ->
  num_of_sensors_off s < sensors_on_page s ->
  ev <> SENSOR_OFF ->
  let s' := calculate_refresh_rate ev s in
  let n := sensors_on_page s - num_of_disabled_sensors s in
  (sensors_on_counter s < n ->
     sensors_on_counter s' = sensors_on_counter s + 1
     /\ avg_refresh_rate_accumulator s' =
          float_add (avg_refresh_rate_accumulator s) (inst_refresh_rate s')
     /\ avg_refresh_rate s' = avg_refresh_rate s)
  /\ (n <= sensors_on_counter s ->
        avg_refresh_rate s' =
          float_div (avg_refresh_rate_accumulator s)
            (float_of_int (sensors_on_counter s))
        /\ avg_refresh_rate_accumulator s' = float_of_int 0
        /\ sensors_on_counter s' = 0).
Proof.
  intros Hinit Hpage Hev s' n. subst s' n.
  unfold calculate_refresh_rate.
  rewrite Hinit, (not_pinning s Hpage). simpl negb. cbv iota.
  split; intros Hn.
  - apply Z.ltb_lt in Hn.
    destruct ev; try congruence; simpl; rewrite Hn; simpl; auto.
  - apply Z.ltb_ge in Hn.
    destruct ev; try congruence; simpl; rewrite Hn; simpl; auto.
Qed.

Lemma averaging_window_witness :
  initialization_occured rpm_shown = true
  /\ num_of_sensors_off rpm_shown < sensors_on_page rpm_shown
  /\ sensors_on_counter (calculate_refresh_rate SENSOR_NA rpm_shown) = 1
  /\ avg_refresh_rate_accumulator (calculate_refresh_rate SENSOR_NA rpm_shown)
     = float_of_int 1.
Proof.
  assert (Hi : initialization_occured rpm_shown = true) by reflexivity.
  assert (Hp : num_of_sensors_off rpm_shown < sensors_on_page rpm_shown)
    by reflexivity.
  assert (He : SENSOR_NA <> SENSOR_OFF) by discriminate.
  destruct (averaging_window SENSOR_NA rpm_shown Hi Hp He) as [Hacc _].
  destruct Hacc as (Hc & Ha & _); [reflexivity|].
  split; [exact Hi|]. split; [exact Hp|].
  split; [rewrite Hc | rewrite Ha]; reflexivity.
Defined.

Lemma iter_inc_refresh_time (n : nat) (s : state) :
  0 <= refresh_time s -> refresh_time s + Z.of_nat n <= INT_MAX ->
  refresh_time (Nat.iter n inc_refresh_time s) = refresh_time s + Z.of_nat n
  /\ initialization_occured (Nat.iter n inc_refresh_time s)
     = initialization_occured s
  /\ num_of_sensors_off (Nat.iter n inc_refresh_time s) = num_of_sensors_off s
  /\ sensors_on_page (Nat.iter n inc_refresh_time s) = sensors_on_page s
  /\ reset_on_all_off_occured (Nat.iter n inc_refresh_time s)
     = reset_on_all_off_occured s.
Proof.
  induction n as [|n IH]; intros H0 H1.
  - simpl. repeat split; lia.
  - destruct IH as (IH1 & IH2 & IH3 & IH4 & IH5); [lia | lia |].
    simpl Nat.iter. unfold inc_refresh_time at 1 3 5 7 9. simpl.
    rewrite IH1, wrap_int_small by (unfold INT_MIN, INT_MAX in *; lia).
    repeat split; auto; lia.
Qed.

(** C8, amended.  Once the estimator has been initialised by a first ACTIVE
    completion, every completion other than OFF on a page that holds
    sensors sets the instantaneous rate to
    1 / (refresh_time * 10 * 0.001) and sets the tick counter back to 0
    exactly when the event is ACTIVE.  Before that, the first ACTIVE
    completion only initialises the estimator: it sets the tick counter to
    0, installs the timer and marks the estimator as initialised, and it
    leaves both rates, the accumulator and the sample count as they were;
    a completion of another kind changes nothing at all.  And whatever the
    state before, one hundred ticks between two ACTIVE completions give a
    rate of 1.0. *)
Theorem instantaneous_rate (ev : sensor_state_t) (s : state) :
  num_of_sensors_off s < sensors_on_page s ->
  ev <> SENSOR_OFF ->
  (initialization_occured s = true ->
   inst_refresh_rate (calculate_refresh_rate ev s)
     = rate_of_ticks (refresh_time s)
   /\ refresh_time (calculate_refresh_rate ev s)
      = match ev with SENSOR_ACTIVE => 0 | _ => refresh_time s end)
  /\ (initialization_occured s = false ->
      let s' := calculate_refresh_rate SENSOR_ACTIVE s in
      inst_refresh_rate s' = inst_refresh_rate s
      /\ avg_refresh_rate s' = avg_refresh_rate s
      /\ avg_refresh_rate_accumulator s' = avg_refresh_rate_accumulator s
      /\ sensors_on_counter s' = sensors_on_counter s
      /\ refresh_time s' = 0
      /\ initialization_occured s' = true
      /\ trace s'
         = (trace s ++ [install_int_inc_refresh_time REFRESH_RATE_PRECISION])%list
      /\ (ev <> SENSOR_ACTIVE -> calculate_refresh_rate ev s = s))
  /\ inst_refresh_rate
       (calculate_refresh_rate SENSOR_ACTIVE
          (Nat.iter 100 inc_refresh_time
             (calculate_refresh_rate SENSOR_ACTIVE s)))
     = float_of_int 1.
Proof.
  intros Hpage Hev. split; [|split].
  - intros Hinit. unfold calculate_refresh_rate.
    rewrite Hinit, (not_pinning s Hpage). simpl negb. cbv iota.
    destruct ev; try congruence; simpl;
      destruct (sensors_on_counter s <? _); simpl; auto.
  - intros Hinit. unfold calculate_refresh_rate. rewrite Hinit.
    simpl negb. cbv iota. simpl.
    repeat (split; [reflexivity|]).
    intros Hna. destruct ev; congruence.
  - set (s1 := calculate_refresh_rate SENSOR_ACTIVE s).
    assert (H1 : refresh_time s1 = 0 /\ initialization_occured s1 = true
                 /\ num_of_sensors_off s1 = num_of_sensors_off s
                 /\ sensors_on_page s1 = sensors_on_page s).
    { subst s1. unfold calculate_refresh_rate.
      destruct (initialization_occured s) eqn:Hinit; simpl.
      - rewrite (not_pinning s Hpage). simpl.
        destruct (sensors_on_counter s <? _); simpl; auto.
      - auto. }
    destruct H1 as (Ht & Hi & Hoff & Hon).
    destruct (iter_inc_refresh_time 100 s1) as (Ht' & Hi' & Hoff' & Hon' & _);
      [lia | rewrite Ht; unfold INT_MAX; simpl; lia |].
    set (s2 := Nat.iter 100 inc_refresh_time s1) in *.
    assert (Hp2 : (sensors_on_page s2 <=? num_of_sensors_off s2) = false).
    { apply Z.leb_gt. rewrite Hoff', Hon', Hoff, Hon. exact Hpage. }
    clearbody s2. unfold calculate_refresh_rate.
    rewrite Hi', Hi, Hp2. simpl.
    case_match; simpl; rewrite Ht', Ht; vm_compute; reflexivity.
Qed.

Lemma instantaneous_rate_witness :
  inst_refresh_rate (calculate_refresh_rate SENSOR_ACTIVE rpm_shown)
  = float_of_int 1
  /\ refresh_time (calculate_refresh_rate SENSOR_ACTIVE rpm_shown) = 0.
Proof.
  assert (Hp : num_of_sensors_off rpm_shown < sensors_on_page rpm_shown)
    by reflexivity.
  assert (He : SENSOR_ACTIVE <> SENSOR_OFF) by discriminate.
  destruct (instantaneous_rate SENSOR_ACTIVE rpm_shown Hp He) as [H _].
  destruct (H eq_refl) as [H1 H2].
  split; [rewrite H1 | rewrite H2]; reflexivity.
Defined.

(** C8 as stated fails on the first ACTIVE completion after the program
    starts: the estimator only initialises itself and leaves the rate at 0,
    while 1 / (refresh_time * 10 * 0.001) is not 0. *)
Lemma instantaneous_rate_not_set_before_initialisation :
  num_of_sensors_off (opened READY) < sensors_on_page (opened READY)
  /\ inst_refresh_rate (calculate_refresh_rate SENSOR_ACTIVE (opened READY))
     = float_of_int 0
  /\ rate_of_ticks (refresh_time (opened READY)) <> float_of_int 0.
Proof.
  split; [reflexivity|]. split; [reflexivity|]. vm_compute. discriminate.
Qed.

(** C5.  With sensors on the page, an OFF completion changes nothing: the
    branch that would set both rates to 0 compares [sensors_on_page] with
    [num_of_sensors_off], a variable that no statement assigns and that
    therefore stays 0, so disabling every sensor of the page leaves the
    rates as they were. *)
Theorem all_off_leaves_rates (s : state) :
  initialization_occured s = true ->
  num_of_sensors_off s = 0 ->
  0 < sensors_on_page s ->
  calculate_refresh_rate SENSOR_OFF s = s.
Proof.
  intros Hinit Hoff Hpage. unfold calculate_refresh_rate.
  rewrite Hinit, not_pinning by lia. reflexivity.
Qed.

Lemma all_off_leaves_rates_witness :
  num_of_disabled_sensors all_disabled = sensors_on_page all_disabled
  /\ calculate_refresh_rate SENSOR_OFF all_disabled = all_disabled
  /\ inst_refresh_rate all_disabled = float_of_int 1.
Proof.
  split; [reflexivity|]. split; [|reflexivity].
  apply (all_off_leaves_rates all_disabled); reflexivity.
Defined.

(** ** Switching the page *)

Lemma fold_left_preserves {A B : Type} (P : A -> Prop) (f : A -> B -> A)
    (l : list B) (a : A) :
  P a -> (forall a b, In b l -> P a -> P (f a b)) -> P (fold_left f l a).
Proof.
  revert a. induction l as [|b l IH]; simpl; intros a Ha Hf.
  - exact Ha.
  - apply IH; auto.
Qed.

Lemma toggle_proc_msg_keeps (msg : message) (i : nat) (c : Z) (s : state) :
  let s' := toggle_proc_msg msg i c s in
  sensor_rows s' = sensor_rows s /\ sensors s' = sensors s
  /\ retry_attempts s' = retry_attempts s
  /\ (polling_reset s -> polling_reset s').
Proof.
  unfold toggle_proc_msg, toggle_proc_update, polling_reset.
  repeat case_match; simplify_eq; simpl; auto.
Qed.

Lemma sensor_proc_msg_update_keeps (i : nat) (s : state) :
  let s' := snd (sensor_proc_msg_init MSG_UPDATE i s) in
  retry_attempts s' = retry_attempts s
  /\ (polling_reset s -> polling_reset s')
  /\ (forall d, sensor_rows s !! i = Some d -> d1 d = 0 ->
      is_Some (dp3 d) -> polling_reset s').
Proof.
  unfold sensor_proc_msg_init.
  destruct (sensor_rows s !! i) as [d|] eqn:Hrow; simpl.
  2: { split; [reflexivity|]. split; [tauto|]. intros; discriminate. }
  destruct (dp3 d) as [k|] eqn:Hdp; simpl.
  2: { split; [reflexivity|]. split; [tauto|].
       intros d' [= <-] _ [x Hx]. congruence. }
  unfold sensor_proc_update, sensor_proc_end, polling_reset.
  destruct (d1 d =? 0) eqn:Hd1; repeat case_match; simpl;
    (split; [reflexivity|]); (split; [tauto|]).
  all: intros d' [= <-] Hz _; try tauto; rewrite Hz in Hd1; discriminate.
Qed.

Lemma broadcast_update_resets (s : state) (d0 : DIALOG) :
  sensor_rows s !! 0%nat = Some d0 -> d1 d0 = 0 -> is_Some (dp3 d0) ->
  polling_reset (broadcast_init MSG_UPDATE 0 s)
  /\ retry_attempts (broadcast_init MSG_UPDATE 0 s) = retry_attempts s.
Proof.
  intros Hrow Hd1 Hdp. unfold broadcast_init.
  destruct (sensor_rows s) as [|d rows] eqn:Hrows; [discriminate|].
  simpl length. simpl seq. simpl fold_left.
  destruct (toggle_proc_msg_keeps MSG_UPDATE 0 0 s) as (Tr & _ & Ta & _).
  destruct (sensor_proc_msg_update_keeps 0 (toggle_proc_msg MSG_UPDATE 0 0 s))
    as (Ua & _ & Ur).
  apply (fold_left_preserves
           (fun a => polling_reset a /\ retry_attempts a = retry_attempts s)).
  - split.
    + apply (Ur d0); auto. rewrite Tr, Hrows. exact Hrow.
    + rewrite Ua, Ta. reflexivity.
  - intros a i _ [Hp Ha].
    destruct (toggle_proc_msg_keeps MSG_UPDATE i 0 a) as (_ & _ & Ta' & Tp').
    destruct (sensor_proc_msg_update_keeps i (toggle_proc_msg MSG_UPDATE i 0 a))
      as (Ua' & Up' & _).
    split; [auto | congruence].
Qed.

Lemma fill_sensors_step_keeps (p : Z) (acc : state * Z) (i : nat) :
  let acc' :=
    (fun '(s, index) i =>
       match sensor_rows s !! i with
       | None => (s, index)
       | Some d =>
           let k := Z.to_nat (index + p * SENSORS_PER_PAGE) in
           match formula (sensor_at s k) with
           | Some _ =>
               let s := strcpy_screen_buf k "N/A" s in
               (put_sensor_row i (with_dp3 (Some k) d) s, index + 1)
           | None =>
               let d := with_dp3 None d in
               let d := with_flags (Z.lor (flags d) D_DIRTY) d in
               (put_sensor_row i d s, index)
           end
       end) acc i in
  retry_attempts (fst acc') = retry_attempts (fst acc)
  /\ forall j, j <> i ->
       sensor_rows (fst acc') !! j = sensor_rows (fst acc) !! j.
Proof.
  destruct acc as [s index]. simpl.
  repeat case_match; simpl; split; auto; intros j Hj;
    apply list_lookup_insert_ne; auto.
Qed.

Lemma fill_sensors_first_row (p : Z) (s : state) (d0 : DIALOG) :
  sensor_rows s !! 0%nat = Some d0 ->
  formula (sensor_at s (Z.to_nat (p * SENSORS_PER_PAGE))) <> None ->
  retry_attempts (fill_sensors p s) = retry_attempts s
  /\ exists k, sensor_rows (fill_sensors p s) !! 0%nat
               = Some (with_dp3 (Some k) d0).
Proof.
  intros Hrow Hf. unfold fill_sensors.
  destruct (sensor_rows s) as [|d rows] eqn:Hrows; [discriminate|].
  injection Hrow as ->.
  simpl length. simpl seq. simpl fold_left. rewrite Hrows. simpl lookup.
  rewrite !Z.add_0_l.
  destruct (formula (sensor_at s (Z.to_nat (p * SENSORS_PER_PAGE))))
    as [f|] eqn:Hform; [clear Hf | congruence].
  match goal with
  | |- context [fold_left ?f ?l ?a] =>
      pose proof (fold_left_preserves
        (fun acc => retry_attempts (fst acc) = retry_attempts s
                    /\ sensor_rows (fst acc) !! 0%nat
                       = Some (with_dp3
                                 (Some (Z.to_nat (p * SENSORS_PER_PAGE))) d0))
        f l a) as Hfold
  end.
  destruct Hfold as [Hr Hk].
  - split; [reflexivity|]. simpl. rewrite Hrows. reflexivity.
  - intros acc i Hi [Ha Hb].
    destruct (fill_sensors_step_keeps p acc i) as [Sa Sb].
    split.
    + transitivity (retry_attempts (fst acc)); [exact Sa | exact Ha].
    + transitivity (sensor_rows (fst acc) !! 0%nat); [|exact Hb].
      apply Sb. apply in_seq in Hi. lia.
  - match goal with
    | |- context [fold_left ?f ?l ?a] => destruct (fold_left f l a)
    end.
    simpl in *. split; [exact Hr | eexists; exact Hk].
Qed.

Lemma turn_page_keeps (direction : Z) (s : state) :
  sensor_rows (turn_page direction s) = sensor_rows s
  /\ sensors (turn_page direction s) = sensors s
  /\ retry_attempts (turn_page direction s) = retry_attempts s.
Proof.
  unfold turn_page. repeat case_match; simpl; auto.
Qed.

(** C4, amended.  Pressing a page button, when the page then shown holds
    at least one sensor, sets the polling cursor to 0 and clears the
    refresh-rate state (both rates, the tick counter and the count of
    timeouts); it marks the page as new and leaves the retry counter as it
    was. *)
Theorem page_switch_resets (direction : Z) (s : state) (d0 : DIALOG) :
  sensor_rows s !! 0%nat = Some d0 ->
  d1 d0 = 0 ->
  formula
    (sensor_at s
       (Z.to_nat (current_page (turn_page direction s) * SENSORS_PER_PAGE)))
  <> None ->
  let s' := page_flipper_proc_close direction s in
  current_sensor s' = 0
  /\ inst_refresh_rate s' = float_of_int 0
  /\ avg_refresh_rate s' = float_of_int 0
  /\ refresh_time s' = 0
  /\ num_of_sensors_timed_out s' = 0
  /\ new_page s' = true
  /\ retry_attempts s' = retry_attempts s.
Proof.
  intros Hrow Hd1 Hf s'. subst s'. unfold page_flipper_proc_close.
  destruct (turn_page_keeps direction s) as (Tr & Ts & Ta).
  set (s1 := turn_page direction s) in *.
  destruct (fill_sensors_first_row (current_page s1) s1 d0) as (Fa & k & Fk).
  - rewrite Tr. exact Hrow.
  - unfold sensor_at in *. rewrite Ts. exact Hf.
  - destruct (broadcast_update_resets
                (fill_sensors (current_page s1) s1) (with_dp3 (Some k) d0))
      as ((R1 & R2 & R3 & R4 & R5 & R6) & Ra).
    + exact Fk.
    + exact Hd1.
    + simpl. eauto.
    + repeat split; try assumption. congruence.
Qed.

Lemma page_switch_resets_witness :
  current_sensor (page_flipper_proc_close 1 one_retry_used) = 0
  /\ refresh_time (page_flipper_proc_close 1 one_retry_used) = 0
  /\ retry_attempts (page_flipper_proc_close 1 one_retry_used)
     = retry_attempts one_retry_used.
Proof.
  destruct (page_switch_resets 1 one_retry_used (mkDIALOG 64 0 0 (Some 0%nat)))
    as (H1 & _ & _ & H4 & _ & _ & H7).
  - reflexivity.
  - reflexivity.
  - vm_compute. discriminate.
  - auto.
Defined.

(** C4 as stated fails for the retry counter: a page switch made after one
    retry has been used leaves two retries, not three. *)
Lemma page_switch_keeps_retry_counter :
  current_page one_retry_used = 0
  /\ current_page (page_flipper_proc_close 1 one_retry_used) = 1
  /\ retry_attempts (page_flipper_proc_close 1 one_retry_used) = 2
  /\ retry_attempts (page_flipper_proc_close 1 one_retry_used)
     <> NUM_OF_RETRIES.
Proof.
  vm_compute. repeat split; discriminate.
Qed.

(** ** Retries *)

Section Polling.

Variable D : ascii.
Variable T LONG_MAX : Z.


(** An enabled row under the cursor that is not waiting for a response
    sends its command and starts the timer. *)
Lemma idle_sends (s : state) (e : env) (i k : nat) (d : DIALOG) :
  polled s i d k -> receiving_response s = false ->
  serial_time_out e = false ->
  exists s',
    sensor_proc D T LONG_MAX MSG_IDLE i 0 e s = Returns D_O_K s'
    /\ trace s' = (trace s ++ [send_command (command (sensor_at s k));
                               start_serial_timer T])%list
    /\ polled s' i d k /\ receiving_response s' = true /\ new_page s' = false
    /\ retry_attempts s' = retry_attempts s
    /\ sensors s' = sensors s.
Proof.
  intros (Hrow & Hdp & Hd1 & Hen & Hreset & Hready) Hrecv Hout.
  unfold sensor_proc. rewrite Hrow, Hreset, Hdp.
  unfold sensor_proc_idle. rewrite Hd1, Z.eqb_refl, Hready.
  unfold ready_block. rewrite Hen, Hrecv. simpl. rewrite Hout.
  unfold sensor_proc_end. rewrite Hen.
  eexists. split; [reflexivity|]. unfold polled. simpl.
  rewrite <- app_assoc. repeat split; auto.
Qed.

(** The prompt arrives after a response of a retryable kind. *)
Lemma prompt_retries (s : state) (e : env) (i k : nat) (d : DIALOG)
    (t : response_type_t) :
  polled s i d k -> receiving_response s = true -> new_page s = false ->
  reports t e -> retryable t ->
  exists ret s',
    sensor_proc D T LONG_MAX MSG_IDLE i 0 e s = Returns ret s'
    /\ (exists tr, trace s' = (trace s ++ tr)%list)
    /\ polled s' i d k /\ receiving_response s' = false
    /\ new_page s' = false
    /\ current_sensor s' = current_sensor s
    /\ command (sensor_at s' k) = command (sensor_at s k)
    /\ (0 < retry_attempts s ->
        retry_attempts s' = retry_attempts s - 1
        /\ alerts_of (trace s') = alerts_of (trace s))
    /\ (retry_attempts s <= 0 ->
        retry_attempts s' = NUM_OF_RETRIES
        /\ exists lines,
             retry_alert_lines t = Some lines
             /\ alerts_of (trace s')
                = (alerts_of (trace s) ++ [alert lines])%list).
Proof.
  intros (Hrow & Hdp & Hd1 & Hen & Hreset & Hready) Hrecv Hpage [Hread Hkind] Ht.
  unfold sensor_proc. rewrite Hrow, Hreset, Hdp.
  unfold sensor_proc_idle. rewrite Hd1, Z.eqb_refl, Hready.
  unfold ready_block. rewrite Hen, Hrecv.
  destruct (read_comport e) as [status chunk]. simpl in Hread. subst status.
  simpl negb. cbv iota.
  unfold handle_prompt. simpl. rewrite Hpage.
  match goal with
  | |- context [process_response e ?c ?m] =>
      specialize (Hkind c m); destruct (process_response e c m) as [t' text]
  end.
  simpl in Hkind. subst t'.
  assert (Hfail :
    exists s',
      handle_failure k t
        (set_vehicle_response text
           (log stop_serial_timer
              (set_receiving_response false
                 (set_num_of_sensors_timed_out 0
                    (set_device_connected true s)))))
      = Returns (if 0 <? retry_attempts s then D_O_K else D_REDRAWME) s'
      /\ (exists tr', trace s' = (trace s ++ tr')%list)
      /\ sensor_rows s' = sensor_rows s
      /\ reset_hardware s' = false /\ comport_status s' = READY
      /\ receiving_response s' = false /\ new_page s' = false
      /\ current_sensor s' = current_sensor s
      /\ command (sensor_at s' k) = command (sensor_at s k)
      /\ (0 < retry_attempts s ->
          retry_attempts s' = retry_attempts s - 1
          /\ alerts_of (trace s') = alerts_of (trace s))
      /\ (retry_attempts s <= 0 ->
          retry_attempts s' = NUM_OF_RETRIES
          /\ exists lines,
               retry_alert_lines t = Some lines
               /\ alerts_of (trace s')
                  = (alerts_of (trace s) ++ [alert lines])%list)).
  { unfold handle_failure.
    match goal with
    | |- context [calculate_refresh_rate ?ev ?x] =>
        destruct (calculate_refresh_rate_writes ev x)
          as (t0 & b & w & v & c0 & c & a & tr & -> & Htr)
    end.
    simpl.
    assert (Hcmd : forall l : list SENSOR,
              command (default end_of_table
                         (alter (with_screen_buf "N/A") k l !! k))
              = command (default end_of_table (l !! k))).
    { intros l. rewrite list_lookup_alter, decide_True by reflexivity.
      destruct (l !! k); reflexivity. }
    destruct (0 <? retry_attempts s) eqn:Hretry.
    - apply Z.ltb_lt in Hretry.
      destruct Ht as [->|[->|[->|[->| ->]]]]; simpl; rewrite ?Hretry;
        (assert (Hr : (0 <? retry_attempts s) = true) by (apply Z.ltb_lt; lia));
        rewrite ?Hr; eexists; (split; [reflexivity|]); unfold sensor_at; simpl;
        rewrite Hcmd, <- ?app_assoc, !alerts_of_app, Htr;
        (split; [eexists; reflexivity|]); repeat split; auto; try lia;
        simpl; rewrite app_nil_r; reflexivity.
    - apply Z.ltb_ge in Hretry.
      destruct Ht as [->|[->|[->|[->| ->]]]]; simpl;
        (assert (Hr : (0 <? retry_attempts s) = false) by (apply Z.ltb_ge; lia));
        rewrite ?Hr; eexists; (split; [reflexivity|]); unfold sensor_at; simpl;
        rewrite Hcmd, <- ?app_assoc, !alerts_of_app, Htr;
        (split; [eexists; reflexivity|]); repeat split; auto; try lia;
        eexists; (split; [reflexivity|]); simpl; reflexivity. }
  destruct Hfail as (s' & Hs' & Htrace & Hrows & Hres & Hrdy & Hrcv & Hnp & Hcur & Hcmd
                     & Hpos & Hzero).
  exists (if 0 <? retry_attempts s then D_O_K else D_REDRAWME), s'.
  split.
  - destruct Ht as [->|[->|[->|[->| ->]]]]; rewrite Hs'; reflexivity.
  - unfold polled. rewrite Hrows, Hcur.
    split; [exact Htrace|].
    split; [repeat split; auto|].
    repeat (split; [assumption || reflexivity|]). assumption.
Qed.

Lemma run_app (l1 l2 : list call) (s : state) :
  run D T LONG_MAX (l1 ++ l2) s =
  match run D T LONG_MAX l1 s with
  | Some s' => run D T LONG_MAX l2 s'
  | None => None
  end.
Proof.
  revert s. induction l1 as [|c l1 IH]; simpl; intros s; auto.
  destruct (step D T LONG_MAX c s); auto.
Qed.

(** One exchange that ends in a response of a retryable kind. *)
Lemma exchange_retries (s : state) (i k : nat) (d : DIALOG)
    (t : response_type_t) (ef : env * env) :
  polled s i d k -> receiving_response s = false ->
  answered t ef -> retryable t ->
  exists s',
    run D T LONG_MAX (exchange i ef) s = Some s'
    /\ (exists tr,
          trace s' = (trace s ++ send_command (command (sensor_at s k)) :: tr)%list)
    /\ polled s' i d k /\ receiving_response s' = false
    /\ current_sensor s' = current_sensor s
    /\ command (sensor_at s' k) = command (sensor_at s k)
    /\ (0 < retry_attempts s ->
        retry_attempts s' = retry_attempts s - 1
        /\ alerts_of (trace s') = alerts_of (trace s))
    /\ (retry_attempts s <= 0 ->
        retry_attempts s' = NUM_OF_RETRIES
        /\ exists lines,
             retry_alert_lines t = Some lines
             /\ alerts_of (trace s')
                = (alerts_of (trace s) ++ [alert lines])%list).
Proof.
  intros Hp Hrecv [Hout Hrep] Ht.
  destruct (idle_sends s (fst ef) i k d Hp Hrecv Hout)
    as (s1 & Hrun1 & Htr1 & Hp1 & Hrecv1 & Hnp1 & Hretry1 & Hsens1).
  destruct (prompt_retries s1 (snd ef) i k d t Hp1 Hrecv1 Hnp1 Hrep Ht)
    as (ret & s2 & Hrun2 & [tr2 Htr2] & Hp2 & Hrecv2 & _ & Hcur2 & Hcmd2 & Hpos & Hzero).
  assert (Hal : alerts_of (trace s1) = alerts_of (trace s)).
  { rewrite Htr1, alerts_of_app. simpl. apply app_nil_r. }
  assert (Hcur1 : current_sensor s1 = current_sensor s).
  { destruct Hp as (_ & _ & <- & _). destruct Hp1 as (_ & _ & <- & _).
    reflexivity. }
  exists s2. unfold exchange. simpl. rewrite Hrun1, Hrun2.
  split; [reflexivity|]. split.
  { rewrite Htr2, Htr1, <- app_assoc. simpl. eexists. reflexivity. }
  repeat (split; [assumption || congruence|]).
  split.
  - unfold sensor_at in *. rewrite <- Hsens1. exact Hcmd2.
  - rewrite <- Hretry1, <- Hal. split; assumption.
Qed.

(** As long as retries are left, exchanges that end in a retryable
    response use them up one by one, silently and on the same row. *)
Lemma retries_count_down (t : response_type_t) (i k : nat) (d : DIALOG)
    (es : list (env * env)) :
  retryable t -> Forall (answered t) es ->
  forall s,
    polled s i d k -> receiving_response s = false ->
    Z.of_nat (length es) <= retry_attempts s ->
    exists s',
      run D T LONG_MAX (flat_map (exchange i) es) s = Some s'
      /\ polled s' i d k /\ receiving_response s' = false
      /\ current_sensor s' = current_sensor s
      /\ retry_attempts s' = retry_attempts s - Z.of_nat (length es)
      /\ alerts_of (trace s') = alerts_of (trace s).
Proof.
  intros Ht Hes. induction Hes as [|ef es Hef _ IH]; intros s Hp Hrecv Hlen.
  - exists s. simpl.
    repeat (split; [assumption || reflexivity|]). split; [lia | reflexivity].
  - simpl length in Hlen. rewrite Nat2Z.inj_succ in Hlen.
    destruct (exchange_retries s i k d t ef Hp Hrecv Hef Ht)
      as (s1 & Hrun1 & _ & Hp1 & Hrecv1 & Hcur1 & _ & Hpos & _).
    destruct Hpos as [Hretry1 Hal1]; [lia|].
    destruct (IH s1 Hp1 Hrecv1) as (s' & Hrun & Hp' & Hrecv' & Hcur' & Hretry' & Hal');
      [lia|].
    exists s'. change (flat_map (exchange i) (ef :: es))
      with (exchange i ef ++ flat_map (exchange i) es)%list.
    rewrite run_app, Hrun1, Hrun.
    repeat (split; [assumption || congruence|]).
    split; [|congruence]. simpl length. lia.
Qed.

(** C1, amended.  For an enabled row under the cursor: an exchange whose
    response is BUS BUSY, a data error, a serial error or rubbish sends the
    row's command and leaves the cursor on the row; with retries left it
    takes one retry and raises no alert, with none left it raises the
    alert of that kind, once, and sets the counter back to 3, still
    without moving the cursor.  So, from a full counter, three exchanges
    that end in rubbish raise no alert, the fourth raises exactly one, and
    the row is polled again with the counter at 3. *)
Theorem retry_policy (s : state) (i k : nat) (d : DIALOG) :
  polled s i d k -> receiving_response s = false ->
  (forall t ef, retryable t -> answered t ef ->
   exists s',
     run D T LONG_MAX (exchange i ef) s = Some s'
     /\ (exists tr,
           trace s'
           = (trace s ++ send_command (command (sensor_at s k)) :: tr)%list)
     /\ polled s' i d k /\ receiving_response s' = false
     /\ current_sensor s' = current_sensor s
     /\ command (sensor_at s' k) = command (sensor_at s k)
     /\ (0 < retry_attempts s ->
         retry_attempts s' = retry_attempts s - 1
         /\ alerts_of (trace s') = alerts_of (trace s))
     /\ (retry_attempts s <= 0 ->
         retry_attempts s' = NUM_OF_RETRIES
         /\ exists lines,
              retry_alert_lines t = Some lines
              /\ alerts_of (trace s')
                 = (alerts_of (trace s) ++ [alert lines])%list))
  /\ (forall es, length es = 4%nat -> Forall (answered RUBBISH) es ->
      retry_attempts s = NUM_OF_RETRIES ->
      exists s3 s4,
        run D T LONG_MAX (flat_map (exchange i) (firstn 3 es)) s = Some s3
        /\ alerts_of (trace s3) = alerts_of (trace s)
        /\ run D T LONG_MAX (flat_map (exchange i) es) s = Some s4
        /\ alerts_of (trace s4)
           = (alerts_of (trace s)
              ++ [alert ["Serial Link Error: please check connection";
                         "between computer and OBD interface."]])%list
        /\ current_sensor s4 = current_sensor s
        /\ retry_attempts s4 = NUM_OF_RETRIES
        /\ polled s4 i d k /\ receiving_response s4 = false).
Proof.
  intros Hp Hrecv. split.
  - intros t ef Ht Hef. apply exchange_retries; assumption.
  - intros es Hlen Hes Hfull.
    assert (Hr : retryable RUBBISH) by (unfold retryable; tauto).
    destruct es as [|e1 [|e2 [|e3 [|e4 [|]]]]]; try discriminate Hlen.
    pose proof (Forall_inv Hes) as A1.
    pose proof (Forall_inv (Forall_inv_tail Hes)) as A2.
    pose proof (Forall_inv (Forall_inv_tail (Forall_inv_tail Hes))) as A3.
    pose proof (Forall_inv
                  (Forall_inv_tail (Forall_inv_tail (Forall_inv_tail Hes))))
      as H4.
    assert (H3 : Forall (answered RUBBISH) [e1; e2; e3]).
    { apply List.Forall_cons; [exact A1|].
      apply List.Forall_cons; [exact A2|].
      apply List.Forall_cons; [exact A3|]. apply List.Forall_nil. }
    destruct (retries_count_down RUBBISH i k d [e1; e2; e3] Hr H3 s Hp Hrecv)
      as (s3 & Hrun3 & Hp3 & Hrecv3 & Hcur3 & Hretry3 & Hal3).
    { rewrite Hfull. unfold NUM_OF_RETRIES. simpl. lia. }
    destruct (exchange_retries s3 i k d RUBBISH e4 Hp3 Hrecv3 H4 Hr)
      as (s4 & Hrun4 & _ & Hp4 & Hrecv4 & Hcur4 & _ & _ & Hzero).
    destruct Hzero as (Hretry4 & lines & Hlines & Hal4).
    { rewrite Hretry3, Hfull. unfold NUM_OF_RETRIES. simpl. lia. }
    injection Hlines as <-.
    exists s3, s4. split; [exact Hrun3|]. split; [exact Hal3|].
    split.
    { change (flat_map (exchange i) [e1; e2; e3; e4])
        with (flat_map (exchange i) [e1; e2; e3] ++ exchange i e4)%list.
      rewrite run_app, Hrun3. exact Hrun4. }
    rewrite Hal4, Hal3.
    repeat (split; [assumption || congruence|]). assumption.
Qed.

End Polling.

Lemma retry_policy_witness :
  polled rpm_shown 2 (mkDIALOG 64 2 0 (Some 2%nat)) 2
  /\ retry_attempts rpm_shown = NUM_OF_RETRIES
  /\ exists s3 s4,
       run TAB demo_timeout demo_long_max
         (flat_map (exchange 2) (firstn 3 four_rubbish)) rpm_shown = Some s3
       /\ alerts_of (trace s3) = alerts_of (trace rpm_shown)
       /\ run TAB demo_timeout demo_long_max
            (flat_map (exchange 2) four_rubbish) rpm_shown = Some s4
       /\ alerts_of (trace s4)
          = (alerts_of (trace rpm_shown)
             ++ [alert ["Serial Link Error: please check connection";
                        "between computer and OBD interface."]])%list
       /\ current_sensor s4 = current_sensor rpm_shown
       /\ retry_attempts s4 = NUM_OF_RETRIES
       /\ polled s4 2 (mkDIALOG 64 2 0 (Some 2%nat)) 2
       /\ receiving_response s4 = false.
Proof.
  assert (Hp : polled rpm_shown 2 (mkDIALOG 64 2 0 (Some 2%nat)) 2).
  { unfold polled. repeat split; reflexivity. }
  split; [exact Hp|]. split; [reflexivity|].
  apply (retry_policy TAB demo_timeout demo_long_max rpm_shown 2 2
           (mkDIALOG 64 2 0 (Some 2%nat)) Hp eq_refl).
  - reflexivity.
  - unfold four_rubbish, answered, reports. simpl.
    repeat (apply List.Forall_cons; [repeat split; reflexivity|]).
    apply List.Forall_nil.
  - reflexivity.
Defined.

(** C1 as stated fails twice on the third row of the first page, starting
    with a full retry counter: three exchanges ending in rubbish raise no
    alert, and the fourth, which raises the alert and sets the counter back
    to 3, leaves the cursor on the row instead of moving it on. *)
Lemma retries_exhausted_cursor_stays :
  retry_attempts rpm_shown = 3
  /\ current_sensor rpm_shown = 2
  /\ alerts_of (trace after_three_rubbish) = []
  /\ alerts_of (trace after_four_rubbish)
     = [alert ["Serial Link Error: please check connection";
               "between computer and OBD interface."]]
  /\ retry_attempts after_four_rubbish = 3
  /\ current_sensor after_four_rubbish = 2
  /\ current_sensor after_four_rubbish <> next_sensor rpm_shown.
Proof.
  vm_compute. repeat split; discriminate.
Qed.

(** ** Timeouts *)



Section TimeOut.

Variable D : ascii.
Variable T LONG_MAX : Z.



End TimeOut.



(** Once Ignore has been chosen, the next run of four timeouts marks the
    device as not connected again and raises nothing. *)
Example ignore_silences_later_timeouts :
  ignore_device_not_connected after_four_timeouts = true
  /\ num_of_sensors_timed_out after_eight_timeouts = 0
  /\ device_connected after_eight_timeouts = false
  /\ alert3s_of (trace after_eight_timeouts) = [device_not_responding].
Proof.
  vm_compute. repeat split; reflexivity.
Qed.

(** ** Toggling a sensor *)

(** One line of the dialog receives [MSG_TOGGLE]. *)
Lemma toggle_line (c : Z) (j : nat) (s : state) :
  let s' := snd (sensor_proc_msg_toggle j c (toggle_proc_msg MSG_TOGGLE j c s)) in
  match sensor_rows s !! j with
  | Some d =>
      sensor_rows s' = <[j := row_after_toggle c d]> (sensor_rows s)
      /\ sensors s' =
           match dp3 d with
           | Some k => alter (sensor_after_toggle c d) k (sensors s)
           | None => sensors s
           end
  | None => sensor_rows s' = sensor_rows s /\ sensors s' = sensors s
  end.
Proof.
  destruct (toggle_proc_msg_keeps MSG_TOGGLE j c s) as (Tr & Ts & _).
  set (s0 := toggle_proc_msg MSG_TOGGLE j c s) in *. clearbody s0.
  unfold sensor_proc_msg_toggle. rewrite Tr.
  destruct (sensor_rows s !! j) as [d|] eqn:Hrow; simpl; [|auto].
  unfold row_after_toggle, sensor_after_toggle.
  destruct (dp3 d) as [k|] eqn:Hdp; simpl.
  2: { rewrite list_insert_id by exact Hrow. auto. }
  unfold sensor_proc_toggle, sensor_proc_end. fold (toggles c d).
  destruct (toggles c d); destruct (flag_set (flags d) D_DISABLED) eqn:Hdis;
    simpl; rewrite ?Hdis; simpl; rewrite ?Tr, ?Ts;
    try (case_match; simpl; rewrite ?Tr, ?Ts);
    rewrite ?(list_insert_id _ _ _ Hrow); (split; [reflexivity|]).
  all: first [ reflexivity
             | apply (list_alter_alter_eq (with_screen_buf _) (with_enabled _))
             | symmetry; apply list_alter_id; reflexivity ].
Qed.

Lemma row_after_toggle_layout (c : Z) (d : DIALOG) :
  d1 (row_after_toggle c d) = d1 d /\ dp3 (row_after_toggle c d) = dp3 d.
Proof.
  unfold row_after_toggle. repeat case_match; auto.
Qed.

Lemma toggle_line_layout (c : Z) (j : nat) (s : state) :
  well_laid_out s ->
  well_laid_out
    (snd (sensor_proc_msg_toggle j c (toggle_proc_msg MSG_TOGGLE j c s))).
Proof.
  intros [Hpos Hdist].
  pose proof (toggle_line c j s) as H. simpl in H.
  destruct (sensor_rows s !! j) as [d0|] eqn:Hrow.
  - destruct H as [Hrows _].
    assert (Hlook : forall j' d,
              <[j := row_after_toggle c d0]> (sensor_rows s) !! j' = Some d ->
              exists d', sensor_rows s !! j' = Some d'
                         /\ d1 d = d1 d' /\ dp3 d = dp3 d').
    { intros j' d Hd. destruct (decide (j' = j)) as [->|Hne].
      - rewrite list_lookup_insert_eq in Hd by (eapply lookup_lt_Some; eauto).
        injection Hd as <-. exists d0.
        destruct (row_after_toggle_layout c d0). auto.
      - rewrite list_lookup_insert_ne in Hd by auto. eauto. }
    unfold well_laid_out. rewrite Hrows. split.
    + intros j' d Hd. destruct (Hlook _ _ Hd) as (d' & Hd' & -> & _). eauto.
    + intros j1 j2 da db k Ha Hb Hka Hkb.
      destruct (Hlook _ _ Ha) as (da' & Ha' & _ & Ea).
      destruct (Hlook _ _ Hb) as (db' & Hb' & _ & Eb).
      apply (Hdist j1 j2 da' db' k); congruence.
  - destruct H as [Hrows _]. unfold well_laid_out. rewrite Hrows. auto.
Qed.

(** The lines of a list without repetition, taken together. *)
Lemma toggle_lines_spec (c : Z) (l : list nat) :
  NoDup l ->
  forall s, well_laid_out s ->
    (forall j d, sensor_rows s !! j = Some d ->
       sensor_rows (toggle_lines c l s) !! j
       = Some (if bool_decide (j ∈ l) then row_after_toggle c d else d))
    /\ (forall j d m, sensor_rows s !! j = Some d -> dp3 d = Some m ->
          sensors (toggle_lines c l s) !! m
          = (if bool_decide (j ∈ l) then sensor_after_toggle c d else id)
              <$> sensors s !! m)
    /\ (forall m, (forall j d, sensor_rows s !! j = Some d -> dp3 d <> Some m) ->
          sensors (toggle_lines c l s) !! m = sensors s !! m).
Proof.
  induction 1 as [|j0 l Hnot Hnodup IH]; intros s Hwf.
  - simpl. repeat split; intros; auto.
    destruct (sensors s !! m); reflexivity.
  - change (toggle_lines c (j0 :: l) s)
      with (toggle_lines c l
              (snd (sensor_proc_msg_toggle j0 c
                      (toggle_proc_msg MSG_TOGGLE j0 c s)))).
    pose proof (toggle_line_layout c j0 s Hwf) as Hwf1.
    pose proof (toggle_line c j0 s) as Hstep. simpl in Hstep.
    set (s1 := snd (sensor_proc_msg_toggle j0 c
                      (toggle_proc_msg MSG_TOGGLE j0 c s))) in *.
    clearbody s1.
    destruct (IH s1 Hwf1) as (IHa & IHb & IHc).
    destruct Hwf as [Hpos Hdist].
    destruct (sensor_rows s !! j0) as [d0|] eqn:Hrow0.
    + destruct Hstep as [Hrows Hsens].
      assert (Hlt : (j0 < length (sensor_rows s))%nat)
        by (eapply lookup_lt_Some; eauto).
      assert (Hother : forall m, dp3 d0 <> Some m ->
                sensors s1 !! m = sensors s !! m).
      { intros m Hm. rewrite Hsens. destruct (dp3 d0) as [k0|]; auto.
        apply list_lookup_alter_ne. congruence. }
      repeat split.
      * intros j d Hd. destruct (decide (j = j0)) as [->|Hne].
        -- rewrite Hrow0 in Hd. injection Hd as <-.
           rewrite (IHa j0 (row_after_toggle c d0))
             by (rewrite Hrows; apply list_lookup_insert_eq; exact Hlt).
           rewrite bool_decide_false by exact Hnot.
           rewrite bool_decide_true by apply list_elem_of_here.
           reflexivity.
        -- rewrite (IHa j d)
             by (rewrite Hrows, list_lookup_insert_ne by auto; exact Hd).
           rewrite (bool_decide_ext (j ∈ j0 :: l) (j ∈ l)); [reflexivity|].
           rewrite elem_of_cons. tauto.
      * intros j d m Hd Hm. destruct (decide (j = j0)) as [->|Hne].
        -- rewrite Hrow0 in Hd. injection Hd as <-.
           rewrite (IHb j0 (row_after_toggle c d0) m)
             by (first [ rewrite Hrows; apply list_lookup_insert_eq; exact Hlt
                       | destruct (row_after_toggle_layout c d0); congruence ]).
           rewrite bool_decide_false by exact Hnot.
           rewrite bool_decide_true by apply list_elem_of_here.
           rewrite Hsens, Hm, list_lookup_alter, decide_True by reflexivity.
           destruct (sensors s !! m); reflexivity.
        -- rewrite (IHb j d m)
             by (first [ rewrite Hrows, list_lookup_insert_ne by auto; exact Hd
                       | exact Hm ]).
           rewrite (bool_decide_ext (j ∈ j0 :: l) (j ∈ l))
             by (rewrite elem_of_cons; tauto).
           rewrite Hother; [reflexivity|].
           intros Hk. apply Hne. symmetry.
           apply (Hdist j0 j d0 d m); assumption.
      * intros m Hm. rewrite IHc.
        -- apply Hother. eauto.
        -- intros j d Hd. rewrite Hrows in Hd.
           destruct (decide (j = j0)) as [->|Hne].
           ++ rewrite list_lookup_insert_eq in Hd by exact Hlt.
              injection Hd as <-.
              destruct (row_after_toggle_layout c d0) as [_ ->]. eauto.
           ++ rewrite list_lookup_insert_ne in Hd by auto. eauto.
    + destruct Hstep as [Hrows Hsens]. rewrite Hrows, Hsens in *.
      repeat split.
      * intros j d Hd. rewrite (IHa j d Hd).
        rewrite (bool_decide_ext (j ∈ j0 :: l) (j ∈ l)); [reflexivity|].
        rewrite elem_of_cons. split; [|tauto]. intros [->|]; [congruence|auto].
      * intros j d m Hd Hm. rewrite (IHb j d m Hd Hm).
        rewrite (bool_decide_ext (j ∈ j0 :: l) (j ∈ l)); [reflexivity|].
        rewrite elem_of_cons. split; [|tauto]. intros [->|]; [congruence|auto].
      * intros m Hm. apply IHc. exact Hm.
Qed.

Lemma toggle_lines_layout (c : Z) (l : list nat) (s : state) :
  well_laid_out s ->
  well_laid_out (toggle_lines c l s)
  /\ length (sensor_rows (toggle_lines c l s)) = length (sensor_rows s).
Proof.
  intros Hwf. unfold toggle_lines.
  apply (fold_left_preserves
           (fun a => well_laid_out a
                     /\ length (sensor_rows a) = length (sensor_rows s))).
  - auto.
  - intros a j _ [Ha Hlen]. split.
    + apply toggle_line_layout. exact Ha.
    + pose proof (toggle_line c j a) as H. simpl in H.
      destruct (sensor_rows a !! j); destruct H as [-> _];
        rewrite ?length_insert; exact Hlen.
Qed.

(** What a broadcast of [MSG_TOGGLE] does to every row and to every
    sensor. *)
Lemma broadcast_toggle_spec (c : Z) (s : state) :
  well_laid_out s ->
  well_laid_out (broadcast_toggle c s)
  /\ (forall j d, sensor_rows s !! j = Some d ->
        sensor_rows (broadcast_toggle c s) !! j = Some (row_after_toggle c d))
  /\ (forall j d m r, sensor_rows s !! j = Some d -> dp3 d = Some m ->
        sensors s !! m = Some r ->
        sensors (broadcast_toggle c s) !! m = Some (sensor_after_toggle c d r))
  /\ (forall m, (forall j d, sensor_rows s !! j = Some d -> dp3 d <> Some m) ->
        sensors (broadcast_toggle c s) !! m = sensors s !! m).
Proof.
  intros Hwf.
  change (broadcast_toggle c s)
    with (toggle_lines c (seq 0 (length (sensor_rows s))) s).
  destruct (toggle_lines_layout c (seq 0 (length (sensor_rows s))) s Hwf)
    as [Hwf' _].
  destruct (toggle_lines_spec c (seq 0 (length (sensor_rows s)))
              (NoDup_seq _ _) s Hwf) as (Ha & Hb & Hc).
  assert (Hin : forall j d, sensor_rows s !! j = Some d ->
                  j ∈ seq 0 (length (sensor_rows s))).
  { intros j d Hd. apply elem_of_seq. apply lookup_lt_Some in Hd. lia. }
  split; [exact Hwf'|]. split; [|split].
  - intros j d Hd. rewrite (Ha j d Hd), bool_decide_true by eauto.
    reflexivity.
  - intros j d m r Hd Hm Hr.
    rewrite (Hb j d m Hd Hm), bool_decide_true, Hr by eauto. reflexivity.
  - exact Hc.
Qed.

(** C9, amended.  Pressing the toggle button of an enabled line twice
    disables the sensor of the line and enables it again: its [enabled]
    field is FALSE after the first broadcast and TRUE after the second, and
    the row is enabled as before.  Neither broadcast changes the text of
    another sensor, except that a sensor whose row is disabled has
    "not monitoring" written to it again; sensors of other pages are left
    as they are. *)
Theorem toggle_twice (s : state) (i k : nat) (d : DIALOG) (r : SENSOR) :
  well_laid_out s ->
  sensor_rows s !! i = Some d -> dp3 d = Some k -> sensors s !! k = Some r ->
  flag_set (flags d) D_DISABLED = false ->
  let s1 := broadcast_toggle (Z.of_nat i) s in
  let s2 := broadcast_toggle (Z.of_nat i) s1 in
  enabled (sensor_at s1 k) = FALSE
  /\ enabled (sensor_at s2 k) = TRUE
  /\ (exists d2, sensor_rows s2 !! i = Some d2
                 /\ flag_set (flags d2) D_DISABLED = false)
  /\ (forall j dj m rj,
        j <> i -> sensor_rows s !! j = Some dj -> dp3 dj = Some m ->
        sensors s !! m = Some rj ->
        let text := if flag_set (flags dj) D_DISABLED
                    then "not monitoring" else screen_buf rj in
        screen_buf (sensor_at s1 m) = text
        /\ screen_buf (sensor_at s2 m) = text)
  /\ (forall m, (forall j dj, sensor_rows s !! j = Some dj -> dp3 dj <> Some m) ->
        sensor_at s1 m = sensor_at s m /\ sensor_at s2 m = sensor_at s m).
Proof.
  intros Hwf Hrow Hdp Hr Hen s1 s2.
  destruct (broadcast_toggle_spec (Z.of_nat i) s Hwf) as (Hwf1 & Ha1 & Hb1 & Hc1).
  fold s1 in Hwf1, Ha1, Hb1, Hc1.
  destruct (broadcast_toggle_spec (Z.of_nat i) s1 Hwf1) as (_ & Ha2 & Hb2 & Hc2).
  fold s2 in Ha2, Hb2, Hc2.
  destruct Hwf as [Hpos Hdist].
  assert (Hon : toggles (Z.of_nat i) d = true).
  { unfold toggles. rewrite (Hpos i d Hrow), Z.eqb_refl. reflexivity. }
  assert (Hoff : forall j dj, j <> i -> sensor_rows s !! j = Some dj ->
                   toggles (Z.of_nat i) dj = false).
  { intros j dj Hj Hdj. unfold toggles. rewrite (Hpos j dj Hdj).
    replace (Z.of_nat j =? Z.of_nat i) with false by (symmetry; apply Z.eqb_neq; lia).
    replace (Z.of_nat i =? -2) with false by (symmetry; apply Z.eqb_neq; lia).
    replace (Z.of_nat i =? -1) with false by (symmetry; apply Z.eqb_neq; lia).
    reflexivity. }
  set (d' := with_flags (Z.lor (flags d) D_DISABLED) d).
  assert (Hrow1 : sensor_rows s1 !! i = Some d').
  { rewrite (Ha1 i d Hrow). unfold row_after_toggle. rewrite Hdp, Hon, Hen.
    reflexivity. }
  assert (Hon' : toggles (Z.of_nat i) d' = true /\ flag_set (flags d') D_DISABLED = true).
  { unfold toggles, d'. simpl. rewrite flag_set_disable, (Hpos i d Hrow), Z.eqb_refl.
    auto. }
  destruct Hon' as [Hon' Hdis'].
  assert (Hk1 : sensors s1 !! k
                = Some (with_screen_buf "not monitoring" (with_enabled FALSE r))).
  { rewrite (Hb1 i d k r Hrow Hdp Hr). unfold sensor_after_toggle.
    rewrite Hon, Hen. reflexivity. }
  assert (Hk2 : sensors s2 !! k
                = Some (with_screen_buf "N/A"
                          (with_enabled TRUE
                             (with_screen_buf "not monitoring"
                                (with_enabled FALSE r))))).
  { rewrite (Hb2 i d' k _ Hrow1 Hdp Hk1). unfold sensor_after_toggle.
    rewrite Hon', Hdis'. reflexivity. }
  unfold sensor_at. rewrite Hk1, Hk2. simpl.
  split; [reflexivity|]. split; [reflexivity|]. split; [|split].
  - eexists. split.
    + rewrite (Ha2 i d' Hrow1). reflexivity.
    + unfold row_after_toggle. change (dp3 d') with (dp3 d).
      rewrite Hdp, Hon', Hdis'. simpl. apply flag_set_enable.
  - intros j dj m rj Hj Hdj Hm Hrj.
    assert (Hdj1 : sensor_rows s1 !! j = Some dj).
    { rewrite (Ha1 j dj Hdj). unfold row_after_toggle.
      rewrite (Hoff j dj Hj Hdj). destruct (dp3 dj); reflexivity. }
    assert (Hm1 : sensors s1 !! m = Some (sensor_after_toggle (Z.of_nat i) dj rj))
      by (apply (Hb1 j dj m rj); assumption).
    rewrite Hm1, (Hb2 j dj m _ Hdj1 Hm Hm1).
    unfold sensor_after_toggle. rewrite (Hoff j dj Hj Hdj).
    destruct (flag_set (flags dj) D_DISABLED); simpl; auto.
  - intros m Hm.
    assert (Hm1 : forall j dj, sensor_rows s1 !! j = Some dj -> dp3 dj <> Some m).
    { intros j dj Hdj.
      destruct (sensor_rows s !! j) as [dj0|] eqn:Hdj0.
      - rewrite (Ha1 j dj0 Hdj0) in Hdj. injection Hdj as <-.
        destruct (row_after_toggle_layout (Z.of_nat i) dj0) as [_ ->]. eauto.
      - destruct (toggle_lines_layout (Z.of_nat i)
                    (seq 0 (length (sensor_rows s))) s (conj Hpos Hdist))
          as [_ Hlen].
        apply lookup_lt_Some in Hdj. apply lookup_ge_None in Hdj0.
        change (toggle_lines (Z.of_nat i) (seq 0 (length (sensor_rows s))) s)
          with s1 in Hlen. lia. }
    rewrite (Hc2 m Hm1), (Hc1 m Hm). auto.
Qed.

Lemma rpm_shown_layout : well_laid_out rpm_shown.
Proof.
  assert (H : sensor_rows rpm_shown
              = map (fun j => mkDIALOG 64 (Z.of_nat j) 0 (Some j)) (seq 0 9))
    by (vm_compute; reflexivity).
  unfold well_laid_out. rewrite H. simpl. split.
  - intros j d Hd.
    do 9 (destruct j as [|j]; [injection Hd as <-; reflexivity|]).
    discriminate Hd.
  - intros j j' d d' k Hj Hj' Hk Hk'.
    do 9 (destruct j as [|j];
          [injection Hj as <-; injection Hk as <-;
           do 9 (destruct j' as [|j'];
                 [injection Hj' as <-; first [reflexivity | discriminate Hk']|]);
           discriminate Hj'|]).
    discriminate Hj.
Qed.

Lemma toggle_twice_witness :
  enabled (sensor_at rpm_shown 1) = TRUE
  /\ enabled (sensor_at (broadcast_toggle 1 rpm_shown) 1) = FALSE
  /\ enabled (sensor_at (broadcast_toggle 1 (broadcast_toggle 1 rpm_shown)) 1)
     = TRUE
  /\ screen_buf (sensor_at (broadcast_toggle 1 (broadcast_toggle 1 rpm_shown)) 0)
     = screen_buf (sensor_at rpm_shown 0).
Proof.
  assert (H1 : sensor_rows rpm_shown !! 1%nat = Some (mkDIALOG 64 1 0 (Some 1%nat)))
    by (vm_compute; reflexivity).
  assert (H2 : sensors rpm_shown !! 1%nat
               = Some (mkSENSOR (Some fn_engine_rpm_formula) "Engine RPM:"
                         "1726 r/min" "010C" 1 2))
    by (vm_compute; reflexivity).
  assert (H3 : sensor_rows rpm_shown !! 0%nat = Some (mkDIALOG 64 0 0 (Some 0%nat)))
    by (vm_compute; reflexivity).
  assert (H4 : sensors rpm_shown !! 0%nat
               = Some (mkSENSOR (Some fn_throttle_position_formula)
                         "Absolute Throttle Position:" "N/A" "0111" 1 1))
    by (vm_compute; reflexivity).
  destruct (toggle_twice rpm_shown 1 1 _ _ rpm_shown_layout H1 eq_refl H2 eq_refl)
    as (E1 & E2 & _ & Hothers & _).
  destruct (Hothers 0%nat _ 0%nat _ (O_S 0) H3 eq_refl H4)
    as [_ E3].
  split; [vm_compute; reflexivity|]. split; [exact E1|]. split; [exact E2|].
  etransitivity; [exact E3|]. vm_compute. reflexivity.
Defined.

(** C9 as stated fails for a disabled sensor whose text is not
    "not monitoring": with the port closed, a timeout has written "N/A" to
    the switched-off first sensor, and pressing the toggle button of the
    second line replaces that text. *)
Lemma toggle_rewrites_disabled_neighbour :
  screen_buf (sensor_at stale_disabled 0) = "N/A"
  /\ enabled (sensor_at stale_disabled 0) = FALSE
  /\ screen_buf (sensor_at (toggle_proc_close 1 stale_disabled) 0)
     = "not monitoring"
  /\ screen_buf (sensor_at (toggle_proc_close 1 stale_disabled) 0)
     <> screen_buf (sensor_at stale_disabled 0).
Proof.
  vm_compute. repeat split; discriminate.
Qed.
(** ** The integer formulae *)

Arguments coolant_temp_formula : simpl never.
Arguments intake_air_temp_formula : simpl never.
Arguments amb_air_temp_formula : simpl never.

(** The conversion to degrees Fahrenheit that [coolant_temp_formula] and
    [intake_air_temp_formula] carry out in [float] arithmetic. *)
Lemma fahrenheit_one_byte (data : Z) :
  0 <= data < 256 ->
  int_of_float
    (float_add
       (float_div
          (float_mul (float_sub (float_of_int data) (float_of_int 40))
             (float_of_int 9))
          (float_of_int 5))
       (float_of_int 32))
  = Z.quot ((data - 40) * 9 + 160) 5.
Proof.
  intros H. apply Z.eqb_eq.
  apply (holds_from_spec 256
           (fun d =>
              int_of_float
                (float_add
                   (float_div
                      (float_mul
                         (float_sub (float_of_int d) (float_of_int 40))
                         (float_of_int 9))
                      (float_of_int 5))
                   (float_of_int 32))
              =? Z.quot ((d - 40) * 9 + 160) 5) 0).
  - vm_compute. reflexivity.
  - lia.
Qed.

(** The conversion to miles that [vehicle_speed_formula],
    [mil_distance_formula] and [clr_distance_formula] carry out in
    [double] arithmetic. *)
Lemma miles_below_4096 (data : Z) :
  0 <= data < 4096 ->
  int_of_float (double_div (double_of_float (float_of_int data)) double_1_609)
  = data * 1000 / 1609.
Proof.
  intros H. apply Z.eqb_eq.
  apply (holds_from_spec (Z.to_nat 4096)
           (fun d =>
              int_of_float
                (double_div (double_of_float (float_of_int d)) double_1_609)
              =? d * 1000 / 1609) 0).
  - vm_compute. reflexivity.
  - rewrite Z2Nat.id; lia.
Qed.

Lemma land_two_bytes (a b : Z) :
  0 <= a < 256 -> 0 <= b < 256 ->
  Z.land (256 * a + b) 0xFF00 = 256 * a /\ Z.land (256 * a + b) 0x00FF = b.
Proof.
  intros Ha Hb.
  pose (P := fun a =>
               holds_from 256 0
                 (fun b => (Z.land (256 * a + b) 0xFF00 =? 256 * a)
                           && (Z.land (256 * a + b) 0x00FF =? b))).
  assert (H : P a = true).
  { apply (holds_from_spec 256 P 0); [vm_compute; reflexivity | lia]. }
  unfold P in H.
  apply (holds_from_spec 256 _ 0) with (z := b) in H; [|lia].
  apply andb_true_iff in H as [H1 H2].
  split; apply Z.eqb_eq; assumption.
Qed.

(** X1.  The temperature of the coolant and of the intake air in degrees
    Fahrenheit.  For every value of the one data byte, the number that the
    [float] computation [((float)data - 40)*9/5 + 32] leaves after its
    conversion to [int] is the exact value of (data - 40) * 9 / 5 + 32 with
    its fraction cut off (towards zero); the two formulae print the same
    text, and in metric units they print data - 40. *)
Theorem fahrenheit_is_exact (data : Z) :
  0 <= data < 256 ->
  coolant_temp_formula IMPERIAL data
    = sprintf_i (Z.quot ((data - 40) * 9 + 160) 5) ++ String DEGREE " F"
  /\ coolant_temp_formula METRIC data
     = sprintf_i (data - 40) ++ String DEGREE " C"
  /\ forall system,
       intake_air_temp_formula system data = coolant_temp_formula system data.
Proof.
  intros H. split; [|split].
  - unfold coolant_temp_formula.
    rewrite (fahrenheit_one_byte data H). reflexivity.
  - unfold coolant_temp_formula.
    rewrite wrap_int_small by (unfold INT_MIN, INT_MAX; lia). reflexivity.
  - intros []; reflexivity.
Qed.

Lemma fahrenheit_is_exact_witness :
  coolant_temp_formula IMPERIAL 39 = "30" ++ String DEGREE " F"
  /\ coolant_temp_formula METRIC 39 = "-1" ++ String DEGREE " C"
  /\ forall system,
       intake_air_temp_formula system 39 = coolant_temp_formula system 39.
Proof.
  apply (fahrenheit_is_exact 39). lia.
Defined.

(** X2.  The ambient air temperature is computed in [int] arithmetic,
    [c*9/5 + 32] with [c = data - 40], and not in [float] arithmetic as the
    intake air temperature is.  From 0 degrees Celsius on (data >= 40) the
    two formulae print the same text in both systems of units, and in
    metric units they do so for every byte. *)
Theorem ambient_matches_intake_from_freezing (data : Z)
    (system : measurement_system) :
  0 <= data < 256 ->
  system = METRIC \/ 40 <= data ->
  amb_air_temp_formula system data = intake_air_temp_formula system data.
Proof.
  intros H Hs. unfold amb_air_temp_formula, intake_air_temp_formula.
  rewrite (fahrenheit_one_byte data H).
  rewrite (wrap_int_small (data - 40)) by (unfold INT_MIN, INT_MAX; lia).
  rewrite (wrap_int_small ((data - 40) * 9))
    by (unfold INT_MIN, INT_MAX; lia).
  rewrite wrap_int_small
    by (unfold INT_MIN, INT_MAX;
        pose proof (Z.quot_rem' ((data - 40) * 9) 5);
        pose proof (Z.rem_bound_abs ((data - 40) * 9) 5 ltac:(lia)); lia).
  destruct system; [reflexivity|].
  destruct Hs as [Hs|Hs]; [discriminate|].
  f_equal. f_equal.
  rewrite !Z.quot_div_nonneg by lia.
  replace ((data - 40) * 9 + 160) with ((data - 40) * 9 + 32 * 5) by lia.
  rewrite Z.div_add by lia. reflexivity.
Qed.

Lemma ambient_matches_intake_from_freezing_witness :
  amb_air_temp_formula IMPERIAL 41 = intake_air_temp_formula IMPERIAL 41.
Proof.
  apply (ambient_matches_intake_from_freezing 41 IMPERIAL); [lia|].
  right. lia.
Defined.

(** X3.  Below 0 degrees Celsius the two differ.  For a byte from 23 to 39
    that does not stand for a multiple of 5 degrees Celsius, the Fahrenheit
    value lies between two whole numbers above zero: the [float]
    computation of the intake air temperature cuts the fraction of the sum
    and the [int] computation of the ambient air temperature cuts the
    fraction of the negative quotient, so that the ambient air temperature
    reads one degree more for the same byte. *)
Theorem ambient_reads_one_degree_more (data : Z) :
  23 <= data <= 39 -> (data - 40) mod 5 <> 0 ->
  exists n,
    intake_air_temp_formula IMPERIAL data = sprintf_i n ++ String DEGREE " F"
    /\ amb_air_temp_formula IMPERIAL data
       = sprintf_i (n + 1) ++ String DEGREE " F".
Proof.
  intros H Hm. exists (Z.quot ((data - 40) * 9 + 160) 5).
  unfold amb_air_temp_formula, intake_air_temp_formula.
  rewrite (fahrenheit_one_byte data) by lia.
  split; [reflexivity|].
  rewrite (wrap_int_small (data - 40)) by (unfold INT_MIN, INT_MAX; lia).
  rewrite (wrap_int_small ((data - 40) * 9))
    by (unfold INT_MIN, INT_MAX; lia).
  assert (E : Z.quot ((data - 40) * 9) 5 + 32
              = Z.quot ((data - 40) * 9 + 160) 5 + 1).
  { rewrite (Z.quot_div_nonneg ((data - 40) * 9 + 160)) by lia.
    rewrite <- (Z.opp_involutive ((data - 40) * 9)).
    rewrite Z.quot_opp_l by lia.
    rewrite Z.quot_div_nonneg by lia.
    pose proof (Z.div_mod (- ((data - 40) * 9)) 5).
    pose proof (Z.mod_pos_bound (- ((data - 40) * 9)) 5).
    pose proof (Z.div_mod (- - ((data - 40) * 9) + 160) 5).
    pose proof (Z.mod_pos_bound (- - ((data - 40) * 9) + 160) 5).
    pose proof (Z.div_mod (data - 40) 5).
    pose proof (Z.mod_pos_bound (data - 40) 5).
    lia. }
  rewrite E. rewrite wrap_int_small; [reflexivity|].
  unfold INT_MIN, INT_MAX.
  rewrite Z.quot_div_nonneg by lia.
  pose proof (Z.div_mod ((data - 40) * 9 + 160) 5).
  pose proof (Z.mod_pos_bound ((data - 40) * 9 + 160) 5). lia.
Qed.

Lemma ambient_reads_one_degree_more_witness :
  exists n,
    intake_air_temp_formula IMPERIAL 39 = sprintf_i n ++ String DEGREE " F"
    /\ amb_air_temp_formula IMPERIAL 39
       = sprintf_i (n + 1) ++ String DEGREE " F".
Proof.
  apply (ambient_reads_one_degree_more 39); [lia|].
  vm_compute. discriminate.
Defined.
Arguments vehicle_speed_formula : simpl never.
Arguments mil_distance_formula : simpl never.
Arguments clr_distance_formula : simpl never.
Arguments engine_run_time_formula : simpl never.
Arguments mil_time_formula : simpl never.
Arguments clr_time_formula : simpl never.

(** X4.  Kilometres to miles.  For every raw value below 4096, which
    includes every value of the one data byte of the vehicle speed, the
    number that [(int)((float)data/1.609)] yields, a division in [double]
    arithmetic by the [double] nearest to 1.609, is the whole part of
    data * 1000 / 1609: the speed in mph and the two distances in miles are
    not off by one through rounding. *)
Theorem miles_are_exact (data : Z) :
  0 <= data < 4096 ->
  vehicle_speed_formula IMPERIAL data
    = sprintf_i (data * 1000 / 1609) ++ " mph"
  /\ mil_distance_formula IMPERIAL data
     = sprintf_i (data * 1000 / 1609) ++ " miles"
  /\ clr_distance_formula IMPERIAL data
     = sprintf_i (data * 1000 / 1609) ++ " miles".
Proof.
  intros H.
  unfold vehicle_speed_formula, mil_distance_formula, clr_distance_formula.
  rewrite (miles_below_4096 data H). auto.
Qed.

Lemma miles_are_exact_witness :
  vehicle_speed_formula IMPERIAL 1609 = "1000 mph"
  /\ mil_distance_formula IMPERIAL 1609 = "1000 miles"
  /\ clr_distance_formula IMPERIAL 1609 = "1000 miles".
Proof.
  apply (miles_are_exact 1609). lia.
Defined.

(** X5.  The time since the engine was started is printed as hours,
    minutes and seconds without leading zeros; for a count of seconds that
    is not negative the three numbers add up to it again, and minutes and
    seconds stay below 60. *)
Theorem engine_run_time_parts (system : measurement_system) (data : Z) :
  0 <= data ->
  exists hrs min sec,
    engine_run_time_formula system data
      = sprintf_i hrs ++ ":" ++ sprintf_i min ++ ":" ++ sprintf_i sec
    /\ 0 <= hrs /\ 0 <= min < 60 /\ 0 <= sec < 60
    /\ hrs * 3600 + min * 60 + sec = data.
Proof.
  intros H.
  exists (Z.quot data 3600), (Z.quot (data - Z.quot data 3600 * 3600) 60),
    (data - Z.quot data 3600 * 3600
     - Z.quot (data - Z.quot data 3600 * 3600) 60 * 60).
  split; [reflexivity|].
  rewrite (Z.quot_div_nonneg data 3600) by lia.
  pose proof (Z.div_mod data 3600 ltac:(lia)).
  pose proof (Z.mod_pos_bound data 3600 ltac:(lia)).
  rewrite Z.quot_div_nonneg by lia.
  pose proof (Z.div_mod (data - data / 3600 * 3600) 60 ltac:(lia)).
  pose proof (Z.mod_pos_bound (data - data / 3600 * 3600) 60 ltac:(lia)).
  assert (0 <= data / 3600) by (apply Z.div_pos; lia).
  assert (0 <= (data - data / 3600 * 3600) / 60 < 60).
  { split; [apply Z.div_pos; lia|]. apply Z.div_lt_upper_bound; lia. }
  lia.
Qed.

Lemma engine_run_time_parts_witness :
  exists hrs min sec,
    engine_run_time_formula METRIC 3725
      = sprintf_i hrs ++ ":" ++ sprintf_i min ++ ":" ++ sprintf_i sec
    /\ 0 <= hrs /\ 0 <= min < 60 /\ 0 <= sec < 60
    /\ hrs * 3600 + min * 60 + sec = 3725.
Proof.
  apply (engine_run_time_parts METRIC 3725). lia.
Defined.

(** X6.  The two times counted in minutes, [mil_time_formula] and
    [clr_time_formula], print the same text: hours and minutes that add up
    to the count again, with fewer than 60 minutes. *)
Theorem minutes_as_hours_and_minutes (system : measurement_system)
    (data : Z) :
  0 <= data ->
  exists hrs min,
    mil_time_formula system data
      = sprintf_i hrs ++ " hrs " ++ sprintf_i min ++ " min"
    /\ clr_time_formula system data = mil_time_formula system data
    /\ 0 <= hrs /\ 0 <= min < 60 /\ hrs * 60 + min = data.
Proof.
  intros H. exists (Z.quot data 60), (data - Z.quot data 60 * 60).
  split; [reflexivity|]. split; [reflexivity|].
  rewrite Z.quot_div_nonneg by lia.
  pose proof (Z.div_mod data 60 ltac:(lia)).
  pose proof (Z.mod_pos_bound data 60 ltac:(lia)).
  assert (0 <= data / 60) by (apply Z.div_pos; lia).
  lia.
Qed.

Lemma minutes_as_hours_and_minutes_witness :
  exists hrs min,
    mil_time_formula METRIC 135
      = sprintf_i hrs ++ " hrs " ++ sprintf_i min ++ " min"
    /\ clr_time_formula METRIC 135 = mil_time_formula METRIC 135
    /\ 0 <= hrs /\ 0 <= min < 60 /\ hrs * 60 + min = 135.
Proof.
  apply (minutes_as_hours_and_minutes METRIC 135). lia.
Defined.

(** X7.  The two bytes A and B of the fuel system status.  The first
    formula reads byte A only and the second byte B only, whatever the
    other byte holds; when A is none of the five values the first formula
    knows, it prints the masked word 256 * A, not A. *)
Theorem fuel_system_status_bytes (system : measurement_system) (a b : Z) :
  0 <= a < 256 -> 0 <= b < 256 ->
  fuel_system1_status_formula system (256 * a + b)
    = fuel_system1_status_formula system (256 * a)
  /\ fuel_system2_status_formula system (256 * a + b)
     = fuel_system2_status_formula system b
  /\ (a <> 1 -> a <> 2 -> a <> 4 -> a <> 8 -> a <> 16 ->
      fuel_system1_status_formula system (256 * a + b)
      = "unknown: " ++ sprintf_i (256 * a)).
Proof.
  intros Ha Hb.
  destruct (land_two_bytes a b Ha Hb) as [E1 E2].
  destruct (land_two_bytes a 0 Ha ltac:(lia)) as [E3 _].
  destruct (land_two_bytes 0 b ltac:(lia) Hb) as [_ E4].
  rewrite Z.add_0_r in E3. change (256 * 0 + b) with b in E4.
  unfold fuel_system1_status_formula, fuel_system2_status_formula.
  rewrite E1, E2, E3, E4.
  split; [reflexivity|]. split; [reflexivity|].
  intros N1 N2 N4 N8 N16.
  rewrite !(proj2 (Z.eqb_neq (256 * a) _)) by lia. reflexivity.
Qed.

Lemma fuel_system_status_bytes_witness :
  fuel_system1_status_formula METRIC (256 * 3 + 2)
    = fuel_system1_status_formula METRIC (256 * 3)
  /\ fuel_system2_status_formula METRIC (256 * 3 + 2)
     = fuel_system2_status_formula METRIC 2
  /\ (3 <> 1 -> 3 <> 2 -> 3 <> 4 -> 3 <> 8 -> 3 <> 16 ->
      fuel_system1_status_formula METRIC (256 * 3 + 2)
      = "unknown: " ++ sprintf_i (256 * 3)).
Proof.
  apply (fuel_system_status_bytes METRIC 3 2); lia.
Defined.

(** X8.  The secondary air status is never decoded.  Its row of
    [sensors[]] asks for one data byte, and the formula masks the bits
    [0x0700], which one byte does not have: for every value of the byte the
    text is "Not supported". *)
Theorem secondary_air_status_of_one_byte (system : measurement_system)
    (data : Z) :
  0 <= data < 256 ->
  secondary_air_status_formula system data = "Not supported"
  /\ exists r, sensors_table !! 16%nat = Some r
               /\ formula r = Some fn_secondary_air_status_formula
               /\ bytes r = 1.
Proof.
  intros H. split.
  - apply String.eqb_eq.
    apply (holds_from_spec 256
             (fun d => String.eqb (secondary_air_status_formula system d)
                         "Not supported") 0); [|lia].
    destruct system; vm_compute; reflexivity.
  - eexists. split; [reflexivity|]. split; reflexivity.
Qed.

Lemma secondary_air_status_of_one_byte_witness :
  secondary_air_status_formula METRIC 1 = "Not supported"
  /\ exists r, sensors_table !! 16%nat = Some r
               /\ formula r = Some fn_secondary_air_status_formula
               /\ bytes r = 1.
Proof.
  apply (secondary_air_status_of_one_byte METRIC 1). lia.
Defined.

(** X9.  The commanded EGR is a whole percentage, computed in [int]
    arithmetic as [data*100/255]: for a byte the product does not leave the
    range of [int], the fraction is cut off and the number lies between 0
    and 100, which only the byte 255 reaches. *)
Theorem commanded_egr_percentage (system : measurement_system) (data : Z) :
  0 <= data < 256 ->
  commanded_egr_formula system data = sprintf_i (data * 100 / 255) ++ "%"
  /\ 0 <= data * 100 / 255 <= 100
  /\ (data * 100 / 255 = 100 <-> data = 255).
Proof.
  intros H. unfold commanded_egr_formula.
  rewrite wrap_int_small by (unfold INT_MIN, INT_MAX; lia).
  rewrite Z.quot_div_nonneg by lia.
  pose proof (Z.div_mod (data * 100) 255 ltac:(lia)).
  pose proof (Z.mod_pos_bound (data * 100) 255 ltac:(lia)).
  split; [reflexivity|]. split; lia.
Qed.

Lemma commanded_egr_percentage_witness :
  commanded_egr_formula METRIC 128 = sprintf_i (128 * 100 / 255) ++ "%"
  /\ 0 <= 128 * 100 / 255 <= 100
  /\ (128 * 100 / 255 = 100 <-> 128 = 255).
Proof.
  apply (commanded_egr_percentage METRIC 128). lia.
Defined.
(** ** Saving and loading the sensor states *)

Lemma sprintf_i_inj (a b : Z) : sprintf_i a = sprintf_i b -> a = b.
Proof.
  unfold sprintf_i. intros H.
  assert (N : forall z, Z.to_int z <> Decimal.Pos Decimal.Nil
                        /\ Z.to_int z <> Decimal.Neg Decimal.Nil).
  { intros z. split; intros E; pose proof (DecimalZ.of_to z) as Hz;
      rewrite E in Hz; simpl in Hz; subst z; discriminate E. }
  apply DecimalZ.to_int_inj.
  assert (Some (Z.to_int a) = Some (Z.to_int b)) as [= ->]; [|reflexivity].
  rewrite <- (NilZero.isi (Z.to_int a)) by apply N.
  rewrite <- (NilZero.isi (Z.to_int b)) by apply N.
  rewrite H. reflexivity.
Qed.

Lemma sensor_key_inj (i j : nat) : sensor_key i = sensor_key j -> i = j.
Proof.
  unfold sensor_key. intros H.
  apply Nat2Z.inj, sprintf_i_inj.
  revert H. generalize (sprintf_i (Z.of_nat i)) (sprintf_i (Z.of_nat j)).
  intros a b H. injection H as H. exact H.
Qed.

Lemma count_rows_bounds (l : list SENSOR) :
  0 <= count_rows l <= Z.of_nat (length l).
Proof.
  induction l as [|r l IH]; simpl; [lia|].
  destruct (formula r); lia.
Qed.

(** What [save_rows] leaves under the key of row [j]. *)
Lemma save_rows_lookup (l : list SENSOR) (i j : nat) (cfg : gmap string Z) :
  save_rows i l cfg !! sensor_key j
  = if bool_decide ((i <= j)%nat /\ Z.of_nat j < Z.of_nat i + count_rows l)
    then enabled <$> l !! (j - i)%nat
    else cfg !! sensor_key j.
Proof.
  revert i cfg. induction l as [|r l IH]; intros i cfg; simpl.
  - rewrite bool_decide_false by lia. reflexivity.
  - destruct (formula r) eqn:F.
    + rewrite IH. pose proof (count_rows_bounds l).
      destruct (decide (j = i)) as [->|Hne].
      * rewrite (bool_decide_false (_ /\ Z.of_nat i < Z.of_nat (S i) + _))
          by lia.
        rewrite bool_decide_true by lia.
        unfold set_config_int. rewrite lookup_insert_eq.
        rewrite Nat.sub_diag. reflexivity.
      * unfold set_config_int.
        rewrite lookup_insert_ne by (intros E; apply sensor_key_inj in E; lia).
        destruct (decide ((S i <= j)%nat
                          /\ Z.of_nat j < Z.of_nat (S i) + count_rows l)).
        -- rewrite !bool_decide_true by lia.
           replace (j - i)%nat with (S (j - S i)) by lia. reflexivity.
        -- rewrite !bool_decide_false by lia. reflexivity.
    + rewrite bool_decide_false by lia. reflexivity.
Qed.

(** What [load_rows] leaves in row [k]. *)
Lemma load_rows_lookup (config : nat -> Z) (l : list SENSOR) (i k : nat) :
  load_rows config i l !! k
  = if bool_decide (Z.of_nat k < count_rows l)
    then with_enabled (config (i + k)%nat) <$> l !! k
    else l !! k.
Proof.
  revert i k. induction l as [|r l IH]; intros i k; simpl.
  - destruct (bool_decide _); reflexivity.
  - pose proof (count_rows_bounds l).
    destruct (formula r) eqn:F.
    + destruct k as [|k]; simpl.
      * rewrite bool_decide_true by lia. rewrite Nat.add_0_r. reflexivity.
      * rewrite IH.
        rewrite (bool_decide_ext (Z.of_nat (S k) < 1 + count_rows l)
                   (Z.of_nat k < count_rows l)) by lia.
        replace (S i + k)%nat with (i + S k)%nat by lia. reflexivity.
    + rewrite bool_decide_false by lia. reflexivity.
Qed.

(** X10.  What [save_sensor_states] writes, [load_sensor_states] reads
    back.  When the states of a table are saved and then loaded into a
    table with as many rows before its terminator, as after a restart of
    the program, every such row has the [enabled] flag that was saved, and
    nothing else of the table changes: not the other fields of the row and
    not the terminator or what follows it.  Loaded into the table they were
    saved from, the states leave it as it was. *)
Theorem save_then_load (s s0 : state) (cfg : gmap string Z) :
  count_rows (sensors s0) = count_rows (sensors s) ->
  (forall k,
     sensors (load_sensor_states (save_sensor_states s cfg) s0) !! k
     = if bool_decide (Z.of_nat k < count_rows (sensors s))
       then with_enabled (enabled (sensor_at s k)) <$> sensors s0 !! k
       else sensors s0 !! k)
  /\ load_sensor_states (save_sensor_states s cfg) s = s.
Proof.
  intros Hc.
  assert (G : forall s1, count_rows (sensors s1) = count_rows (sensors s) ->
            forall k,
              sensors (load_sensor_states (save_sensor_states s cfg) s1) !! k
              = if bool_decide (Z.of_nat k < count_rows (sensors s))
                then with_enabled (enabled (sensor_at s k)) <$> sensors s1 !! k
                else sensors s1 !! k).
  { intros s1 H1 k. unfold load_sensor_states, save_sensor_states.
    change (sensors (set_sensors ?l _)) with l.
    rewrite load_rows_lookup, H1.
    destruct (bool_decide_reflect (Z.of_nat k < count_rows (sensors s)))
      as [Hk|Hk]; [|reflexivity].
    unfold get_config_int. rewrite save_rows_lookup.
    rewrite bool_decide_true by lia. rewrite Nat.sub_0_r.
    change (0 + k)%nat with k. unfold sensor_at.
    pose proof (count_rows_bounds (sensors s)).
    destruct (sensors s !! k) as [r|] eqn:Hr.
    - reflexivity.
    - apply lookup_ge_None in Hr. lia. }
  split; [apply G; exact Hc|].
  assert (E : sensors (load_sensor_states (save_sensor_states s cfg) s)
              = sensors s).
  { apply list_eq. intros k. rewrite G by reflexivity.
    unfold sensor_at.
    destruct (sensors s !! k) as [r|] eqn:Hr; simpl.
    - destruct (bool_decide _); [|reflexivity]. destruct r; reflexivity.
    - destruct (bool_decide _); reflexivity. }
  unfold load_sensor_states in *.
  change (sensors (set_sensors ?l _)) with l in E. rewrite E.
  destruct s; reflexivity.
Qed.

Lemma save_then_load_witness :
  (forall k,
     sensors (load_sensor_states (save_sensor_states all_disabled ∅)
                (program_start READY METRIC)) !! k
     = if bool_decide (Z.of_nat k < count_rows (sensors all_disabled))
       then with_enabled (enabled (sensor_at all_disabled k))
              <$> sensors (program_start READY METRIC) !! k
       else sensors (program_start READY METRIC) !! k)
  /\ load_sensor_states (save_sensor_states all_disabled ∅) all_disabled
     = all_disabled.
Proof.
  apply (save_then_load all_disabled (program_start READY METRIC) ∅).
  vm_compute. reflexivity.
Defined.

(** X11.  A sensor without an entry in the configuration file comes up
    enabled: [load_sensor_states] gives [TRUE] to the flag of every row
    before the terminator whose key "sensor<k>" is missing, whatever the
    flag was, and leaves the rest of the row alone. *)
Theorem load_without_entry (cfg : gmap string Z) (s : state) (k : nat)
    (r : SENSOR) :
  sensors s !! k = Some r ->
  Z.of_nat k < count_rows (sensors s) ->
  cfg !! sensor_key k = None ->
  sensors (load_sensor_states cfg s) !! k = Some (with_enabled TRUE r).
Proof.
  intros Hr Hk Hc. unfold load_sensor_states.
  change (sensors (set_sensors ?l _)) with l.
  rewrite load_rows_lookup, bool_decide_true by exact Hk.
  change (0 + k)%nat with k.
  unfold get_config_int. rewrite Hr, Hc. reflexivity.
Qed.

Lemma load_without_entry_witness :
  sensors (load_sensor_states ∅ all_disabled) !! 3%nat
  = Some (with_enabled TRUE
            (mkSENSOR (Some fn_engine_load_formula) "Calculated Load Value:"
               "not monitoring" "0104" 0 1)).
Proof.
  apply (load_without_entry ∅ all_disabled 3).
  - vm_compute. reflexivity.
  - vm_compute. reflexivity.
  - reflexivity.
Defined.
(** ** Turning the pages *)

(** Case analysis on the comparisons of integers in the goal. *)
Ltac cases_Z :=
  repeat (match goal with
          | |- context [?a <? ?b] => destruct (Z.ltb_spec a b)
          | |- context [?a <=? ?b] => destruct (Z.leb_spec a b)
          | |- context [?a =? ?b] => destruct (Z.eqb_spec a b)
          end; simpl in *).

Lemma last_page_spec (s : state) :
  0 < num_of_sensors s ->
  0 <= last_page s /\ last_page s = (num_of_sensors s + 8) / 9 - 1.
Proof.
  intros H. unfold last_page, SENSORS_PER_PAGE.
  pose proof (Z.quot_rem' (num_of_sensors s) 9) as Hq.
  pose proof (Z.rem_bound_pos (num_of_sensors s) 9 ltac:(lia) ltac:(lia)).
  assert (0 <= Z.quot (num_of_sensors s) 9)
    by (apply Z.quot_pos; lia).
  pose proof (Z.div_mod (num_of_sensors s + 8) 9 ltac:(lia)).
  pose proof (Z.mod_pos_bound (num_of_sensors s + 8) 9 ltac:(lia)).
  destruct (Z.eqb_spec (Z.rem (num_of_sensors s) 9) 0); simpl; lia.
Qed.

Lemma turn_page_cases (direction : Z) (s : state) :
  let p := if direction =? -1 then current_page s - 1
           else if direction =? 1 then current_page s + 1
           else current_page s in
  current_page (turn_page direction s)
  = (if p <? 0 then 0 else if last_page s <? p then last_page s else p)
  /\ num_of_sensors (turn_page direction s) = num_of_sensors s.
Proof.
  unfold turn_page.
  destruct (direction =? -1); [|destruct (direction =? 1)];
    change (last_page (set_current_page ?v s)) with (last_page s);
    simpl current_page; repeat (case_match; simpl); auto.
Qed.

(** X12.  The page shown stays a page of the table.  With at least one
    sensor in the table, whatever page number and whichever button
    [page_flipper_proc] starts from, the page it turns to lies between 0
    and the last page: "Previous" on the first page and "Next" on the last
    one stay where they are.  The last page is that of the (number of
    sensors + 8) / 9 pages. *)
Theorem turn_page_stays_in_range (direction : Z) (s : state) :
  0 < num_of_sensors s ->
  0 <= current_page (turn_page direction s) <= last_page s
  /\ last_page (turn_page direction s) = last_page s
  /\ last_page s = (num_of_sensors s + 8) / 9 - 1
  /\ (0 <= current_page s + direction <= last_page s ->
      direction = -1 \/ direction = 1 ->
      current_page (turn_page direction s) = current_page s + direction).
Proof.
  intros H. destruct (last_page_spec s H) as [Hl Hl'].
  split; [|split; [|split; [exact Hl'|]]].
  - destruct (turn_page_cases direction s) as [-> _]. cases_Z; lia.
  - destruct (turn_page_cases direction s) as [_ E].
    unfold last_page. rewrite E. reflexivity.
  - intros Hr Hd. destruct (turn_page_cases direction s) as [-> _].
    destruct Hd as [-> | ->]; cases_Z; lia.
Qed.

Lemma turn_page_stays_in_range_witness :
  0 <= current_page (turn_page 1 rpm_shown) <= last_page rpm_shown
  /\ last_page (turn_page 1 rpm_shown) = last_page rpm_shown
  /\ last_page rpm_shown = (num_of_sensors rpm_shown + 8) / 9 - 1
  /\ (0 <= current_page rpm_shown + 1 <= last_page rpm_shown ->
      1 = -1 \/ 1 = 1 ->
      current_page (turn_page 1 rpm_shown) = current_page rpm_shown + 1).
Proof.
  apply (turn_page_stays_in_range 1 rpm_shown).
  vm_compute. reflexivity.
Defined.

(** X13.  The page buttons are greyed out exactly when they would not
    move.  On a page of the table, after [MSG_UPDATE] the button
    "Previous" (or "Next") carries D_DISABLED if and only if pressing it
    would leave the page number as it is; a button that is not disabled
    moves by one page. *)
Theorem page_button_disabled_iff_stuck (d : DIALOG) (s : state) :
  d1 d = -1 \/ d1 d = 1 ->
  0 <= current_page s <= last_page s ->
  if flag_set (flags (page_flipper_proc_update d s)) D_DISABLED
  then current_page (turn_page (d1 d) s) = current_page s
  else current_page (turn_page (d1 d) s) = current_page s + d1 d.
Proof.
  intros Hd Hr. unfold page_flipper_proc_update.
  destruct Hd as [-> | ->]; simpl (_ =? _); cbv iota.
  - destruct (Z.leb_spec (current_page s) 0); simpl flags;
      rewrite flag_set_dirty, ?flag_set_disable, ?flag_set_enable;
      destruct (turn_page_cases (-1) s) as [-> _]; cases_Z; lia.
  - destruct (Z.leb_spec (last_page s) (current_page s)); simpl flags;
      rewrite flag_set_dirty, ?flag_set_disable, ?flag_set_enable;
      destruct (turn_page_cases 1 s) as [-> _]; cases_Z; lia.
Qed.

Lemma page_button_disabled_iff_stuck_witness :
  if flag_set
       (flags (page_flipper_proc_update (mkDIALOG D_EXIT (-1) 0 None)
                 rpm_shown)) D_DISABLED
  then current_page (turn_page (-1) rpm_shown) = current_page rpm_shown
  else current_page (turn_page (-1) rpm_shown) = current_page rpm_shown + -1.
Proof.
  apply (page_button_disabled_iff_stuck (mkDIALOG D_EXIT (-1) 0 None)
           rpm_shown).
  - left. reflexivity.
  - vm_compute. split; discriminate.
Defined.

(** X14.  The page indicator.  After a page button has been pressed, with
    at least one sensor in the table, [page_number_proc] writes
    "<page> of <pages>" where <pages> is the number of the last page plus
    one, as [page_flipper_proc] computes it, and <page> lies between 1 and
    <pages>. *)
Theorem page_number_within_pages (direction : Z) (d : DIALOG) (s : state) :
  0 < num_of_sensors s <= INT_MAX ->
  exists page pages,
    fst (page_number_proc_update d (turn_page direction s))
      = sprintf_i page ++ " of " ++ sprintf_i pages
    /\ page = current_page (turn_page direction s) + 1
    /\ pages = last_page s + 1
    /\ 1 <= page <= pages.
Proof.
  intros H.
  destruct (turn_page_cases direction s) as [Hc Hn].
  assert (Hp : 0 <= current_page (turn_page direction s) <= last_page s).
  { destruct (last_page_spec s ltac:(lia)). rewrite Hc. cases_Z; lia. }
  clear Hc.
  destruct (last_page_spec s ltac:(lia)) as [Hl Hl'].
  exists (current_page (turn_page direction s) + 1), (last_page s + 1).
  split; [|repeat split; lia].
  unfold page_number_proc_update. simpl fst. rewrite Hn.
  rewrite wrap_int_small.
  - f_equal. f_equal. f_equal. unfold last_page.
    destruct (Z.rem (num_of_sensors s) SENSORS_PER_PAGE =? 0); simpl; lia.
  - unfold INT_MIN, INT_MAX in *.
    pose proof (Z.div_mod (num_of_sensors s + 8) 9 ltac:(lia)).
    pose proof (Z.mod_pos_bound (num_of_sensors s + 8) 9 ltac:(lia)). lia.
Qed.

Lemma page_number_within_pages_witness :
  exists page pages,
    fst (page_number_proc_update (mkDIALOG 0 0 0 None)
           (turn_page 1 rpm_shown))
      = sprintf_i page ++ " of " ++ sprintf_i pages
    /\ page = current_page (turn_page 1 rpm_shown) + 1
    /\ pages = last_page rpm_shown + 1
    /\ 1 <= page <= pages.
Proof.
  apply (page_number_within_pages 1 (mkDIALOG 0 0 0 None) rpm_shown).
  vm_compute. split; [reflexivity | discriminate].
Defined.
(** ** Laying out a page *)

Lemma count_rows_formula (l : list SENSOR) (m : nat) :
  (Z.of_nat m < count_rows l ->
   formula (default end_of_table (l !! m)) <> None)
  /\ (Z.of_nat m = count_rows l ->
      formula (default end_of_table (l !! m)) = None).
Proof.
  revert m. induction l as [|r l IH]; intros m; simpl.
  - split; [lia|]. intros _. destruct m; reflexivity.
  - pose proof (count_rows_bounds l).
    destruct (formula r) eqn:F.
    + destruct m as [|m]; simpl.
      * split; [congruence | lia].
      * destruct (IH m) as [A B]. split; intros; [apply A | apply B]; lia.
    + destruct m; simpl; (split; [lia|]); [auto | lia].
Qed.

(** The rows and the sensors that [fill_sensors] leaves. *)
Lemma fill_sensors_spec (p : Z) (s : state) :
  0 <= p ->
  let K := Z.to_nat (p * SENSORS_PER_PAGE) in
  let n := Z.min (Z.of_nat (length (sensor_rows s)))
             (count_rows (drop K (sensors s))) in
  sensors_on_page (fill_sensors p s) = n
  /\ (forall i,
        sensor_rows (fill_sensors p s) !! i
        = (fun d =>
             if bool_decide (Z.of_nat i < n)
             then with_dp3 (Some (K + i)%nat) d
             else with_flags (Z.lor (flags d) D_DIRTY) (with_dp3 None d))
            <$> sensor_rows s !! i)
  /\ (forall k,
        sensors (fill_sensors p s) !! k
        = (if bool_decide ((K <= k)%nat /\ Z.of_nat k < Z.of_nat K + n)
           then with_screen_buf "N/A" else id)
            <$> sensors s !! k).
Proof.
  intros Hp K n. unfold fill_sensors.
  set (avail := count_rows (drop K (sensors s))) in *.
  match goal with
  | |- context [fold_left ?f _ _] => set (step := f)
  end.
  set (Inv := fun (j : nat) (acc : state * Z) =>
    snd acc = Z.min (Z.of_nat j) avail
    /\ (forall i,
          sensor_rows (fst acc) !! i
          = (fun d =>
               if bool_decide (i < j)%nat
               then if bool_decide (Z.of_nat i < avail)
                    then with_dp3 (Some (K + i)%nat) d
                    else with_flags (Z.lor (flags d) D_DIRTY)
                           (with_dp3 None d)
               else d)
              <$> sensor_rows s !! i)
    /\ (forall k,
          sensors (fst acc) !! k
          = (if bool_decide ((K <= k)%nat /\ Z.of_nat k < Z.of_nat K + snd acc)
             then with_screen_buf "N/A" else id)
              <$> sensors s !! k)).
  assert (Hstep : forall j acc,
            (j < length (sensor_rows s))%nat -> Inv j acc ->
            Inv (S j) (step acc j)).
  { intros j [a idx] Hj (Hidx & Hrows & Hsens). simpl in Hidx, Hrows, Hsens.
    destruct (lookup_lt_is_Some_2 (sensor_rows s) j Hj) as [d Hd].
    assert (Ha : sensor_rows a !! j = Some d).
    { rewrite Hrows, Hd. simpl. rewrite bool_decide_false by lia.
      reflexivity. }
    pose proof (count_rows_bounds (drop K (sensors s))) as Hav.
    fold avail in Hav.
    assert (Hk : Z.to_nat (idx + p * SENSORS_PER_PAGE)
                 = (K + Z.to_nat idx)%nat).
    { unfold K, SENSORS_PER_PAGE in *. lia. }
    assert (Hform : formula (sensor_at a (K + Z.to_nat idx))
                    = formula
                        (default end_of_table
                           (drop K (sensors s) !! Z.to_nat idx))).
    { unfold sensor_at. rewrite Hsens, lookup_drop.
      destruct (sensors s !! (K + Z.to_nat idx)%nat) as [r|]; simpl;
        [|reflexivity].
      destruct (bool_decide _); reflexivity. }
    unfold step. simpl. rewrite Ha, Hk, Hform.
    destruct (count_rows_formula (drop K (sensors s)) (Z.to_nat idx))
      as [HSome HNone]. fold avail in HSome, HNone.
    destruct (decide (Z.of_nat j < avail)) as [Hlt|Hge].
    - (* a sensor is left for row j *)
      assert (idx = Z.of_nat j) by lia. clear Hidx. subst idx.
      rewrite Nat2Z.id in *.
      destruct (formula (default end_of_table (drop K (sensors s) !! j)))
        as [f|] eqn:F; [|exfalso; apply HSome; [lia | reflexivity]].
      unfold Inv.
      cbn [fst snd put_sensor_row strcpy_screen_buf set_sensor_rows
             set_sensors sensor_rows sensors].
      split; [lia|]. split.
      + intros i. destruct (decide (i = j)) as [->|Hne].
        * rewrite list_lookup_insert_eq
            by (apply lookup_lt_is_Some; eauto).
          rewrite Hd. simpl. rewrite !bool_decide_true by lia. reflexivity.
        * rewrite list_lookup_insert_ne by auto. rewrite Hrows.
          rewrite (bool_decide_ext (i < S j)%nat (i < j)%nat) by lia.
          reflexivity.
      + intros k. rewrite list_lookup_alter.
        destruct (decide (k = (K + j)%nat)) as [->|Hne].
        * rewrite decide_True by reflexivity. rewrite Hsens.
          rewrite bool_decide_false by lia.
          rewrite bool_decide_true by lia.
          destruct (sensors s !! (K + j)%nat); reflexivity.
        * rewrite decide_False by auto. rewrite Hsens.
          rewrite (bool_decide_ext
                     ((K <= k)%nat /\ Z.of_nat k < Z.of_nat K + (Z.of_nat j + 1))
                     ((K <= k)%nat /\ Z.of_nat k < Z.of_nat K + Z.of_nat j))
            by lia.
          reflexivity.
    - (* the table has ended *)
      assert (idx = avail) by lia. clear Hidx. subst idx.
      rewrite HNone by lia.
      unfold Inv.
      cbn [fst snd put_sensor_row strcpy_screen_buf set_sensor_rows
             set_sensors sensor_rows sensors].
      split; [lia|]. split.
      + intros i. destruct (decide (i = j)) as [->|Hne].
        * rewrite list_lookup_insert_eq
            by (apply lookup_lt_is_Some; eauto).
          rewrite Hd. simpl. rewrite bool_decide_true by lia.
          rewrite bool_decide_false by lia. reflexivity.
        * rewrite list_lookup_insert_ne by auto. rewrite Hrows.
          rewrite (bool_decide_ext (i < S j)%nat (i < j)%nat) by lia.
          reflexivity.
      + exact Hsens. }
  assert (Hfold : forall m j acc,
            (j + m <= length (sensor_rows s))%nat -> Inv j acc ->
            Inv (j + m)%nat (fold_left step (seq j m) acc)).
  { induction m as [|m IH]; intros j acc Hm Hinv; simpl.
    - rewrite Nat.add_0_r. exact Hinv.
    - replace (j + S m)%nat with (S j + m)%nat by lia.
      apply IH; [lia|]. apply Hstep; [lia | exact Hinv]. }
  specialize (Hfold (length (sensor_rows s)) 0%nat (s, 0) ltac:(lia)).
  simpl plus in Hfold.
  destruct Hfold as (Hidx & Hrows & Hsens).
  { pose proof (count_rows_bounds (drop K (sensors s))) as Hav.
    fold avail in Hav. unfold Inv. simpl. split; [lia|]. split.
    - intros i. destruct (sensor_rows s !! i); reflexivity.
    - intros k. rewrite bool_decide_false by lia.
      destruct (sensors s !! k); reflexivity. }
  destruct (fold_left step (seq 0 (length (sensor_rows s))) (s, 0))
    as [s' idx].
  simpl in Hidx, Hrows, Hsens. simpl. subst idx. fold n in Hsens.
  split; [reflexivity|]. split; [|exact Hsens].
  intros i. rewrite Hrows.
  destruct (sensor_rows s !! i) as [d|] eqn:Hd; [|reflexivity]. simpl.
  apply lookup_lt_Some in Hd.
  rewrite bool_decide_true by exact Hd.
  rewrite (bool_decide_ext (Z.of_nat i < avail) (Z.of_nat i < n))
    by (unfold n; lia).
  reflexivity.
Qed.

(** X15.  How [fill_sensors] lays out a page.  Let K be the index of the
    first sensor of page p and n the smaller of the number of sensor rows
    of the dialog and the number of sensors from K up to the terminator of
    the table.  Then [sensors_on_page] is n; the first n rows show the
    sensors K, K+1, ... in this order and the other rows show none; each
    sensor of the page reads "N/A"; and when every row carries its position
    in [d1], the dialog is laid out as [well_laid_out] says: no sensor is
    shown by two rows. *)
Theorem fill_sensors_layout (p : Z) (s : state) :
  0 <= p ->
  (forall j d, sensor_rows s !! j = Some d -> d1 d = Z.of_nat j) ->
  let K := Z.to_nat (p * SENSORS_PER_PAGE) in
  let n := Z.min (Z.of_nat (length (sensor_rows s)))
             (count_rows (drop K (sensors s))) in
  sensors_on_page (fill_sensors p s) = n
  /\ (forall i d, sensor_rows s !! i = Some d ->
        exists d', sensor_rows (fill_sensors p s) !! i = Some d'
                   /\ d1 d' = d1 d
                   /\ dp3 d' = if bool_decide (Z.of_nat i < n)
                               then Some (K + i)%nat else None)
  /\ (forall i, Z.of_nat i < n ->
        screen_buf (sensor_at (fill_sensors p s) (K + i)) = "N/A"
        /\ formula (sensor_at (fill_sensors p s) (K + i)) <> None)
  /\ well_laid_out (fill_sensors p s).
Proof.
  intros Hp Hpos K n.
  destruct (fill_sensors_spec p s Hp) as (Hn & Hrows & Hsens).
  fold K in Hn, Hrows, Hsens. fold n in Hn, Hrows, Hsens.
  assert (Hrow : forall i d', sensor_rows (fill_sensors p s) !! i = Some d' ->
            exists d, sensor_rows s !! i = Some d /\ d1 d' = d1 d
                      /\ dp3 d' = if bool_decide (Z.of_nat i < n)
                                  then Some (K + i)%nat else None).
  { intros i d' Hd'. rewrite Hrows in Hd'.
    destruct (sensor_rows s !! i) as [d|]; [|discriminate].
    injection Hd' as <-. exists d. split; [reflexivity|].
    destruct (bool_decide _); auto. }
  split; [exact Hn|]. split; [|split].
  - intros i d Hd. rewrite Hrows, Hd. simpl. eexists. split; [reflexivity|].
    destruct (bool_decide _); auto.
  - intros i Hi. unfold sensor_at. rewrite Hsens.
    rewrite bool_decide_true by lia.
    pose proof (count_rows_bounds (drop K (sensors s))) as Hb.
    destruct (count_rows_formula (drop K (sensors s)) i) as [HSome _].
    rewrite lookup_drop in HSome.
    destruct (sensors s !! (K + i)%nat) as [r|] eqn:Hr; simpl.
    + split; [reflexivity|]. apply HSome. unfold n in Hi. lia.
    + exfalso. apply HSome; [unfold n in Hi; lia | reflexivity].
  - split.
    + intros j d' Hd'. destruct (Hrow j d' Hd') as (d & Hd & -> & _). eauto.
    + intros j j' d d' k Hd Hd' Hk Hk'.
      destruct (Hrow j d Hd) as (_ & _ & _ & E).
      destruct (Hrow j' d' Hd') as (_ & _ & _ & E').
      rewrite Hk in E. rewrite Hk' in E'.
      destruct (bool_decide _); [|discriminate].
      destruct (bool_decide _); [|discriminate]. simplify_eq. lia.
Qed.

Lemma fill_sensors_layout_witness :
  let K := Z.to_nat (7 * SENSORS_PER_PAGE) in
  let n := Z.min (Z.of_nat (length (sensor_rows rpm_shown)))
             (count_rows (drop K (sensors rpm_shown))) in
  sensors_on_page (fill_sensors 7 rpm_shown) = n
  /\ (forall i d, sensor_rows rpm_shown !! i = Some d ->
        exists d', sensor_rows (fill_sensors 7 rpm_shown) !! i = Some d'
                   /\ d1 d' = d1 d
                   /\ dp3 d' = if bool_decide (Z.of_nat i < n)
                               then Some (K + i)%nat else None)
  /\ (forall i, Z.of_nat i < n ->
        screen_buf (sensor_at (fill_sensors 7 rpm_shown) (K + i)) = "N/A"
        /\ formula (sensor_at (fill_sensors 7 rpm_shown) (K + i)) <> None)
  /\ well_laid_out (fill_sensors 7 rpm_shown).
Proof.
  apply (fill_sensors_layout 7 rpm_shown).
  - lia.
  - exact (proj1 rpm_shown_layout).
Defined.
(** ** All sensors on or off *)

Lemma toggles_from_button (c : Z) (j : nat) (d : DIALOG) :
  d1 d = Z.of_nat j -> c = -1 \/ c = -2 ->
  toggles c d
  = if c =? -2 then negb (flag_set (flags d) D_DISABLED)
    else flag_set (flags d) D_DISABLED.
Proof.
  intros Hd Hc. unfold toggles. rewrite Hd.
  destruct Hc as [-> | ->]; simpl (_ =? _).
  - rewrite (proj2 (Z.eqb_neq (Z.of_nat j) (-1))) by lia.
    destruct (flag_set (flags d) D_DISABLED); reflexivity.
  - rewrite (proj2 (Z.eqb_neq (Z.of_nat j) (-2))) by lia.
    destruct (flag_set (flags d) D_DISABLED); reflexivity.
Qed.

(** X16.  The button "All OFF" / "All ON".  Pressed while it shows
    "All OFF", it switches off every row of the page that was on: after the
    broadcast every row that shows a sensor is disabled and its sensor
    reads "not monitoring".  Pressed while it shows "All ON", it switches
    on every row that was off: every row is enabled, the sensors that were
    off have their flag set and read "N/A", and the sensors that were on
    are left as they were.  The button itself then shows the other
    caption. *)
Theorem toggle_all_switches_every_row (b : DIALOG) (s : state) :
  well_laid_out s ->
  let b' := fst (toggle_all_proc_close b s) in
  let s' := snd (toggle_all_proc_close b s) in
  d2 b' = (if d2 b =? 0 then 1 else 0)
  /\ forall j d k r,
       sensor_rows s !! j = Some d -> dp3 d = Some k ->
       sensors s !! k = Some r ->
       exists d',
         sensor_rows s' !! j = Some d'
         /\ flag_set (flags d') D_DISABLED = negb (d2 b =? 0)
         /\ sensor_at s' k
            = if d2 b =? 0
              then if flag_set (flags d) D_DISABLED
                   then with_screen_buf "N/A" (with_enabled TRUE r)
                   else r
              else if flag_set (flags d) D_DISABLED
                   then with_screen_buf "not monitoring" r
                   else with_screen_buf "not monitoring"
                          (with_enabled FALSE r).
Proof.
  intros Hwf b' s'. unfold toggle_all_proc_close in b', s'.
  simpl in b', s'. subst b' s'.
  set (c := if d2 b =? 0 then -1 else -2).
  assert (Hc : c = -1 \/ c = -2) by (unfold c; destruct (d2 b =? 0); auto).
  destruct (broadcast_toggle_spec c s Hwf) as (_ & Hrows & Hsens & _).
  split.
  - unfold toggle_all_proc_toggle, c.
    destruct (d2 b =? 0); reflexivity.
  - intros j d k r Hd Hk Hr.
    exists (row_after_toggle c d). split; [apply Hrows; exact Hd|].
    unfold sensor_at. rewrite (Hsens j d k r Hd Hk Hr). simpl.
    unfold row_after_toggle, sensor_after_toggle. rewrite Hk.
    rewrite (toggles_from_button c j d (proj1 Hwf j d Hd) Hc).
    unfold c.
    destruct (d2 b =? 0); simpl (_ =? _); cbv iota;
      destruct (flag_set (flags d) D_DISABLED) eqn:Hf; simpl;
      rewrite ?flag_set_enable, ?flag_set_disable, ?Hf; auto.
Qed.

Lemma toggle_all_switches_every_row_witness :
  let b := mkDIALOG D_EXIT 0 1 None in
  let b' := fst (toggle_all_proc_close b rpm_shown) in
  let s' := snd (toggle_all_proc_close b rpm_shown) in
  d2 b' = (if d2 b =? 0 then 1 else 0)
  /\ forall j d k r,
       sensor_rows rpm_shown !! j = Some d -> dp3 d = Some k ->
       sensors rpm_shown !! k = Some r ->
       exists d',
         sensor_rows s' !! j = Some d'
         /\ flag_set (flags d') D_DISABLED = negb (d2 b =? 0)
         /\ sensor_at s' k
            = if d2 b =? 0
              then if flag_set (flags d) D_DISABLED
                   then with_screen_buf "N/A" (with_enabled TRUE r)
                   else r
              else if flag_set (flags d) D_DISABLED
                   then with_screen_buf "not monitoring" r
                   else with_screen_buf "not monitoring"
                          (with_enabled FALSE r).
Proof.
  apply (toggle_all_switches_every_row (mkDIALOG D_EXIT 0 1 None) rpm_shown).
  exact rpm_shown_layout.
Defined.
(** ** The counter of disabled sensors and the toggle buttons *)

Lemma disabled_rows_insert (l : list DIALOG) (j : nat) (d d' : DIALOG) :
  l !! j = Some d ->
  disabled_rows (<[j := d']> l)
  = disabled_rows l - (if counts_as_disabled d then 1 else 0)
    + (if counts_as_disabled d' then 1 else 0).
Proof.
  revert j. induction l as [|x l IH]; intros j H; [discriminate|].
  destruct j as [|j]; simpl in *.
  - injection H as ->. lia.
  - rewrite (IH j H). lia.
Qed.

(** What [toggle_proc] does with [MSG_TOGGLE]: it changes its own entry
    and nothing else. *)
Lemma toggle_proc_msg_toggle_spec (j : nat) (c : Z) (s : state) :
  let s' := toggle_proc_msg MSG_TOGGLE j c s in
  sensor_rows s' = sensor_rows s /\ sensors s' = sensors s
  /\ num_of_disabled_sensors s' = num_of_disabled_sensors s
  /\ sensors_on_page s' = sensors_on_page s
  /\ current_sensor s' = current_sensor s
  /\ trace s' = trace s
  /\ toggle_rows s'
     = match toggle_rows s !! j with
       | Some t =>
           if ((c =? d1 t) || ((c =? -2) && (d2 t =? 1))
               || ((c =? -1) && (d2 t =? 0)))
              && negb (flag_set (flags t) D_DISABLED)
           then <[j := with_d2 (if d2 t =? 0 then 1 else 0) t]> (toggle_rows s)
           else toggle_rows s
       | None => toggle_rows s
       end.
Proof.
  unfold toggle_proc_msg.
  destruct (toggle_rows s !! j) as [t|]; simpl; [|tauto].
  destruct (_ && _); simpl; tauto.
Qed.

(** One line of the dialog receives [MSG_TOGGLE]: the counter and the
    variables beside the rows and the sensors. *)
Lemma toggle_line_counter (c : Z) (j : nat) (s : state) :
  let s' := snd (sensor_proc_msg_toggle j c (toggle_proc_msg MSG_TOGGLE j c s)) in
  num_of_disabled_sensors s' - disabled_rows (sensor_rows s')
  = num_of_disabled_sensors s - disabled_rows (sensor_rows s)
  /\ sensors_on_page s' = sensors_on_page s
  /\ current_sensor s' = current_sensor s
  /\ trace s' = trace s
  /\ toggle_rows s' = toggle_rows (toggle_proc_msg MSG_TOGGLE j c s).
Proof.
  destruct (toggle_proc_msg_toggle_spec j c s) as (Tr & Ts & Tn & Tp & Tc & Tt & _).
  set (s0 := toggle_proc_msg MSG_TOGGLE j c s) in *. clearbody s0.
  rewrite <- Tr, <- Tn, <- Tp, <- Tc, <- Tt. clear Tr Ts Tn Tp Tc Tt.
  unfold sensor_proc_msg_toggle.
  destruct (sensor_rows s0 !! j) as [d|] eqn:Hrow; simpl; [|tauto].
  destruct (dp3 d) as [k|] eqn:Hdp; simpl; [|tauto].
  unfold sensor_proc_toggle, sensor_proc_end.
  destruct (_ || _); simpl.
  - destruct (flag_set (flags d) D_DISABLED) eqn:Hdis; simpl.
    + rewrite (disabled_rows_insert _ _ _ _ Hrow).
      unfold counts_as_disabled. simpl. rewrite Hdp, Hdis, flag_set_enable.
      repeat split; lia.
    + match goal with
      | |- context [if ?b then _ else _] => destruct b
      end; simpl;
        rewrite (disabled_rows_insert _ _ _ _ Hrow);
        unfold counts_as_disabled; simpl;
        rewrite Hdp, Hdis, flag_set_disable; repeat split; lia.
  - destruct (flag_set (flags d) D_DISABLED); simpl; tauto.
Qed.

Lemma toggle_lines_counter (c : Z) (l : list nat) (s : state) :
  let s' := toggle_lines c l s in
  num_of_disabled_sensors s' - disabled_rows (sensor_rows s')
  = num_of_disabled_sensors s - disabled_rows (sensor_rows s)
  /\ sensors_on_page s' = sensors_on_page s
  /\ current_sensor s' = current_sensor s
  /\ trace s' = trace s.
Proof.
  unfold toggle_lines.
  apply (fold_left_preserves
           (fun a =>
              num_of_disabled_sensors a - disabled_rows (sensor_rows a)
              = num_of_disabled_sensors s - disabled_rows (sensor_rows s)
              /\ sensors_on_page a = sensors_on_page s
              /\ current_sensor a = current_sensor s
              /\ trace a = trace s)).
  - tauto.
  - intros a j _ (H1 & H2 & H3 & H4).
    destruct (toggle_line_counter c j a) as (E1 & E2 & E3 & E4 & _).
    repeat split; congruence.
Qed.

(** X17.  The counter of disabled sensors.  A broadcast of [MSG_TOGGLE],
    whether it comes from the button of one line or from the button
    "All ON" / "All OFF", moves [num_of_disabled_sensors] by exactly the
    number of rows it switches off less the number it switches on: when
    the counter equals the number of rows that show a sensor and are
    switched off, it still does afterwards.  The number of sensors on the
    page and the polling cursor are left alone. *)
Theorem disabled_counter_follows_rows (c : Z) (s : state) :
  num_of_disabled_sensors s = disabled_rows (sensor_rows s) ->
  let s' := broadcast_toggle c s in
  num_of_disabled_sensors s' = disabled_rows (sensor_rows s')
  /\ 0 <= num_of_disabled_sensors s' <= Z.of_nat (length (sensor_rows s'))
  /\ sensors_on_page s' = sensors_on_page s
  /\ current_sensor s' = current_sensor s.
Proof.
  intros H s'.
  destruct (toggle_lines_counter c (seq 0 (length (sensor_rows s))) s)
    as (E & Ep & Ec & _).
  change (toggle_lines c (seq 0 (length (sensor_rows s))) s) with s' in *.
  assert (B : forall l, 0 <= disabled_rows l <= Z.of_nat (length l)).
  { induction l as [|d l IH]; simpl; [lia|].
    destruct (counts_as_disabled d); lia. }
  pose proof (B (sensor_rows s')).
  repeat split; try assumption; lia.
Qed.

Lemma disabled_counter_follows_rows_witness :
  let s' := broadcast_toggle (-2) rpm_shown in
  num_of_disabled_sensors s' = disabled_rows (sensor_rows s')
  /\ 0 <= num_of_disabled_sensors s' <= Z.of_nat (length (sensor_rows s'))
  /\ sensors_on_page s' = sensors_on_page rpm_shown
  /\ current_sensor s' = current_sensor rpm_shown.
Proof.
  apply (disabled_counter_follows_rows (-2) rpm_shown).
  vm_compute. reflexivity.
Defined.

(** One line receives [MSG_TOGGLE]: the lines stay in step. *)
Lemma toggle_line_in_step (c : Z) (j : nat) (s : state) :
  lines_in_step s ->
  lines_in_step
    (snd (sensor_proc_msg_toggle j c (toggle_proc_msg MSG_TOGGLE j c s))).
Proof.
  intros H.
  pose proof (toggle_line c j s) as Hrows. simpl in Hrows.
  destruct (toggle_line_counter c j s) as (_ & _ & _ & _ & Ht).
  destruct (toggle_proc_msg_toggle_spec j c s) as (_ & _ & _ & _ & _ & _ & Ht').
  rewrite Ht' in Ht. clear Ht'.
  set (s' := snd (sensor_proc_msg_toggle j c
                    (toggle_proc_msg MSG_TOGGLE j c s))) in *.
  clearbody s'.
  intros i t' d' Hti Hdi.
  destruct (decide (i = j)) as [->|Hne].
  - (* the line that received the message *)
    destruct (sensor_rows s !! j) as [d|] eqn:Hd.
    2: { destruct Hrows as [Hr _]. rewrite Hr, Hd in Hdi. discriminate. }
    destruct Hrows as [Hr _].
    rewrite Hr, list_lookup_insert_eq in Hdi
      by (eapply lookup_lt_Some; eauto).
    injection Hdi as <-.
    destruct (toggle_rows s !! j) as [t|] eqn:Ht0.
    2: { rewrite Ht, Ht0 in Hti. discriminate. }
    destruct (H j t d Ht0 Hd) as [E1 E2].
    unfold line_in_step, row_after_toggle, toggles.
    destruct (dp3 d) as [k|] eqn:Hdp.
    + destruct E2 as [Eflag Ed2].
      rewrite Eflag, Ed2, E1, (Z.eqb_sym c (d1 d)) in Ht. simpl in Ht.
      rewrite andb_true_r in Ht.
      destruct (flag_set (flags d) D_DISABLED) eqn:Hdis; simpl in Ht;
        rewrite ?andb_false_r, ?andb_true_r, ?orb_false_r in Ht;
        rewrite ?andb_false_r, ?andb_true_r, ?orb_false_r;
        destruct (_ || _); rewrite Ht in Hti;
        rewrite ?list_lookup_insert_eq in Hti
          by (eapply lookup_lt_Some; eauto);
        rewrite ?Ht0 in Hti; injection Hti as <-; simpl;
        rewrite ?Hdp, ?flag_set_enable, ?flag_set_disable, ?Hdis, ?Ed2; auto.
    + rewrite E2 in Ht. simpl in Ht. rewrite andb_false_r in Ht.
      rewrite Ht in Hti. rewrite Ht0 in Hti. injection Hti as <-.
      rewrite Hdp. auto.
  - (* another line *)
    assert (Hd : sensor_rows s' !! i = sensor_rows s !! i).
    { destruct (sensor_rows s !! j); destruct Hrows as [-> _];
        rewrite ?list_lookup_insert_ne by auto; reflexivity. }
    assert (Ht1 : toggle_rows s' !! i = toggle_rows s !! i).
    { rewrite Ht. destruct (toggle_rows s !! j); [|reflexivity].
      destruct (_ && _); rewrite ?list_lookup_insert_ne by auto;
        reflexivity. }
    rewrite Hd in Hdi. rewrite Ht1 in Hti. exact (H i t' d' Hti Hdi).
Qed.

(** X18.  The ON/OFF button of a line and its row stay in step.  When
    every toggle button shows ON exactly for a row that is not switched off
    and is greyed out exactly on a line without a sensor, then after any
    broadcast of [MSG_TOGGLE] (one line, all on, all off) this is still
    so: the two procedures of a line, which test different fields, toggle
    together or not at all. *)
Theorem toggle_buttons_stay_in_step (c : Z) (s : state) :
  lines_in_step s -> lines_in_step (broadcast_toggle c s).
Proof.
  intros H. unfold broadcast_toggle.
  apply (fold_left_preserves lines_in_step); [exact H|].
  intros a j _ Ha. apply toggle_line_in_step. exact Ha.
Qed.

Lemma rpm_shown_in_step : lines_in_step rpm_shown.
Proof.
  assert (H : sensor_rows rpm_shown
              = map (fun j => mkDIALOG 64 (Z.of_nat j) 0 (Some j)) (seq 0 9))
    by (vm_compute; reflexivity).
  assert (Ht : toggle_rows rpm_shown
               = map (fun j => mkDIALOG 65 (Z.of_nat j) 1 None) (seq 0 9))
    by (vm_compute; reflexivity).
  unfold lines_in_step. rewrite H, Ht. simpl.
  intros i t d Hti Hdi.
  do 9 (destruct i as [|i];
        [injection Hti as <-; injection Hdi as <-;
         vm_compute; auto|]).
  discriminate Hdi.
Qed.

Lemma toggle_buttons_stay_in_step_witness :
  lines_in_step (broadcast_toggle 1 rpm_shown).
Proof.
  apply (toggle_buttons_stay_in_step 1 rpm_shown).
  exact rpm_shown_in_step.
Defined.
(** ** What reaches the vehicle *)

Lemma commands_of_app (t1 t2 : list event) :
  commands_of (t1 ++ t2) = (commands_of t1 ++ commands_of t2)%list.
Proof.
  induction t1 as [|ev t1 IH]; simpl; auto.
  destruct ev; simpl; rewrite ?IH; reflexivity.
Qed.

Lemma quiet_same (s s' : state) : trace s' = trace s -> quiet s s'.
Proof.
  intros H. exists []. rewrite H, app_nil_r. auto.
Qed.

Lemma quiet_trans (s1 s2 s3 : state) : quiet s1 s2 -> quiet s2 s3 -> quiet s1 s3.
Proof.
  intros (t1 & E1 & C1) (t2 & E2 & C2). exists (t1 ++ t2)%list.
  rewrite E2, E1, <- app_assoc, commands_of_app, C1, C2. auto.
Qed.

(** A state whose trace is that of [s] with calls added that are shown not
    to be commands. *)
Ltac quiet_by_trace :=
  eexists; split;
  [ simpl; rewrite <- ?app_assoc; try reflexivity;
    rewrite <- (app_nil_r (trace _)) at 1; reflexivity
  | reflexivity ].

Lemma quiet_calculate_refresh_rate (ev : sensor_state_t) (s : state) :
  quiet s (calculate_refresh_rate ev s).
Proof.
  unfold calculate_refresh_rate, log.
  repeat case_match; first [apply quiet_same; reflexivity | quiet_by_trace].
Qed.

Lemma sensor_proc_end_trace (d : DIALOG) (k : nat) (s : state) :
  trace (sensor_proc_end d k s) = trace s.
Proof.
  unfold sensor_proc_end. destruct (flag_set _ _); reflexivity.
Qed.

Lemma sensor_proc_msg_toggle_trace (i : nat) (c : Z) (s : state) :
  trace (snd (sensor_proc_msg_toggle i c s)) = trace s.
Proof.
  unfold sensor_proc_msg_toggle, sensor_proc_toggle, sensor_proc_end.
  repeat (case_match; simpl; simplify_eq); reflexivity.
Qed.

Lemma sensor_proc_msg_init_quiet (msg : message) (i : nat) (s : state) :
  quiet s (snd (sensor_proc_msg_init msg i s)).
Proof.
  unfold sensor_proc_msg_init, sensor_proc_start, sensor_proc_update,
    sensor_proc_end, log.
  repeat (case_match; simpl; simplify_eq);
    first [apply quiet_same; reflexivity | quiet_by_trace].
Qed.

Lemma broadcast_toggle_trace (c : Z) (s : state) :
  trace (broadcast_toggle c s) = trace s.
Proof.
  exact (proj2 (proj2 (proj2
           (toggle_lines_counter c (seq 0 (length (sensor_rows s))) s)))).
Qed.

Lemma port_not_ready_quiet (answers : list (Z * options_result))
    (s s' : state) :
  port_not_ready answers s = Some s' -> quiet s s'.
Proof.
  revert s. induction answers as [|[button after] answers IH]; intros s H.
  - simpl in H. destruct (comport_status s); try discriminate;
      injection H as <-; apply quiet_same; reflexivity.
  - simpl in H. destruct (comport_status s) eqn:E;
      try (injection H as <-; apply quiet_same; reflexivity).
    destruct (button =? 1); apply IH in H;
      (eapply quiet_trans; [|exact H]); unfold log, apply_options;
      quiet_by_trace.
Qed.

Section Sending.

Variable D : ascii.
Variable T LONG_MAX : Z.

Lemma handle_failure_quiet (k : nat) (t : response_type_t) (s : state)
    (ret : dialog_ret) (s' : state) :
  handle_failure k t s = Returns ret s' -> quiet s s'.
Proof.
  unfold handle_failure. intros H.
  apply (quiet_trans s
           (calculate_refresh_rate SENSOR_NA (strcpy_screen_buf k "N/A" s))).
  { apply (quiet_trans _ (strcpy_screen_buf k "N/A" s));
      [apply quiet_same; reflexivity | apply quiet_calculate_refresh_rate]. }
  set (s1 := calculate_refresh_rate SENSOR_NA (strcpy_screen_buf k "N/A" s))
    in *.
  clearbody s1. unfold retry_alert, log in H.
  destruct t; simpl in H; repeat case_match; simplify_eq;
    first [apply quiet_same; reflexivity | quiet_by_trace].
Qed.

Lemma handle_time_out_quiet (k : nat) (e : env) (s : state)
    (ret : dialog_ret) (s' : state) :
  handle_time_out k e s = Returns ret s' -> quiet s s'.
Proof.
  unfold handle_time_out. intros H.
  match type of H with
  | match port_not_ready _ ?a with _ => _ end = _ =>
      assert (Q : quiet s a); [|set (s1 := a) in *; clearbody s1]
  end.
  { unfold log, apply_options.
    repeat case_match; first [apply quiet_same; reflexivity | quiet_by_trace]. }
  destruct (port_not_ready (port_dialogue e) s1) as [s2|] eqn:P;
    [|discriminate].
  apply port_not_ready_quiet in P. injection H as _ <-.
  eapply quiet_trans; [exact Q|]. eapply quiet_trans; [exact P|].
  unfold log. quiet_by_trace.
Qed.

Lemma handle_prompt_quiet (k : nat) (buf : string) (e : env) (s : state) :
  match handle_prompt D LONG_MAX k buf e s with
  | Done (Returns _ s') | Break s' | Next s' => quiet s s'
  | _ => True
  end.
Proof.
  unfold handle_prompt.
  set (s1 := log stop_serial_timer _).
  assert (Q1 : quiet s s1) by (unfold s1, log; quiet_by_trace).
  clearbody s1.
  destruct (new_page s1); [exact Q1|].
  destruct (process_response e _ _) as [t text].
  assert (Q2 : quiet s (set_vehicle_response text s1)).
  { eapply quiet_trans; [exact Q1|]. apply quiet_same. reflexivity. }
  set (s2 := set_vehicle_response text s1) in *. clearbody s2.
  assert (F : forall t',
            match handle_failure k t' s2 with
            | Returns _ s' => quiet s s'
            | _ => True
            end).
  { intros t'. destruct (handle_failure k t' s2) eqn:E; auto.
    eapply quiet_trans; [exact Q2|]. eapply handle_failure_quiet. exact E. }
  destruct t; try apply F.
  destruct (find_valid_response D enough_fuel text) as [[[] tok]|];
    [| apply F | exact I].
  destruct (80 <=? strlen tok); [exact I|].
  destruct (strlen tok <? 4); [exact I|].
  destruct (formula (sensor_at s1 k)) as [f|]; [|exact I].
  destruct (64 <=? strlen _); [exact I|].
  eapply quiet_trans; [exact Q2|].
  eapply quiet_trans; [apply (quiet_calculate_refresh_rate SENSOR_ACTIVE)|].
  apply quiet_same. reflexivity.
Qed.

(** The body of [if (comport.status == READY)]: it sends nothing, or it is
    run for an enabled row with no response outstanding and sends the
    command of the row's sensor. *)
Lemma ready_block_sends (d : DIALOG) (k : nat) (e : env) (s : state) :
  match ready_block D T LONG_MAX d k e s with
  | Done (Returns _ s') | Break s' => quiet s s'
  | Next s' =>
      quiet s s'
      \/ (flag_set (flags d) D_DISABLED = false
          /\ receiving_response s = false
          /\ exists tr, trace s' = (trace s ++ tr)%list
                        /\ commands_of tr = [command (sensor_at s k)])
  | _ => True
  end.
Proof.
  unfold ready_block.
  destruct (flag_set (flags d) D_DISABLED) eqn:Hdis.
  - pose proof (quiet_calculate_refresh_rate SENSOR_OFF s) as Q.
    set (s1 := calculate_refresh_rate SENSOR_OFF s) in *. clearbody s1.
    destruct (receiving_response s1); simpl.
    + destruct (read_comport e) as [status chunk].
      eapply quiet_trans; [exact Q|]. apply quiet_same. reflexivity.
    + eapply quiet_trans; [exact Q|]. apply quiet_same. reflexivity.
  - destruct (receiving_response s) eqn:Hrecv; simpl.
    + destruct (read_comport e) as [[] chunk].
      * left. apply quiet_same. reflexivity.
      * left. apply quiet_same. reflexivity.
      * pose proof (handle_prompt_quiet k chunk e s) as Q.
        destruct (handle_prompt D LONG_MAX k chunk e s) as [[]| |]; auto.
    + right. split; [reflexivity|]. split; [reflexivity|].
      eexists. split.
      * unfold log. simpl. rewrite <- app_assoc. reflexivity.
      * reflexivity.
Qed.

Lemma sensor_proc_idle_sends (d : DIALOG) (k : nat) (e : env) (s : state) :
  match sensor_proc_idle D T LONG_MAX d k e s with
  | Done (Returns _ s') | Break s' | Next s' =>
      quiet s s'
      \/ (d1 d = current_sensor s /\ comport_status s = READY
          /\ flag_set (flags d) D_DISABLED = false
          /\ receiving_response s = false
          /\ exists tr, trace s' = (trace s ++ tr)%list
                        /\ commands_of tr = [command (sensor_at s k)])
  | _ => True
  end.
Proof.
  unfold sensor_proc_idle.
  destruct (Z.eqb_spec (d1 d) (current_sensor s)) as [Hd1|_].
  2: { left. apply quiet_same. reflexivity. }
  assert (R : match
                match comport_status s with
                | READY => ready_block D T LONG_MAX d k e s
                | _ => Next s
                end
              with
              | Done (Returns _ s') | Break s' => quiet s s'
              | Next s' =>
                  quiet s s'
                  \/ (comport_status s = READY
                      /\ flag_set (flags d) D_DISABLED = false
                      /\ receiving_response s = false
                      /\ exists tr, trace s' = (trace s ++ tr)%list
                           /\ commands_of tr = [command (sensor_at s k)])
              | _ => True
              end).
  { destruct (comport_status s) eqn:Hst;
      try (left; apply quiet_same; reflexivity).
    pose proof (ready_block_sends d k e s) as Q.
    destruct (ready_block D T LONG_MAX d k e s) as [[]| |]; auto.
    destruct Q as [Q|Q]; [left; exact Q | right; tauto]. }
  match type of R with
  | match ?f with _ => _ end => destruct f as [[ret s1| |]|s1|s1]
  end; auto.
  destruct (serial_time_out e).
  - destruct (handle_time_out k e s1) as [ret s2| |] eqn:E; auto.
    apply handle_time_out_quiet in E.
    destruct R as [Q|(H1 & H2 & H3 & tr & Ht & Hc)].
    + left. eapply quiet_trans; eauto.
    + right. destruct E as (tr2 & Ht2 & Hc2).
      repeat split; auto.
      exists (tr ++ tr2)%list.
      rewrite Ht2, Ht, <- app_assoc, commands_of_app, Hc, Hc2. auto.
  - destruct R as [Q|Q]; [left; exact Q | right; tauto].
Qed.

(** X19.  Only the polled row talks to the vehicle.  Whatever message
    [sensor_proc] receives, for whatever row and in whatever state, a call
    that returns has sent at most one command.  It sends one only on
    [MSG_IDLE] for the row under the polling cursor, when that row shows a
    sensor and is not switched off, the port is ready, no reset of the chip
    is pending and no response is outstanding; the command is then that of
    the row's sensor.  In particular a sensor that is switched off is never
    polled, and nothing is sent while the port is not ready. *)
Theorem only_the_polled_row_sends (msg : message) (i : nat) (c : Z) (e : env)
    (s : state) (ret : dialog_ret) (s' : state) :
  sensor_proc D T LONG_MAX msg i c e s = Returns ret s' ->
  exists tr,
    trace s' = (trace s ++ tr)%list
    /\ (commands_of tr = []
        \/ exists d k,
             msg = MSG_IDLE /\ polled s i d k
             /\ receiving_response s = false
             /\ commands_of tr = [command (sensor_at s k)]).
Proof.
  intros H.
  assert (G : quiet s s'
              \/ exists d k tr,
                   msg = MSG_IDLE /\ polled s i d k
                   /\ receiving_response s = false
                   /\ trace s' = (trace s ++ tr)%list
                   /\ commands_of tr = [command (sensor_at s k)]).
  2: { destruct G as [(tr & Ht & Hc)|(d & k & tr & G1 & G2 & G3 & Ht & Hc)];
         exists tr; split; auto. right. exists d, k. auto. }
  unfold sensor_proc in H.
  destruct (sensor_rows s !! i) as [d|] eqn:Hrow.
  2: { injection H as _ <-. left. apply quiet_same. reflexivity. }
  destruct (match msg with MSG_IDLE => reset_hardware s | _ => false end)
    eqn:Hreset.
  { injection H as _ <-. left. unfold log.
    destruct (receiving_response s); quiet_by_trace. }
  assert (Hdraw : msg = MSG_DRAW -> quiet s (sensor_proc_draw i d s)).
  { intros _. unfold sensor_proc_draw. destruct (d2 d =? 0).
    - apply quiet_same. reflexivity.
    - apply quiet_same. rewrite broadcast_toggle_trace. reflexivity. }
  destruct (dp3 d) as [k|] eqn:Hdp.
  2: { left. destruct msg; injection H as _ <-;
         first [apply Hdraw; reflexivity | apply quiet_same; reflexivity]. }
  destruct msg.
  - (* MSG_START *)
    left. pose proof (sensor_proc_msg_init_quiet MSG_START i s) as Q.
    destruct (sensor_proc_msg_init MSG_START i s) as [r s1].
    injection H as _ <-. exact Q.
  - (* MSG_END *)
    left. injection H as _ <-.
    eapply quiet_trans; [|apply quiet_same; apply sensor_proc_end_trace].
    destruct (d1 d =? sensors_on_page s - 1); unfold log;
      [quiet_by_trace | apply quiet_same; reflexivity].
  - left. injection H as _ <-. apply Hdraw. reflexivity.
  - (* MSG_IDLE *)
    pose proof (sensor_proc_idle_sends d k e s) as Q.
    assert (E : forall s1,
              (quiet s s1
               \/ (d1 d = current_sensor s /\ comport_status s = READY
                   /\ flag_set (flags d) D_DISABLED = false
                   /\ receiving_response s = false
                   /\ exists tr, trace s1 = (trace s ++ tr)%list
                        /\ commands_of tr = [command (sensor_at s k)])) ->
              trace s' = trace s1 ->
              quiet s s'
              \/ exists d k tr,
                   MSG_IDLE = MSG_IDLE /\ polled s i d k
                   /\ receiving_response s = false
                   /\ trace s' = (trace s ++ tr)%list
                   /\ commands_of tr = [command (sensor_at s k)]).
    { intros s1 [Q1|(H1 & H2 & H3 & H4 & tr & Ht & Hc)] Hs.
      - left. destruct Q1 as (tr & Ht & Hc). exists tr. rewrite Hs. auto.
      - right. exists d, k, tr. unfold polled. rewrite Hs. repeat split; auto. }
    destruct (sensor_proc_idle D T LONG_MAX d k e s) as [[r s1| |]|s1|s1];
      try discriminate; injection H as _ <-;
      apply (E s1 Q); rewrite ?sensor_proc_end_trace; reflexivity.
  - (* MSG_TOGGLE *)
    left. pose proof (sensor_proc_msg_toggle_trace i c s) as Q.
    destruct (sensor_proc_msg_toggle i c s) as [r s1].
    injection H as _ <-. apply quiet_same. exact Q.
  - (* MSG_UPDATE *)
    left. pose proof (sensor_proc_msg_init_quiet MSG_UPDATE i s) as Q.
    destruct (sensor_proc_msg_init MSG_UPDATE i s) as [r s1].
    injection H as _ <-. exact Q.
  - left. injection H as _ <-. apply quiet_same. apply sensor_proc_end_trace.
  - left. injection H as _ <-. apply quiet_same. apply sensor_proc_end_trace.
Qed.

End Sending.

Lemma only_the_polled_row_sends_witness :
  exists tr,
    trace (run_demo [idle 2 awaiting] rpm_shown) = (trace rpm_shown ++ tr)%list
    /\ (commands_of tr = []
        \/ exists d k,
             MSG_IDLE = MSG_IDLE /\ polled rpm_shown 2 d k
             /\ receiving_response rpm_shown = false
             /\ commands_of tr = [command (sensor_at rpm_shown k)]).
Proof.
  apply (only_the_polled_row_sends TAB demo_timeout demo_long_max MSG_IDLE 2 0
           awaiting rpm_shown D_O_K).
  vm_compute. reflexivity.
Defined.

(** ** The polling cursor *)

Lemma stays_trans (s1 s2 s3 : state) :
  stays s1 s2 -> stays s2 s3 -> stays s1 s3.
Proof.
  unfold stays. intros [A B] [A' B']. split; congruence.
Qed.

Lemma stays_next (s s1 : state) : stays s s1 -> next_sensor s1 = next_sensor s.
Proof.
  unfold stays, next_sensor. intros [-> ->]. reflexivity.
Qed.

Lemma stays_calculate_refresh_rate (ev : sensor_state_t) (s : state) :
  stays s (calculate_refresh_rate ev s).
Proof.
  unfold calculate_refresh_rate, stays, log.
  repeat case_match; simpl; auto.
Qed.

Lemma stays_port_not_ready (answers : list (Z * options_result))
    (s s' : state) :
  port_not_ready answers s = Some s' -> stays s s'.
Proof.
  revert s. induction answers as [|[button after] answers IH]; intros s H.
  - simpl in H. destruct (comport_status s); try discriminate;
      injection H as <-; split; reflexivity.
  - simpl in H. destruct (comport_status s) eqn:E;
      try (injection H as <-; split; reflexivity).
    destruct (button =? 1); apply IH in H;
      (eapply stays_trans; [|exact H]); split; reflexivity.
Qed.

Section Cursor.

Variable D : ascii.
Variable T LONG_MAX : Z.

Lemma handle_failure_cursor (k : nat) (t : response_type_t) (s : state)
    (ret : dialog_ret) (s' : state) :
  handle_failure k t s = Returns ret s' -> moves s s'.
Proof.
  unfold handle_failure. intros H.
  assert (Q : stays s (calculate_refresh_rate SENSOR_NA
                         (strcpy_screen_buf k "N/A" s))).
  { apply (stays_trans _ (strcpy_screen_buf k "N/A" s));
      [split; reflexivity | apply stays_calculate_refresh_rate]. }
  set (s1 := calculate_refresh_rate SENSOR_NA (strcpy_screen_buf k "N/A" s))
    in *.
  clearbody s1. pose proof (stays_next s s1 Q) as N. destruct Q as [Q1 Q2].
  unfold retry_alert, log, moves in *.
  destruct t; simpl in H; repeat case_match; simplify_eq; simpl; auto.
Qed.

Lemma handle_time_out_cursor (k : nat) (e : env) (s : state)
    (ret : dialog_ret) (s' : state) :
  handle_time_out k e s = Returns ret s' -> moves s s'.
Proof.
  unfold handle_time_out. intros H.
  match type of H with
  | match port_not_ready _ ?a with _ => _ end = _ =>
      assert (Q : stays s a); [|set (s1 := a) in *; clearbody s1]
  end.
  { unfold log, apply_options, stays. repeat case_match; simpl; auto. }
  destruct (port_not_ready (port_dialogue e) s1) as [s2|] eqn:P;
    [|discriminate].
  apply stays_port_not_ready in P. injection H as _ <-.
  pose proof (stays_trans _ _ _ Q P) as Q'.
  pose proof (stays_next s s2 Q') as N. destruct Q' as [Q1 Q2].
  unfold moves, log. simpl.
  change (next_sensor (set_trace ?t s2)) with (next_sensor s2).
  auto.
Qed.

Lemma handle_prompt_cursor (k : nat) (buf : string) (e : env) (s : state) :
  match handle_prompt D LONG_MAX k buf e s with
  | Done (Returns _ s') => moves s s'
  | Break s' | Next s' => stays s s'
  | _ => True
  end.
Proof.
  unfold handle_prompt.
  set (s1 := log stop_serial_timer _).
  assert (Q1 : stays s s1) by (split; reflexivity).
  clearbody s1.
  destruct (new_page s1); [exact Q1|].
  destruct (process_response e _ _) as [t text].
  assert (Q2 : stays s (set_vehicle_response text s1)).
  { eapply stays_trans; [exact Q1|]. split; reflexivity. }
  set (s2 := set_vehicle_response text s1) in *. clearbody s2.
  assert (F : forall t',
            match handle_failure k t' s2 with
            | Returns _ s' => moves s s'
            | _ => True
            end).
  { intros t'. destruct (handle_failure k t' s2) eqn:E; auto.
    apply handle_failure_cursor in E.
    pose proof (stays_next _ _ Q2) as N. destruct Q2 as [A B].
    unfold moves in *. rewrite N, A, B in E. exact E. }
  destruct t; try apply F.
  destruct (find_valid_response D enough_fuel text) as [[[] tok]|];
    [| apply F | exact I].
  destruct (80 <=? strlen tok); [exact I|].
  destruct (strlen tok <? 4); [exact I|].
  destruct (formula (sensor_at s1 k)) as [f|]; [|exact I].
  destruct (64 <=? strlen _); [exact I|].
  pose proof (stays_trans _ _ _ Q2
                (stays_calculate_refresh_rate SENSOR_ACTIVE s2)) as Q3.
  set (s3 := calculate_refresh_rate SENSOR_ACTIVE s2) in *. clearbody s3.
  pose proof (stays_next _ _ Q3) as N. destruct Q3 as [A B].
  unfold moves. simpl.
  change (next_sensor (strcpy_screen_buf ?a ?b s3)) with (next_sensor s3).
  auto.
Qed.

Lemma sensor_proc_idle_cursor (d : DIALOG) (k : nat) (e : env) (s : state) :
  match sensor_proc_idle D T LONG_MAX d k e s with
  | Done (Returns _ s') => moves s s'
  | Break s' | Next s' => stays s s'
  | _ => True
  end.
Proof.
  unfold sensor_proc_idle.
  destruct (d1 d =? current_sensor s); [|split; reflexivity].
  assert (R : match
                match comport_status s with
                | READY => ready_block D T LONG_MAX d k e s
                | _ => Next s
                end
              with
              | Done (Returns _ s') => moves s s'
              | Break s' | Next s' => stays s s'
              | _ => True
              end).
  { destruct (comport_status s); try (split; reflexivity).
    unfold ready_block.
    destruct (flag_set (flags d) D_DISABLED).
    - pose proof (stays_calculate_refresh_rate SENSOR_OFF s) as Q.
      set (s1 := calculate_refresh_rate SENSOR_OFF s) in *. clearbody s1.
      pose proof (stays_next _ _ Q) as N. destruct Q as [A B].
      destruct (receiving_response s1); simpl.
      + destruct (read_comport e) as [status chunk].
        unfold moves. simpl. auto.
      + unfold moves. simpl. auto.
    - destruct (receiving_response s); simpl.
      + destruct (read_comport e) as [[] chunk]; try (split; reflexivity).
        apply handle_prompt_cursor.
      + split; reflexivity. }
  match type of R with
  | match ?f with _ => _ end => destruct f as [[ret s1| |]|s1|s1]
  end; auto.
  destruct (serial_time_out e); [|exact R].
  destruct (handle_time_out k e s1) as [ret s2| |] eqn:E; auto.
  apply handle_time_out_cursor in E.
  pose proof (stays_next _ _ R) as N. destruct R as [A B].
  unfold moves in *. rewrite N, A, B in E. exact E.
Qed.

(** X20.  The polling cursor stays on the page.  No call of [sensor_proc]
    changes the number of sensors on the page, and a call that returns
    leaves the cursor where it was, sets it to 0 or moves it to the next
    row, the first row following the last one.  So a cursor that points at
    a row of the page still does after the call. *)
Theorem cursor_stays_on_page (msg : message) (i : nat) (c : Z) (e : env)
    (s : state) (ret : dialog_ret) (s' : state) :
  sensor_proc D T LONG_MAX msg i c e s = Returns ret s' ->
  0 <= current_sensor s < sensors_on_page s ->
  sensors_on_page s' = sensors_on_page s
  /\ (current_sensor s' = current_sensor s \/ current_sensor s' = 0
      \/ current_sensor s' = next_sensor s)
  /\ 0 <= current_sensor s' < sensors_on_page s'.
Proof.
  intros H Hc.
  assert (G : moves s s').
  2: { destruct G as [A B]. split; [exact A|]. split; [exact B|].
       rewrite A. unfold next_sensor in B.
       destruct (Z.eqb_spec (current_sensor s) (sensors_on_page s - 1)); lia. }
  assert (S : forall s1, stays s s1 -> moves s s1).
  { intros s1 [A B]. split; auto. }
  unfold sensor_proc in H.
  destruct (sensor_rows s !! i) as [d|] eqn:Hrow.
  2: { injection H as _ <-. apply S. split; reflexivity. }
  destruct (match msg with MSG_IDLE => reset_hardware s | _ => false end).
  { injection H as _ <-. apply S.
    destruct (receiving_response s); split; reflexivity. }
  assert (Hdraw : stays s (sensor_proc_draw i d s)).
  { unfold sensor_proc_draw. destruct (d2 d =? 0); [split; reflexivity|].
    destruct (toggle_lines_counter (d1 d)
                (seq 0 (length (sensor_rows
                                  (put_sensor_row i (with_d2 0 d) s))))
                (put_sensor_row i (with_d2 0 d) s)) as (_ & A & B & _).
    split; [exact A | exact B]. }
  assert (Hend : forall d' s1, stays s1 (sensor_proc_end d' 0 s1)
                               /\ forall k, stays s1 (sensor_proc_end d' k s1)).
  { intros d' s1. unfold sensor_proc_end.
    destruct (flag_set _ _); repeat split; reflexivity. }
  destruct (dp3 d) as [k|] eqn:Hdp.
  2: { destruct msg; injection H as _ <-; apply S;
         first [exact Hdraw | split; reflexivity]. }
  assert (Hinit : forall m, moves s (snd (sensor_proc_msg_init m i s))).
  { intros m. unfold sensor_proc_msg_init. rewrite Hrow, Hdp.
    unfold sensor_proc_start, sensor_proc_update, sensor_proc_end, moves, log.
    repeat (case_match; simpl; simplify_eq); auto. }
  destruct msg.
  - pose proof (Hinit MSG_START) as Q.
    destruct (sensor_proc_msg_init MSG_START i s) as [r s1].
    injection H as _ <-. exact Q.
  - injection H as _ <-. apply S.
    eapply stays_trans; [|apply (proj2 (Hend _ _))].
    destruct (d1 d =? sensors_on_page s - 1); split; reflexivity.
  - injection H as _ <-. apply S. exact Hdraw.
  - pose proof (sensor_proc_idle_cursor d k e s) as Q.
    destruct (sensor_proc_idle D T LONG_MAX d k e s) as [[r s1| |]|s1|s1];
      try discriminate; injection H as _ <-; auto;
      apply S; (eapply stays_trans; [exact Q|]); apply (proj2 (Hend _ _)).
  - apply S.
    assert (Q : stays s (snd (sensor_proc_msg_toggle i c s))).
    { unfold sensor_proc_msg_toggle, sensor_proc_toggle, sensor_proc_end,
        stays.
      repeat (case_match; simpl; simplify_eq); auto. }
    destruct (sensor_proc_msg_toggle i c s) as [r s1].
    injection H as _ <-. exact Q.
  - pose proof (Hinit MSG_UPDATE) as Q.
    destruct (sensor_proc_msg_init MSG_UPDATE i s) as [r s1].
    injection H as _ <-. exact Q.
  - injection H as _ <-. apply S. apply (proj2 (Hend _ _)).
  - injection H as _ <-. apply S. apply (proj2 (Hend _ _)).
Qed.

End Cursor.

Lemma cursor_stays_on_page_witness :
  let s := speed_requested in
  let s' := run_demo [idle 2 speed_reply] speed_requested in
  sensors_on_page s' = sensors_on_page s
  /\ (current_sensor s' = current_sensor s \/ current_sensor s' = 0
      \/ current_sensor s' = next_sensor s)
  /\ 0 <= current_sensor s' < sensors_on_page s'.
Proof.
  apply (cursor_stays_on_page TAB demo_timeout demo_long_max MSG_IDLE 2 0
           speed_reply speed_requested D_REDRAWME).
  - vm_compute. reflexivity.
  - vm_compute. split; [discriminate | reflexivity].
Defined.
(** ** Branches of [sensor_proc] *)

Section Branches.

Variable D : ascii.
Variable T LONG_MAX : Z.

(** X21.  The button "Reset Chip".  After it has been pressed, the first
    [MSG_IDLE] that reaches any sensor row of the dialog, be it under the
    cursor or not and with a sensor or without, resets the chip once,
    forgets an outstanding response and clears the request; it polls
    nothing and leaves the rows, the sensors, the cursor and the retry
    counter alone. *)
Theorem reset_is_served_by_the_next_idle (i : nat) (c : Z) (e : env)
    (s : state) (d : DIALOG) :
  sensor_rows s !! i = Some d ->
  exists s',
    sensor_proc D T LONG_MAX MSG_IDLE i c e (reset_chip_proc_close s)
      = Returns D_O_K s'
    /\ trace s' = (trace s ++ [reset_chip])%list
    /\ reset_hardware s' = false /\ receiving_response s' = false
    /\ sensor_rows s' = sensor_rows s /\ sensors s' = sensors s
    /\ current_sensor s' = current_sensor s
    /\ retry_attempts s' = retry_attempts s
    /\ vehicle_response s' = vehicle_response s.
Proof.
  intros Hrow. unfold sensor_proc, reset_chip_proc_close. simpl.
  rewrite Hrow.
  destruct (receiving_response s) eqn:Hrecv; eexists;
    (split; [reflexivity|]); simpl; rewrite ?Hrecv; repeat split.
Qed.





End Branches.

Lemma reset_is_served_by_the_next_idle_witness :
  exists s',
    sensor_proc TAB demo_timeout demo_long_max MSG_IDLE 5 0 awaiting
      (reset_chip_proc_close rpm_shown)
      = Returns D_O_K s'
    /\ trace s' = (trace rpm_shown ++ [reset_chip])%list
    /\ reset_hardware s' = false /\ receiving_response s' = false
    /\ sensor_rows s' = sensor_rows rpm_shown
    /\ sensors s' = sensors rpm_shown
    /\ current_sensor s' = current_sensor rpm_shown
    /\ retry_attempts s' = retry_attempts rpm_shown
    /\ vehicle_response s' = vehicle_response rpm_shown.
Proof.
  apply (reset_is_served_by_the_next_idle TAB demo_timeout demo_long_max 5 0
           awaiting rpm_shown (mkDIALOG 64 5 0 (Some 5%nat))).
  vm_compute. reflexivity.
Defined.

Lemma rpm_requested_polled :
  polled rpm_requested 1 (mkDIALOG 64 1 0 (Some 1%nat)) 1
  /\ sensors rpm_requested !! 1%nat
     = Some (mkSENSOR (Some fn_engine_rpm_formula) "Engine RPM:" "N/A" "010C"
               1 2)
  /\ receiving_response rpm_requested = true
  /\ new_page rpm_requested = false.
Proof.
  unfold polled. repeat split; vm_compute; reflexivity.
Qed.



Section Receiving.

Variable D : ascii.
Variable T LONG_MAX : Z.

(** Data arrives without the prompt, and the timer has not expired. *)
Lemma data_is_appended (s : state) (e : env) (i k : nat) (d : DIALOG)
    (chunk : string) :
  polled s i d k -> receiving_response s = true ->
  read_comport e = (DATA, chunk) -> serial_time_out e = false ->
  sensor_proc D T LONG_MAX MSG_IDLE i 0 e s
  = Returns D_O_K
      (set_vehicle_response (strcat (vehicle_response s) chunk) s).
Proof.
  intros (Hrow & Hdp & Hd1 & Hen & Hreset & Hready) Hrecv Hread Hout.
  unfold sensor_proc. rewrite Hrow, Hreset, Hdp.
  unfold sensor_proc_idle. rewrite Hd1, Z.eqb_refl, Hready.
  unfold ready_block. rewrite Hen, Hrecv, Hread. simpl. rewrite Hout.
  unfold sensor_proc_end. rewrite Hen. reflexivity.
Qed.

Lemma c_str_idem (p : string) : c_str (c_str p) = c_str p.
Proof.
  induction p as [|c p IH]; simpl; [reflexivity|].
  destruct (is_nul c) eqn:E; simpl; [reflexivity|]. rewrite E, IH. reflexivity.
Qed.

Lemma c_str_app (p q : string) : c_str (c_str p ++ q) = c_str p ++ c_str q.
Proof.
  induction p as [|c p IH]; simpl; [reflexivity|].
  destruct (is_nul c) eqn:E; simpl; [reflexivity|]. rewrite E, IH. reflexivity.
Qed.

Lemma string_app_empty (p : string) : p ++ "" = p.
Proof.
  induction p as [|c p IH]; [reflexivity|].
  change (String c (p ++ "") = String c p). rewrite IH. reflexivity.
Qed.

Lemma string_app_assoc (p q r : string) : (p ++ q) ++ r = p ++ (q ++ r).
Proof.
  induction p as [|c p IH]; [reflexivity|].
  change (String c ((p ++ q) ++ r) = String c (p ++ (q ++ r))).
  rewrite IH. reflexivity.
Qed.

(** X24.  A response that arrives in pieces.  While the enabled row under
    the cursor waits for its response, every call that finds data but no
    prompt appends the piece to [vehicle_response] and changes nothing
    else: after the pieces [chunks], which together fit into the 512
    characters of the buffer, the buffer holds the text it held before
    followed by the pieces in the order of their arrival; nothing was sent
    and the row still waits. *)
Theorem response_is_assembled_in_order (es : list env) (chunks : list string)
    (s : state) (i k : nat) (d : DIALOG) :
  polled s i d k -> receiving_response s = true ->
  Forall2 (fun e chunk => read_comport e = (DATA, chunk)
                          /\ serial_time_out e = false) es chunks ->
  strlen (vehicle_response s)
  + strlen (fold_right (fun chunk text => c_str chunk ++ text) "" chunks)
    < 512 ->
  exists s',
    run D T LONG_MAX (map (idle i) es) s = Some s'
    /\ c_str (vehicle_response s')
       = c_str (vehicle_response s)
         ++ fold_right (fun chunk text => c_str chunk ++ text) "" chunks
    /\ polled s' i d k /\ receiving_response s' = true
    /\ trace s' = trace s /\ sensors s' = sensors s
    /\ retry_attempts s' = retry_attempts s
    /\ current_sensor s' = current_sensor s.
Proof.
  intros Hpol Hrecv Hall _. revert s Hpol Hrecv.
  induction Hall as [|e chunk es chunks [Hread Hout] _ IH]; intros s Hpol Hrecv.
  - simpl. exists s. split; [reflexivity|].
    split; [rewrite string_app_empty; reflexivity|].
    repeat split; auto; apply Hpol.
  - simpl map. simpl run. unfold idle at 1. simpl step.
    rewrite (data_is_appended s e i k d chunk Hpol Hrecv Hread Hout).
    destruct (IH (set_vehicle_response (strcat (vehicle_response s) chunk) s))
      as (s' & Hrun & Htext & Hp & Hr & Htr & Hs & Hret & Hcur).
    { exact Hpol. }
    { exact Hrecv. }
    exists s'. split; [exact Hrun|]. split.
    + rewrite Htext. simpl. unfold strcat.
      rewrite c_str_app, c_str_idem. apply string_app_assoc.
    + repeat split; auto; apply Hp.
Qed.

End Receiving.

Lemma response_is_assembled_in_order_witness :
  exists s',
    run TAB demo_timeout demo_long_max
      (map (idle 1) [partial_reply "41 0C "; partial_reply "1A F8"])
      rpm_requested = Some s'
    /\ c_str (vehicle_response s')
       = c_str (vehicle_response rpm_requested)
         ++ fold_right (fun chunk text => c_str chunk ++ text) ""
              ["41 0C "; "1A F8"]
    /\ polled s' 1 (mkDIALOG 64 1 0 (Some 1%nat)) 1
    /\ receiving_response s' = true
    /\ trace s' = trace rpm_requested /\ sensors s' = sensors rpm_requested
    /\ retry_attempts s' = retry_attempts rpm_requested
    /\ current_sensor s' = current_sensor rpm_requested.
Proof.
  destruct rpm_requested_polled as (H1 & _ & H3 & _).
  apply (response_is_assembled_in_order TAB demo_timeout demo_long_max
           [partial_reply "41 0C "; partial_reply "1A F8"]
           ["41 0C "; "1A F8"] rpm_requested 1 1 _ H1 H3).
  - repeat constructor.
  - vm_compute. reflexivity.
Defined.
(** ** The response scanner, again *)

Section Scanner.

Variable D : ascii.

(** The copying loop cuts the text at its first delimiter or at its
    end. *)
Lemma copy_token_spec (p : string) :
  c_str p = fst (copy_token D p) ++ c_str (snd (copy_token D p))
  /\ at_token_end D (deref (snd (copy_token D p))) = true
  /\ forall c, In c (list_ascii_of_string (fst (copy_token D p))) ->
       at_token_end D c = false.
Proof.
  induction p as [|c p (IH1 & IH2 & IH3)]; simpl.
  - repeat split; tauto.
  - destruct (at_token_end D c) eqn:E; simpl.
    + split; [reflexivity|]. split; [exact E | tauto].
    + destruct (copy_token D p) as [out q]; simpl in *.
      assert (is_nul c = false) as ->.
      { unfold at_token_end in E. apply orb_false_iff in E. tauto. }
      split; [rewrite IH1; reflexivity|]. split; [exact IH2|].
      intros c' [<-|Hc']; auto.
Qed.

Lemma skip_token_to_the_end (p : string) :
  (forall c, In c (list_ascii_of_string (c_str p)) -> c <> D) ->
  is_nul (deref (skip_token D p)) = true.
Proof.
  induction p as [|c p IH]; simpl; intros H; [reflexivity|].
  unfold at_token_end. destruct (is_nul c) eqn:En; simpl; [exact En|].
  destruct (Ascii.eqb_spec c D) as [->|Hne].
  - exfalso. apply (H D); [left|]; reflexivity.
  - apply IH. intros c' Hc'. apply H. right. exact Hc'.
Qed.

Lemma skip_token_at_delimiter (p : string) :
  (exists c, In c (list_ascii_of_string (c_str p)) /\ c = D) ->
  deref (skip_token D p) = D /\ is_nul D = false.
Proof.
  induction p as [|c p IH]; simpl; intros (c' & Hin & ->).
  - destruct Hin.
  - destruct (is_nul c) eqn:En; [destruct Hin|].
    unfold at_token_end. rewrite En. simpl.
    destruct (Ascii.eqb_spec c D) as [->|Hne].
    + simpl. auto.
    + destruct Hin as [->|Hin]; [congruence|]. apply IH. eauto.
Qed.

(** X25.  A reply at the start of the response.  When the response
    begins with "41" and the delimiter is not the character '4',
    [find_valid_response] returns TRUE after one evaluation of its loop
    condition, and [buf] holds the first token: the response is that token
    followed by a delimiter or by nothing, and the token has at least one
    character and holds no delimiter. *)
Theorem find_valid_response_first_token (response : string) (fuel : nat) :
  starts_with_41 response = true -> D <> "4"%char -> (1 <= fuel)%nat ->
  exists token rest,
    find_valid_response D fuel response = Some (true, token)
    /\ c_str response = token ++ c_str rest
    /\ at_token_end D (deref rest) = true
    /\ (forall c, In c (list_ascii_of_string token) -> at_token_end D c = false)
    /\ 1 <= strlen token.
Proof.
  intros H41 H4 Hf.
  destruct (copy_token_spec response) as (S1 & S2 & S3).
  exists (fst (copy_token D response)), (snd (copy_token D response)).
  assert (Hlen : 1 <= strlen (fst (copy_token D response))).
  { unfold starts_with_41 in H41. apply andb_true_iff in H41 as [H41 _].
    destruct response as [|c p]; [discriminate|]. simpl in H41.
    apply Ascii.eqb_eq in H41. subst c. simpl.
    assert (at_token_end D "4" = false) as ->.
    { unfold at_token_end.
      destruct (Ascii.eqb_spec "4" D); [congruence | reflexivity]. }
    destruct (copy_token D p) as [out q]. unfold strlen. simpl.
    lia. }
  split; [|auto].
  destruct fuel as [|fuel]; [lia|].
  unfold find_valid_response. simpl. rewrite H41.
  assert (is_nul (deref response) = false) as ->.
  { unfold starts_with_41 in H41. apply andb_true_iff in H41 as [H41 _].
    destruct response; [discriminate|]. simpl in *.
    apply Ascii.eqb_eq in H41. subst. reflexivity. }
  assert ((0 <? strlen (fst (copy_token D response))) = true) as ->
    by (apply Z.ltb_lt; lia).
  reflexivity.
Qed.

(** X26.  When [find_valid_response] returns.  For a response that does
    not begin with "41" (and a delimiter that is not '4'), the function
    returns if and only if the response holds no delimiter, and it then
    returns FALSE with an empty [buf]; with a delimiter anywhere in the
    response it never returns, even when a reply follows the delimiter. *)
Theorem find_valid_response_returns_iff (response : string) :
  starts_with_41 response = false -> D <> "4"%char ->
  ((forall c, In c (list_ascii_of_string (c_str response)) -> c <> D) ->
   forall fuel, (2 <= fuel)%nat ->
     find_valid_response D fuel response = Some (false, ""))
  /\ ((exists c, In c (list_ascii_of_string (c_str response)) /\ c = D) ->
      forall fuel, find_valid_response D fuel response = None).
Proof.
  intros H41 H4. split.
  - intros Hno fuel Hf.
    assert (E : find_loop D enough_fuel response = Some "").
    { unfold enough_fuel. simpl. rewrite H41.
      destruct (is_nul (deref response)); [reflexivity|].
      rewrite (skip_token_to_the_end response Hno). reflexivity. }
    unfold find_valid_response.
    rewrite (find_loop_settled D response "" E fuel Hf). reflexivity.
  - intros Hd fuel.
    destruct (skip_token_at_delimiter response Hd) as [Hs Hn].
    assert (Hnul : is_nul (deref response) = false).
    { destruct Hd as (c & Hin & _). destruct response as [|c' p];
        [destruct Hin|]. simpl in *.
      destruct (is_nul c'); [destruct Hin | reflexivity]. }
    assert (Hstuck : forall fuel',
              find_loop D fuel' (skip_token D response) = None).
    { apply find_loop_never.
      - rewrite Hs. exact Hn.
      - apply skip_token_at_end.
      - unfold starts_with_41. rewrite Hs.
        destruct (Ascii.eqb_spec D "4"); [contradiction | reflexivity]. }
    unfold find_valid_response.
    destruct fuel as [|fuel]; [reflexivity|].
    cbn [find_loop]. rewrite Hnul, H41, Hstuck. reflexivity.
Qed.

End Scanner.

Lemma find_valid_response_first_token_witness :
  exists token rest,
    find_valid_response CR 1 ("4105" ++ String CR "41057B") = Some (true, token)
    /\ c_str ("4105" ++ String CR "41057B") = token ++ c_str rest
    /\ at_token_end CR (deref rest) = true
    /\ (forall c, In c (list_ascii_of_string token) ->
          at_token_end CR c = false)
    /\ 1 <= strlen token.
Proof.
  apply (find_valid_response_first_token CR ("4105" ++ String CR "41057B") 1).
  - reflexivity.
  - discriminate.
  - lia.
Defined.

Lemma find_valid_response_returns_iff_witness :
  ((forall c, In c (list_ascii_of_string (c_str "NODATA")) -> c <> CR) ->
   forall fuel, (2 <= fuel)%nat ->
     find_valid_response CR fuel "NODATA" = Some (false, ""))
  /\ ((exists c, In c (list_ascii_of_string (c_str "NODATA")) /\ c = CR) ->
      forall fuel, find_valid_response CR fuel "NODATA" = None).
Proof.
  apply (find_valid_response_returns_iff CR "NODATA").
  - reflexivity.
  - discriminate.
Defined.
(** ** A port that could not be opened *)

Lemma port_not_ready_settles (answers : list (Z * options_result))
    (s s' : state) :
  port_not_ready answers s = Some s' ->
  comport_status s' <> NOT_OPEN
  /\ (comport_status s <> NOT_OPEN -> s' = s).
Proof.
  revert s. induction answers as [|[button after] answers IH]; intros s H.
  - simpl in H. destruct (comport_status s) eqn:E; try discriminate;
      injection H as <-; rewrite E; split; congruence.
  - simpl in H. destruct (comport_status s) eqn:E;
      try (injection H as <-; rewrite E; split; congruence).
    split; [|congruence].
    destruct (button =? 1); apply IH in H; tauto.
Qed.

Section ClosedPort.

Variable D : ascii.
Variable T LONG_MAX : Z.

(** X27.  A closed port is settled before the call returns.  When the
    timer has expired for the row under the cursor while the port is
    marked NOT_OPEN, the call asks "Port is not ready." again and again
    until the options dialog has opened the port or the user has chosen to
    ignore it: if the call returns, the port is no longer NOT_OPEN; the
    call returns D_REDRAWME, the sensor reads "N/A" and the cursor is on
    the next row. *)
Theorem closed_port_is_settled (s : state) (e : env) (i k : nat)
    (d : DIALOG) (r : SENSOR) (ret : dialog_ret) (s' : state) :
  sensor_rows s !! i = Some d -> dp3 d = Some k -> sensors s !! k = Some r ->
  d1 d = current_sensor s -> reset_hardware s = false ->
  comport_status s = NOT_OPEN -> serial_time_out e = true ->
  sensor_proc D T LONG_MAX MSG_IDLE i 0 e s = Returns ret s' ->
  ret = D_REDRAWME
  /\ comport_status s' <> NOT_OPEN
  /\ screen_buf (sensor_at s' k) = "N/A"
  /\ current_sensor s' = next_sensor s
  /\ receiving_response s' = false.
Proof.
  intros Hrow Hdp Hr Hd1 Hreset Hst Hout H.
  unfold sensor_proc in H. rewrite Hrow, Hreset, Hdp in H.
  unfold sensor_proc_idle in H. rewrite Hd1, Z.eqb_refl, Hst, Hout in H.
  unfold handle_time_out in H.
  match type of H with
  | match port_not_ready _ ?a with _ => _ end = _ =>
      assert (Q : sensors a = alter (with_screen_buf "N/A") k (sensors s)
                  /\ receiving_response a = false
                  /\ stays s a);
        [|set (s1 := a) in *; clearbody s1]
  end.
  { unfold log, apply_options, stays.
    repeat case_match; simpl; auto. }
  destruct Q as (Qs & Qr & Qst).
  destruct (port_not_ready (port_dialogue e) s1) as [s2|] eqn:P;
    [|discriminate].
  injection H as <- <-.
  destruct (port_not_ready_settles _ _ _ P) as [Hne _].
  assert (F : sensors s2 = sensors s1 /\ receiving_response s2 = receiving_response s1).
  { clear - P. revert s1 P.
    induction (port_dialogue e) as [|[button after] answers IH]; intros s1 P.
    - simpl in P. destruct (comport_status s1); try discriminate;
        injection P as <-; auto.
    - simpl in P. destruct (comport_status s1);
        try (injection P as <-; auto; fail).
      destruct (button =? 1); apply IH in P; exact P. }
  destruct F as [Fs Fr].
  pose proof (stays_trans _ _ _ Qst (stays_port_not_ready _ _ _ P)) as St.
  pose proof (stays_next _ _ St) as N.
  split; [reflexivity|]. unfold sensor_at. simpl.
  change (next_sensor (log stop_serial_timer s2)) with (next_sensor s2).
  rewrite Fs, Qs, list_lookup_alter, decide_True, Hr, Fr, Qr, N by reflexivity.
  repeat split; auto.
Qed.

End ClosedPort.

Lemma closed_port_is_settled_witness :
  D_REDRAWME = D_REDRAWME
  /\ comport_status (run_demo [idle 0 expired_ignore]
                       (run_demo [idle 0 awaiting] (opened NOT_OPEN)))
     <> NOT_OPEN
  /\ screen_buf
       (sensor_at (run_demo [idle 0 expired_ignore]
                     (run_demo [idle 0 awaiting] (opened NOT_OPEN))) 0)
     = "N/A"
  /\ current_sensor (run_demo [idle 0 expired_ignore]
                       (run_demo [idle 0 awaiting] (opened NOT_OPEN)))
     = next_sensor (run_demo [idle 0 awaiting] (opened NOT_OPEN))
  /\ receiving_response (run_demo [idle 0 expired_ignore]
                           (run_demo [idle 0 awaiting] (opened NOT_OPEN)))
     = false.
Proof.
  apply (closed_port_is_settled TAB demo_timeout demo_long_max
           (run_demo [idle 0 awaiting] (opened NOT_OPEN)) expired_ignore 0 0
           (mkDIALOG 64 0 0 (Some 0%nat))
           (mkSENSOR (Some fn_throttle_position_formula)
              "Absolute Throttle Position:" "N/A" "0111" 1 1)
           D_REDRAWME);
    vm_compute; reflexivity.
Defined.
(** ** The counter that is never assigned *)

Lemma off_calculate_refresh_rate (ev : sensor_state_t) (s : state) :
  num_of_sensors_off (calculate_refresh_rate ev s) = num_of_sensors_off s.
Proof.
  unfold calculate_refresh_rate, log. repeat case_match; reflexivity.
Qed.

Lemma off_port_not_ready (answers : list (Z * options_result))
    (s s' : state) :
  port_not_ready answers s = Some s' ->
  num_of_sensors_off s' = num_of_sensors_off s.
Proof.
  revert s. induction answers as [|[button after] answers IH]; intros s H.
  - simpl in H. destruct (comport_status s); try discriminate;
      injection H as <-; reflexivity.
  - simpl in H. destruct (comport_status s);
      try (injection H as <-; reflexivity).
    destruct (button =? 1); apply IH in H; rewrite H; reflexivity.
Qed.

Lemma off_toggle_line (c : Z) (j : nat) (s : state) :
  num_of_sensors_off
    (snd (sensor_proc_msg_toggle j c (toggle_proc_msg MSG_TOGGLE j c s)))
  = num_of_sensors_off s.
Proof.
  unfold sensor_proc_msg_toggle, sensor_proc_toggle, sensor_proc_end,
    toggle_proc_msg.
  repeat (case_match; simpl in *; simplify_eq); reflexivity.
Qed.

Lemma off_broadcast_toggle (c : Z) (s : state) :
  num_of_sensors_off (broadcast_toggle c s) = num_of_sensors_off s.
Proof.
  unfold broadcast_toggle.
  apply (fold_left_preserves
           (fun a => num_of_sensors_off a = num_of_sensors_off s));
    [reflexivity|].
  intros a j _ Ha. rewrite off_toggle_line. exact Ha.
Qed.

Lemma off_init_line (msg : message) (c : Z) (j : nat) (s : state) :
  num_of_sensors_off
    (snd (sensor_proc_msg_init msg j (toggle_proc_msg msg j c s)))
  = num_of_sensors_off s.
Proof.
  unfold sensor_proc_msg_init, sensor_proc_start, sensor_proc_update,
    sensor_proc_end, toggle_proc_msg, toggle_proc_update, log.
  repeat (case_match; simpl in *; simplify_eq); reflexivity.
Qed.

Lemma off_broadcast_init (msg : message) (c : Z) (s : state) :
  num_of_sensors_off (broadcast_init msg c s) = num_of_sensors_off s.
Proof.
  unfold broadcast_init.
  apply (fold_left_preserves
           (fun a => num_of_sensors_off a = num_of_sensors_off s));
    [reflexivity|].
  intros a j _ Ha. rewrite off_init_line. exact Ha.
Qed.

Lemma off_fill_sensors (p : Z) (s : state) :
  num_of_sensors_off (fill_sensors p s) = num_of_sensors_off s.
Proof.
  unfold fill_sensors.
  match goal with
  | |- context [fold_left ?f ?l ?a] =>
      pose proof (fold_left_preserves
        (fun acc => num_of_sensors_off (fst acc) = num_of_sensors_off s)
        f l a eq_refl) as H
  end.
  match type of H with
  | _ -> ?P => assert (G : P)
  end.
  { apply H. intros [a idx] j _ Ha. simpl in *.
    repeat (case_match; simpl); exact Ha. }
  clear H.
  match goal with
  | |- context [fold_left ?f ?l ?a] => destruct (fold_left f l a)
  end.
  exact G.
Qed.

Section NeverAssigned.

Variable D : ascii.
Variable T LONG_MAX : Z.

Lemma off_sensor_proc (msg : message) (i : nat) (c : Z) (e : env)
    (s : state) (ret : dialog_ret) (s' : state) :
  sensor_proc D T LONG_MAX msg i c e s = Returns ret s' ->
  num_of_sensors_off s' = num_of_sensors_off s.
Proof.
  intros H. unfold sensor_proc in H.
  destruct (sensor_rows s !! i) as [d|]; [|injection H as _ <-; reflexivity].
  destruct (match msg with MSG_IDLE => reset_hardware s | _ => false end).
  { injection H as _ <-. destruct (receiving_response s); reflexivity. }
  assert (Hdraw : num_of_sensors_off (sensor_proc_draw i d s)
                  = num_of_sensors_off s).
  { unfold sensor_proc_draw. destruct (d2 d =? 0); [reflexivity|].
    rewrite off_broadcast_toggle. reflexivity. }
  assert (Hend : forall d' k s1,
            num_of_sensors_off (sensor_proc_end d' k s1)
            = num_of_sensors_off s1).
  { intros. unfold sensor_proc_end. destruct (flag_set _ _); reflexivity. }
  destruct (dp3 d) as [k|].
  2: { destruct msg; injection H as _ <-; first [exact Hdraw | reflexivity]. }
  assert (Hinit : forall m,
            num_of_sensors_off (snd (sensor_proc_msg_init m i s))
            = num_of_sensors_off s).
  { intros m. unfold sensor_proc_msg_init, sensor_proc_start,
      sensor_proc_update, sensor_proc_end, log.
    repeat (case_match; simpl in *; simplify_eq); reflexivity. }
  assert (Hfail : forall t s1 r s2,
            handle_failure k t s1 = Returns r s2 ->
            num_of_sensors_off s2 = num_of_sensors_off s1).
  { intros t s1 r s2 E. unfold handle_failure in E.
    pose proof (off_calculate_refresh_rate SENSOR_NA
                  (strcpy_screen_buf k "N/A" s1)) as Q.
    set (s3 := calculate_refresh_rate _ _) in *. clearbody s3.
    unfold retry_alert, log in E.
    destruct t; simpl in E; repeat case_match; simplify_eq; exact Q. }
  assert (Htime : forall s1 r s2,
            handle_time_out k e s1 = Returns r s2 ->
            num_of_sensors_off s2 = num_of_sensors_off s1).
  { intros s1 r s2 E. unfold handle_time_out in E.
    match type of E with
    | match port_not_ready _ ?a with _ => _ end = _ =>
        assert (Q : num_of_sensors_off a = num_of_sensors_off s1);
          [|set (s3 := a) in *; clearbody s3]
    end.
    { unfold log, apply_options. repeat case_match; reflexivity. }
    destruct (port_not_ready (port_dialogue e) s3) as [s4|] eqn:P;
      [|discriminate].
    apply off_port_not_ready in P. injection E as _ <-. simpl. congruence. }
  destruct msg.
  - pose proof (Hinit MSG_START) as Q.
    destruct (sensor_proc_msg_init MSG_START i s). injection H as _ <-.
    exact Q.
  - injection H as _ <-. rewrite Hend.
    destruct (d1 d =? sensors_on_page s - 1); reflexivity.
  - injection H as _ <-. exact Hdraw.
  - (* MSG_IDLE *)
    unfold sensor_proc_idle in H.
    destruct (d1 d =? current_sensor s);
      [|injection H as _ <-; apply Hend].
    assert (R : match
                  match comport_status s with
                  | READY => ready_block D T LONG_MAX d k e s
                  | _ => Next s
                  end
                with
                | Done (Returns _ s1) | Break s1 | Next s1 =>
                    num_of_sensors_off s1 = num_of_sensors_off s
                | _ => True
                end).
    { destruct (comport_status s); try reflexivity.
      unfold ready_block.
      destruct (flag_set (flags d) D_DISABLED).
      - pose proof (off_calculate_refresh_rate SENSOR_OFF s) as Q.
        set (s1 := calculate_refresh_rate SENSOR_OFF s) in *. clearbody s1.
        destruct (receiving_response s1); simpl;
          [destruct (read_comport e)|]; exact Q.
      - destruct (receiving_response s); simpl; [|reflexivity].
        destruct (read_comport e) as [[] chunk]; try reflexivity.
        unfold handle_prompt.
        set (s1 := log stop_serial_timer _).
        assert (Q1 : num_of_sensors_off s1 = num_of_sensors_off s)
          by reflexivity.
        clearbody s1.
        destruct (new_page s1); [exact Q1|].
        destruct (process_response e _ _) as [t text].
        assert (F : forall t',
                  match handle_failure k t' (set_vehicle_response text s1) with
                  | Returns _ s2 => num_of_sensors_off s2 = num_of_sensors_off s
                  | _ => True
                  end).
        { intros t'.
          destruct (handle_failure k t' (set_vehicle_response text s1))
            eqn:E; auto.
          apply Hfail in E. rewrite E. exact Q1. }
        destruct t; try apply F.
        destruct (find_valid_response D enough_fuel text) as [[[] tok]|];
          [| apply F | exact I].
        destruct (80 <=? strlen tok); [exact I|].
        destruct (strlen tok <? 4); [exact I|].
        destruct (formula (sensor_at s1 k)) as [f|]; [|exact I].
        destruct (64 <=? strlen _); [exact I|].
        simpl. rewrite off_calculate_refresh_rate. exact Q1. }
    match type of R with
    | match ?f with _ => _ end => destruct f as [[r s1| |]|s1|s1]
    end; try discriminate.
    + injection H as _ <-. exact R.
    + injection H as _ <-. rewrite Hend. exact R.
    + destruct (serial_time_out e).
      * destruct (handle_time_out k e s1) as [r s2| |] eqn:E;
          try discriminate.
        injection H as _ <-. apply Htime in E. congruence.
      * injection H as _ <-. rewrite Hend. exact R.
  - assert (Q : num_of_sensors_off (snd (sensor_proc_msg_toggle i c s))
                = num_of_sensors_off s).
    { unfold sensor_proc_msg_toggle, sensor_proc_toggle, sensor_proc_end.
      repeat (case_match; simpl in *; simplify_eq); reflexivity. }
    destruct (sensor_proc_msg_toggle i c s). injection H as _ <-. exact Q.
  - pose proof (Hinit MSG_UPDATE) as Q.
    destruct (sensor_proc_msg_init MSG_UPDATE i s). injection H as _ <-.
    exact Q.
  - injection H as _ <-. apply Hend.
  - injection H as _ <-. apply Hend.
Qed.

(** X28.  [num_of_sensors_off] is never assigned.  Whatever the dialog is
    sent, in whatever order (messages to the sensor rows, with any reply of
    the vehicle decoded by any formula, timer ticks, presses of the toggle
    buttons and of the page buttons), the static variable that
    [calculate_refresh_rate] compares with [sensors_on_page] keeps its
    value, and so does opening the dialog: it is 0 from the start of the
    program to its end, and the branch "all sensors on page are OFF" is
    never taken on a page that shows a sensor.  So in every state the
    dialog can reach on such a page, [calculate_refresh_rate(SENSOR_OFF)]
    changes nothing, however many sensors are switched off. *)
Theorem num_of_sensors_off_never_changes (calls : list call) (s s' : state) :
  run D T LONG_MAX calls s = Some s' ->
  num_of_sensors_off s' = num_of_sensors_off s
  /\ (forall config,
        num_of_sensors_off (display_sensor_dialog config s)
        = num_of_sensors_off s)
  /\ (num_of_sensors_off s = 0 -> 0 < sensors_on_page s' ->
      (sensors_on_page s' <=? num_of_sensors_off s') = false)
  /\ (num_of_sensors_off s = 0 -> 0 < sensors_on_page s' ->
      calculate_refresh_rate SENSOR_OFF s' = s').
Proof.
  intros H.
  assert (G : num_of_sensors_off s' = num_of_sensors_off s).
  { revert s H. induction calls as [|c calls IH]; intros s H; simpl in H.
    - injection H as <-. reflexivity.
    - destruct (step D T LONG_MAX c s) as [s1|] eqn:E; [|discriminate].
      rewrite (IH s1 H). clear IH H.
      destruct c as [msg i c e| |i|direction]; simpl in E.
      + destruct (sensor_proc D T LONG_MAX msg i c e s) as [r s2| |] eqn:P;
          try discriminate.
        injection E as <-. eapply off_sensor_proc. exact P.
      + injection E as <-. reflexivity.
      + injection E as <-. unfold toggle_proc_close.
        destruct (toggle_rows s !! i); [apply off_broadcast_toggle|reflexivity].
      + injection E as <-. unfold page_flipper_proc_close.
        rewrite off_broadcast_init, off_fill_sensors.
        unfold turn_page. repeat case_match; reflexivity. }
  split; [exact G|]. split.
  - intros config. unfold display_sensor_dialog.
    match goal with
    | |- num_of_sensors_off (fold_left ?f ?l ?a) = _ =>
        apply (fold_left_preserves
                 (fun x => num_of_sensors_off x = num_of_sensors_off s) f l a)
    end.
    + rewrite off_broadcast_init, off_fill_sensors. reflexivity.
    + intros a j _ Ha. destruct (sensor_rows a !! j) as [d|]; [|exact Ha].
      unfold sensor_proc_draw. destruct (d2 d =? 0); [exact Ha|].
      rewrite off_broadcast_toggle. exact Ha.
  - assert (C : num_of_sensors_off s = 0 -> 0 < sensors_on_page s' ->
                (sensors_on_page s' <=? num_of_sensors_off s') = false).
    { intros H0 Hp. rewrite G, H0. apply Z.leb_gt. exact Hp. }
    split; [exact C|].
    intros H0 Hp. unfold calculate_refresh_rate. rewrite (C H0 Hp).
    destruct (initialization_occured s'); reflexivity.
Qed.

End NeverAssigned.

Lemma num_of_sensors_off_never_changes_witness :
  let s := load_requested in
  let s' := run_demo polled_then_disabled load_requested in
  num_of_sensors_off s' = num_of_sensors_off s
  /\ (forall config,
        num_of_sensors_off (display_sensor_dialog config s)
        = num_of_sensors_off s)
  /\ (num_of_sensors_off s = 0 -> 0 < sensors_on_page s' ->
      (sensors_on_page s' <=? num_of_sensors_off s') = false)
  /\ (num_of_sensors_off s = 0 -> 0 < sensors_on_page s' ->
      calculate_refresh_rate SENSOR_OFF s' = s').
Proof.
  apply (num_of_sensors_off_never_changes TAB demo_timeout demo_long_max
           polled_then_disabled load_requested
           (run_demo polled_then_disabled load_requested)).
  vm_compute. reflexivity.
Defined.
(** ** A response that belongs to the page before *)

Section NewPage.

Variable D : ascii.
Variable T LONG_MAX : Z.

(** X29.  A response that was on its way when the page was switched is
    thrown away.  When the prompt arrives for the row under the cursor
    while [new_page] is set, the call stops the timer, marks the device as
    connected and clears the count of timeouts, and it decodes nothing: the
    sensors, the cursor, the retry counter and the response buffer are as
    they were, and the test of the timeout is not reached.  The row then no
    longer waits, so that the next idle message sends its command. *)
Theorem prompt_after_page_switch_is_dropped (s : state) (e : env) (i k : nat)
    (d : DIALOG) :
  polled s i d k -> receiving_response s = true -> new_page s = true ->
  fst (read_comport e) = PROMPT ->
  exists s',
    sensor_proc D T LONG_MAX MSG_IDLE i 0 e s = Returns D_O_K s'
    /\ trace s' = (trace s ++ [stop_serial_timer])%list
    /\ sensors s' = sensors s /\ current_sensor s' = current_sensor s
    /\ retry_attempts s' = retry_attempts s
    /\ vehicle_response s' = vehicle_response s
    /\ receiving_response s' = false /\ device_connected s' = true
    /\ num_of_sensors_timed_out s' = 0
    /\ polled s' i d k.
Proof.
  intros (Hrow & Hdp & Hd1 & Hen & Hreset & Hready) Hrecv Hpage Hread.
  unfold sensor_proc. rewrite Hrow, Hreset, Hdp.
  unfold sensor_proc_idle. rewrite Hd1, Z.eqb_refl, Hready.
  unfold ready_block. rewrite Hen, Hrecv.
  destruct (read_comport e) as [status chunk]. simpl in Hread. subst status.
  simpl negb. cbv iota.
  unfold handle_prompt. simpl. rewrite Hpage.
  unfold sensor_proc_end. rewrite Hen.
  eexists. split; [reflexivity|]. unfold polled. simpl.
  repeat split; auto.
Qed.

End NewPage.

Lemma prompt_after_page_switch_is_dropped_witness :
  exists s',
    sensor_proc TAB demo_timeout demo_long_max MSG_IDLE 0 0 rpm_reply
      page_switched_while_waiting = Returns D_O_K s'
    /\ trace s' = (trace page_switched_while_waiting ++ [stop_serial_timer])%list
    /\ sensors s' = sensors page_switched_while_waiting
    /\ current_sensor s' = current_sensor page_switched_while_waiting
    /\ retry_attempts s' = retry_attempts page_switched_while_waiting
    /\ vehicle_response s' = vehicle_response page_switched_while_waiting
    /\ receiving_response s' = false /\ device_connected s' = true
    /\ num_of_sensors_timed_out s' = 0
    /\ polled s' 0 (mkDIALOG 64 0 0 (Some 9%nat)) 9.
Proof.
  apply (prompt_after_page_switch_is_dropped TAB demo_timeout demo_long_max
           page_switched_while_waiting rpm_reply 0 9
           (mkDIALOG 64 0 0 (Some 9%nat))).
  - unfold polled. repeat split; vm_compute; reflexivity.
  - vm_compute. reflexivity.
  - vm_compute. reflexivity.
  - reflexivity.
Defined.
(** ** Opening the dialog *)

Lemma count_rows_load_rows (config : nat -> Z) (i : nat) (l : list SENSOR) :
  count_rows (load_rows config i l) = count_rows l.
Proof.
  revert i. induction l as [|r l IH]; intros i; simpl; [reflexivity|].
  destruct (formula r) eqn:F; simpl; rewrite ?F, ?IH; reflexivity.
Qed.

(** One line of the dialog receives [MSG_START]. *)
Lemma start_line (j : nat) (a : state) :
  let a' := snd (sensor_proc_msg_init MSG_START j
                   (toggle_proc_msg MSG_START j 0 a)) in
  sensors a' = sensors a /\ sensors_on_page a' = sensors_on_page a
  /\ current_page a' = current_page a /\ reset_hardware a' = reset_hardware a
  /\ match sensor_rows a !! j with
     | Some d =>
         match dp3 d with
         | Some k =>
             (exists d',
                sensor_rows a' = <[j := d']> (sensor_rows a)
                /\ started d (negb (enabled (sensor_at a k) =? 0)) d')
             /\ num_of_disabled_sensors a'
                = (if d1 d =? 0 then 0 else num_of_disabled_sensors a)
             /\ (d1 d = 0 -> current_sensor a' = 0)
             /\ (d1 d <> 0 -> current_sensor a' = current_sensor a)
         | None =>
             sensor_rows a' = sensor_rows a
             /\ num_of_disabled_sensors a' = num_of_disabled_sensors a
             /\ current_sensor a' = current_sensor a
         end
     | None =>
         sensor_rows a' = sensor_rows a
         /\ num_of_disabled_sensors a' = num_of_disabled_sensors a
         /\ current_sensor a' = current_sensor a
     end.
Proof.
  assert (T : exists l, toggle_proc_msg MSG_START j 0 a
                        = set_toggle_rows l a).
  { unfold toggle_proc_msg.
    destruct (toggle_rows a !! j) as [t|].
    - unfold toggle_proc_update. simpl.
      destruct (sensors_on_page a <=? d1 t); simpl;
        rewrite ?andb_false_r; eexists; reflexivity.
    - exists (toggle_rows a). destruct a; reflexivity. }
  destruct T as [l ->].
  unfold sensor_proc_msg_init.
  change (sensor_rows (set_toggle_rows l a)) with (sensor_rows a).
  destruct (sensor_rows a !! j) as [d|] eqn:Hrow; simpl; [|tauto].
  destruct (dp3 d) as [k|] eqn:Hdp; simpl; [|tauto].
  unfold sensor_proc_start, sensor_proc_update, sensor_proc_end, started,
    sensor_at, log.
  destruct (Z.eqb_spec (d1 d) 0) as [Hz|Hz]; simpl;
    rewrite ?flag_set_enable; simpl;
    destruct (enabled (default end_of_table (sensors a !! k)) =? 0) eqn:En;
    simpl; rewrite ?flag_set_dirty, ?flag_set_enable; simpl;
    repeat split; auto; try congruence;
    eexists; (split; [reflexivity|]); simpl;
    rewrite ?Hdp, ?flag_set_dirty, ?flag_set_enable; auto.
Qed.

Lemma start_lines_spec (l : list nat) :
  NoDup l ->
  forall a,
    sensors (start_lines l a) = sensors a
    /\ sensors_on_page (start_lines l a) = sensors_on_page a
    /\ current_page (start_lines l a) = current_page a
    /\ reset_hardware (start_lines l a) = reset_hardware a
    /\ length (sensor_rows (start_lines l a)) = length (sensor_rows a)
    /\ (forall i d, sensor_rows a !! i = Some d ->
          exists d',
            sensor_rows (start_lines l a) !! i = Some d'
            /\ if bool_decide (i ∈ l)
               then match dp3 d with
                    | Some k =>
                        started d (negb (enabled (sensor_at a k) =? 0)) d'
                    | None => d' = d
                    end
               else d' = d).
Proof.
  induction 1 as [|j0 l Hnot Hnodup IH]; intros a.
  - simpl. repeat split; auto. intros i d Hd. exists d. auto.
  - change (start_lines (j0 :: l) a)
      with (start_lines l
              (snd (sensor_proc_msg_init MSG_START j0
                      (toggle_proc_msg MSG_START j0 0 a)))).
    pose proof (start_line j0 a) as Hstep. simpl in Hstep.
    set (a1 := snd (sensor_proc_msg_init MSG_START j0
                      (toggle_proc_msg MSG_START j0 0 a))) in *.
    clearbody a1.
    destruct Hstep as (Hs & Hp & Hc & Hr & Hrow).
    destruct (IH a1) as (IHs & IHp & IHc & IHr & IHlen & IHrows).
    split; [congruence|]. split; [congruence|]. split; [congruence|].
    split; [congruence|].
    split.
    { rewrite IHlen.
      destruct (sensor_rows a !! j0) as [d0|]; [destruct (dp3 d0)|].
      - destruct Hrow as ((d0' & -> & _) & _). apply length_insert.
      - destruct Hrow as (-> & _). reflexivity.
      - destruct Hrow as (-> & _). reflexivity. }
    assert (Hon : forall k, sensor_at a1 k = sensor_at a k).
    { intros k. unfold sensor_at. rewrite Hs. reflexivity. }
    intros i d Hd.
    destruct (decide (i = j0)) as [->|Hne].
    + rewrite bool_decide_true by apply list_elem_of_here.
      rewrite Hd in Hrow.
      destruct (dp3 d) as [k|] eqn:Hdp.
      * destruct Hrow as ((d0 & Hrows & Hst) & _).
        destruct (IHrows j0 d0) as (d' & Hd' & Hcase).
        { rewrite Hrows. apply list_lookup_insert_eq.
          eapply lookup_lt_Some; eauto. }
        rewrite bool_decide_false in Hcase by exact Hnot. subst d'.
        exists d0. auto.
      * destruct Hrow as (Hrows & _).
        destruct (IHrows j0 d) as (d' & Hd' & Hcase).
        { rewrite Hrows. exact Hd. }
        rewrite bool_decide_false in Hcase by exact Hnot. subst d'.
        exists d. auto.
    + assert (Hsame : sensor_rows a1 !! i = Some d).
      { destruct (sensor_rows a !! j0) as [d0|]; [destruct (dp3 d0)|].
        - destruct Hrow as ((d0' & -> & _) & _).
          rewrite list_lookup_insert_ne by auto. exact Hd.
        - destruct Hrow as (-> & _). exact Hd.
        - destruct Hrow as (-> & _). exact Hd. }
      destruct (IHrows i d Hsame) as (d' & Hd' & Hcase).
      exists d'. split; [exact Hd'|].
      rewrite (bool_decide_ext (i ∈ j0 :: l) (i ∈ l))
        by (rewrite elem_of_cons; tauto).
      destruct (bool_decide (i ∈ l)); [|exact Hcase].
      destruct (dp3 d); [|exact Hcase]. rewrite <- Hon. exact Hcase.
Qed.

Lemma start_lines_counter (l : list nat) (a : state) :
  num_of_disabled_sensors a = 0 -> current_sensor a = 0 ->
  num_of_disabled_sensors (start_lines l a) = 0
  /\ current_sensor (start_lines l a) = 0.
Proof.
  intros Hn Hc. unfold start_lines.
  apply (fold_left_preserves
           (fun x => num_of_disabled_sensors x = 0 /\ current_sensor x = 0));
    [auto|].
  intros x j _ [Hx Hy].
  pose proof (start_line j x) as H. simpl in H.
  destruct H as (_ & _ & _ & _ & H).
  destruct (sensor_rows x !! j) as [d|]; [destruct (dp3 d)|].
  - destruct H as (_ & -> & H0 & H1).
    destruct (Z.eqb_spec (d1 d) 0) as [E|E]; split; auto.
    rewrite H1; auto.
  - destruct H as (_ & -> & ->). auto.
  - destruct H as (_ & -> & ->). auto.
Qed.

Lemma disabled_rows_none (l : list DIALOG) :
  (forall i d, l !! i = Some d -> flag_set (flags d) D_DISABLED = false) ->
  disabled_rows l = 0.
Proof.
  induction l as [|d l IH]; intros H; simpl; [reflexivity|].
  rewrite IH by (intros i d' Hd'; apply (H (S i)); exact Hd').
  unfold counts_as_disabled. rewrite (H 0%nat d eq_refl).
  destruct (dp3 d); reflexivity.
Qed.

Lemma frame_broadcast_toggle (c : Z) (s : state) :
  current_page (broadcast_toggle c s) = current_page s
  /\ reset_hardware (broadcast_toggle c s) = reset_hardware s.
Proof.
  unfold broadcast_toggle.
  apply (fold_left_preserves
           (fun a => current_page a = current_page s
                     /\ reset_hardware a = reset_hardware s));
    [auto|].
  intros a j _ [<- <-].
  unfold sensor_proc_msg_toggle, sensor_proc_toggle, sensor_proc_end,
    toggle_proc_msg.
  repeat (case_match; simpl in *; simplify_eq); auto.
Qed.

(** Row [j] is drawn for the first time. *)
Lemma draw_row (config : nat -> Z) (rs : list SENSOR) (N j : nat)
    (b : state) :
  (j < N)%nat -> (forall i, (i < N)%nat -> is_Some (rs !! i)) ->
  drawn_upto config rs N j b ->
  drawn_upto config rs N (S j) (draw_rows [j] b).
Proof.
  intros Hj Hrs (Hwf & Hlen & Hnum & Hrows & Hsens).
  destruct (Hrows j Hj) as (d & Hd & Hdp & Hflag & Hd2).
  rewrite bool_decide_false in Hflag, Hd2 by lia.
  assert (Hd1 : d1 d = Z.of_nat j) by (apply (proj1 Hwf j d Hd)).
  unfold draw_rows. simpl. rewrite Hd. unfold sensor_proc_draw. rewrite Hd2.
  destruct (Z.eqb_spec (config j) 0) as [Hc|Hc]; simpl.
  - (* the sensor was saved as switched off: the row toggles *)
    set (b1 := put_sensor_row j (with_d2 0 d) b).
    assert (Hrow1 : forall i, sensor_rows b1 !! i
                      = if decide (i = j) then Some (with_d2 0 d)
                        else sensor_rows b !! i).
    { intros i. unfold b1. simpl. destruct (decide (i = j)) as [->|Hne].
      - apply list_lookup_insert_eq. rewrite Hlen. exact Hj.
      - apply list_lookup_insert_ne. auto. }
    assert (Hwf1 : well_laid_out b1).
    { split.
      - intros i di Hdi. rewrite Hrow1 in Hdi.
        destruct (decide (i = j)) as [->|]; [injection Hdi as <-; exact Hd1|].
        apply (proj1 Hwf i di Hdi).
      - intros i i' di di' k Hi Hi' Hk Hk'. rewrite Hrow1 in Hi, Hi'.
        destruct (decide (i = j)) as [->|Hne];
          destruct (decide (i' = j)) as [->|Hne']; auto.
        + injection Hi as <-. simpl in Hk.
          apply (proj2 Hwf j i' d di' k); auto.
        + injection Hi' as <-. simpl in Hk'.
          apply (proj2 Hwf i j di d k); auto.
        + apply (proj2 Hwf i i' di di' k); auto. }
    destruct (broadcast_toggle_spec (d1 d) b1 Hwf1)
      as (Hwf' & Brows & Bsens & _).
    destruct (toggle_lines_counter (d1 d) (seq 0 (length (sensor_rows b1))) b1)
      as (Bnum & _).
    destruct (toggle_lines_layout (d1 d) (seq 0 (length (sensor_rows b1))) b1
                Hwf1) as (_ & Blen).
    change (toggle_lines (d1 d) (seq 0 (length (sensor_rows b1))) b1)
      with (broadcast_toggle (d1 d) b1) in Bnum, Blen.
    assert (Hlen1 : length (sensor_rows b1) = N).
    { unfold b1. simpl. rewrite length_insert. exact Hlen. }
    assert (Hdr1 : disabled_rows (sensor_rows b1) = disabled_rows (sensor_rows b)).
    { unfold b1. simpl. rewrite (disabled_rows_insert _ _ _ _ Hd).
      unfold counts_as_disabled. simpl. lia. }
    assert (Htog : forall i di, sensor_rows b1 !! i = Some di ->
              toggles (d1 d) di = bool_decide (i = j)).
    { intros i di Hdi. unfold toggles.
      rewrite (proj1 Hwf1 i di Hdi), Hd1.
      rewrite (proj2 (Z.eqb_neq (Z.of_nat j) (-2))) by lia.
      rewrite (proj2 (Z.eqb_neq (Z.of_nat j) (-1))) by lia.
      simpl. rewrite !orb_false_r.
      destruct (decide (i = j)) as [->|Hne].
      - rewrite bool_decide_true by reflexivity. apply Z.eqb_refl.
      - rewrite bool_decide_false by auto. apply Z.eqb_neq. lia. }
    split; [exact Hwf'|]. split; [congruence|]. split.
    { change (num_of_disabled_sensors b1) with (num_of_disabled_sensors b)
        in Bnum. lia. }
    split.
    + intros i Hi. destruct (Hrows i Hi) as (di & Hdi & Hdpi & Hfi & Hd2i).
      destruct (decide (i = j)) as [->|Hne].
      * assert (Hb1 : sensor_rows b1 !! j = Some (with_d2 0 d)).
        { rewrite Hrow1, decide_True by reflexivity. reflexivity. }
        exists (row_after_toggle (d1 d) (with_d2 0 d)).
        split; [apply Brows; exact Hb1|].
        unfold row_after_toggle. simpl dp3. rewrite Hdp.
        rewrite (Htog j _ Hb1), bool_decide_true by reflexivity.
        simpl flags. rewrite Hflag. simpl.
        rewrite flag_set_disable, bool_decide_true, Hc by lia.
        auto.
      * assert (Hb1 : sensor_rows b1 !! i = Some di).
        { rewrite Hrow1, decide_False by auto. exact Hdi. }
        exists (row_after_toggle (d1 d) di).
        split; [apply Brows; exact Hb1|].
        unfold row_after_toggle. rewrite Hdpi.
        rewrite (Htog i _ Hb1), bool_decide_false by auto.
        rewrite Hfi, Hd2i.
        rewrite (bool_decide_ext (i < S j)%nat (i < j)%nat) by lia. auto.
    + intros i r Hi Hr.
      destruct (Hrows i Hi) as (di & Hdi & Hdpi & Hfi & Hd2i).
      pose proof (Hsens i r Hi Hr) as Hsi.
      assert (Hsi1 : sensors b1 !! i = sensors b !! i) by reflexivity.
      destruct (decide (i = j)) as [->|Hne].
      * assert (Hb1 : sensor_rows b1 !! j = Some (with_d2 0 d)).
        { rewrite Hrow1, decide_True by reflexivity. reflexivity. }
        rewrite (Bsens j _ j _ Hb1 Hdp (eq_trans Hsi1 Hsi)).
        unfold sensor_after_toggle.
        rewrite (Htog j _ Hb1), bool_decide_true by reflexivity.
        simpl flags. rewrite Hflag.
        rewrite (bool_decide_false (j < j)%nat) by lia.
        rewrite (bool_decide_true (j < S j)%nat) by lia.
        rewrite Hc. simpl.
        destruct r; reflexivity.
      * assert (Hb1 : sensor_rows b1 !! i = Some di).
        { rewrite Hrow1, decide_False by auto. exact Hdi. }
        rewrite (Bsens i _ i _ Hb1 Hdpi (eq_trans Hsi1 Hsi)).
        unfold sensor_after_toggle.
        rewrite (Htog i _ Hb1), bool_decide_false by auto.
        rewrite Hfi.
        rewrite (bool_decide_ext (i < S j)%nat (i < j)%nat) by lia.
        destruct (bool_decide (i < j)%nat); simpl; [|reflexivity].
        destruct (config i =? 0); reflexivity.
  - (* the sensor was saved as switched on: nothing happens *)
    split; [exact Hwf|]. split; [exact Hlen|]. split; [exact Hnum|]. split.
    + intros i Hi. destruct (Hrows i Hi) as (di & Hdi & Hdpi & Hfi & Hd2i).
      exists di. split; [exact Hdi|]. split; [exact Hdpi|].
      rewrite Hfi, Hd2i.
      destruct (decide (i = j)) as [->|Hne].
      * rewrite bool_decide_false, bool_decide_true by lia.
        rewrite (proj2 (Z.eqb_neq _ _) Hc). auto.
      * rewrite (bool_decide_ext (i < S j)%nat (i < j)%nat) by lia. auto.
    + intros i r Hi Hr. rewrite (Hsens i r Hi Hr).
      destruct (decide (i = j)) as [->|Hne].
      * rewrite bool_decide_false, bool_decide_true by lia.
        rewrite (proj2 (Z.eqb_neq _ _) Hc). reflexivity.
      * rewrite (bool_decide_ext (i < S j)%nat (i < j)%nat) by lia.
        reflexivity.
Qed.

Lemma draw_rows_spec (config : nat -> Z) (rs : list SENSOR) (N : nat) :
  (forall i, (i < N)%nat -> is_Some (rs !! i)) ->
  forall m j b,
    (j + m <= N)%nat -> drawn_upto config rs N j b ->
    drawn_upto config rs N (j + m) (draw_rows (seq j m) b).
Proof.
  intros Hrs. induction m as [|m IH]; intros j b Hm Hb.
  - simpl. rewrite Nat.add_0_r. exact Hb.
  - replace (j + S m)%nat with (S j + m)%nat by lia.
    change (draw_rows (seq j (S m)) b)
      with (draw_rows (seq (S j) m) (draw_rows [j] b)).
    apply IH; [lia|]. apply draw_row; auto. lia.
Qed.

Lemma frame_fill_sensors (p : Z) (s : state) :
  current_page (fill_sensors p s) = current_page s
  /\ reset_hardware (fill_sensors p s) = reset_hardware s.
Proof.
  unfold fill_sensors.
  match goal with
  | |- context [fold_left ?f ?l ?a] =>
      pose proof (fold_left_preserves
        (fun acc => current_page (fst acc) = current_page s
                    /\ reset_hardware (fst acc) = reset_hardware s)
        f l a (conj eq_refl eq_refl)) as H
  end.
  match type of H with
  | _ -> ?P => assert (G : P)
  end.
  { apply H. intros [a idx] j _ Ha. simpl in *.
    repeat (case_match; simpl); exact Ha. }
  clear H.
  match goal with
  | |- context [fold_left ?f ?l ?a] => destruct (fold_left f l a)
  end.
  exact G.
Qed.

Lemma frame_draw_rows (l : list nat) (s : state) :
  sensors_on_page (draw_rows l s) = sensors_on_page s
  /\ current_sensor (draw_rows l s) = current_sensor s
  /\ current_page (draw_rows l s) = current_page s
  /\ reset_hardware (draw_rows l s) = reset_hardware s.
Proof.
  unfold draw_rows.
  apply (fold_left_preserves
           (fun a => sensors_on_page a = sensors_on_page s
                     /\ current_sensor a = current_sensor s
                     /\ current_page a = current_page s
                     /\ reset_hardware a = reset_hardware s));
    [auto|].
  intros a j _ (H1 & H2 & H3 & H4).
  destruct (sensor_rows a !! j) as [d|]; [|auto].
  unfold sensor_proc_draw. destruct (d2 d =? 0); [auto|].
  destruct (toggle_lines_counter (d1 d)
              (seq 0 (length (sensor_rows (put_sensor_row j (with_d2 0 d) a))))
              (put_sensor_row j (with_d2 0 d) a)) as (_ & A & B & _).
  destruct (frame_broadcast_toggle (d1 d) (put_sensor_row j (with_d2 0 d) a))
    as [C E].
  change (toggle_lines (d1 d)
            (seq 0 (length (sensor_rows (put_sensor_row j (with_d2 0 d) a))))
            (put_sensor_row j (with_d2 0 d) a))
    with (broadcast_toggle (d1 d) (put_sensor_row j (with_d2 0 d) a)) in A, B.
  rewrite A, B, C, E. auto.
Qed.

(** X30.  Opening the dialog restores the saved states.  Let the sensor
    rows of the dialog carry their positions and let the table hold at
    least as many sensors as there are rows.  When [display_sensor_dialog]
    has loaded the states [config], laid out the first page, started the
    rows and drawn them once, then every row shows the sensor of its own
    index; a sensor whose saved state is 0 is switched off, its row is
    disabled and it reads "not monitoring"; every other sensor is on and
    reads "N/A"; the counter of disabled sensors is the number of disabled
    rows; the polling cursor is on the first row of page 0 and a reset of
    the chip is requested. *)
Theorem opening_restores_saved_states (config : nat -> Z) (s : state) :
  (forall j d, sensor_rows s !! j = Some d -> d1 d = Z.of_nat j) ->
  (0 < length (sensor_rows s))%nat ->
  Z.of_nat (length (sensor_rows s)) <= count_rows (sensors s) ->
  let s' := display_sensor_dialog config s in
  sensors_on_page s' = Z.of_nat (length (sensor_rows s))
  /\ current_page s' = 0 /\ current_sensor s' = 0
  /\ reset_hardware s' = true
  /\ num_of_disabled_sensors s' = disabled_rows (sensor_rows s')
  /\ forall i r,
       (i < length (sensor_rows s))%nat -> sensors s !! i = Some r ->
       exists d',
         sensor_rows s' !! i = Some d' /\ dp3 d' = Some i
         /\ flag_set (flags d') D_DISABLED = (config i =? 0)
         /\ sensors s' !! i
            = Some (with_screen_buf
                      (if config i =? 0 then "not monitoring" else "N/A")
                      (with_enabled (config i) r)).
Proof.
  intros Hpos HN Hfull. set (N := length (sensor_rows s)) in *.
  unfold display_sensor_dialog. cbv zeta.
  set (s4 := set_sensors _ _).
  assert (Hrows4 : sensor_rows s4 = sensor_rows s) by reflexivity.
  assert (Hsens4 : sensors s4 = load_rows config 0 (sensors s))
    by reflexivity.
  (* the page is laid out *)
  destruct (fill_sensors_spec 0 s4 ltac:(lia)) as (Fn & Frows & Fsens).
  destruct (frame_fill_sensors 0 s4) as (Fpage & Freset).
  change (Z.to_nat (0 * SENSORS_PER_PAGE)) with 0%nat in Fn, Frows, Fsens.
  rewrite drop_0, Hrows4, Hsens4, count_rows_load_rows in Fn, Frows, Fsens.
  fold N in Fn, Frows, Fsens.
  rewrite Z.min_l in Fn, Frows, Fsens by exact Hfull.
  set (s5 := fill_sensors 0 s4) in *. clearbody s5.
  assert (Hlen5 : length (sensor_rows s5) = N).
  { apply Nat.le_antisymm.
    - apply Nat.nlt_ge. intros Hlt.
      destruct (lookup_lt_is_Some_2 (sensor_rows s5) N Hlt) as [x Hx].
      rewrite Frows in Hx.
      rewrite (proj2 (lookup_ge_None (sensor_rows s) N)) in Hx by (unfold N; lia).
      discriminate.
    - apply Nat.nlt_ge. intros Hlt.
      pose proof (proj2 (lookup_ge_None (sensor_rows s5) (length (sensor_rows s5)))
                    (Nat.le_refl _)) as Hx.
      rewrite Frows in Hx.
      destruct (lookup_lt_is_Some_2 (sensor_rows s) (length (sensor_rows s5)) Hlt)
        as [y Hy].
      rewrite Hy in Hx. discriminate. }
  assert (Hrow5 : forall i, (i < N)%nat ->
            exists d, sensor_rows s !! i = Some d
                      /\ sensor_rows s5 !! i = Some (with_dp3 (Some i) d)).
  { intros i Hi.
    destruct (lookup_lt_is_Some_2 (sensor_rows s) i Hi) as [d Hd].
    exists d. split; [exact Hd|].
    rewrite Frows, Hd. simpl. rewrite bool_decide_true by lia. reflexivity. }
  assert (Hrs : forall i, (i < N)%nat -> is_Some (sensors s !! i)).
  { intros i Hi. apply lookup_lt_is_Some_2.
    pose proof (count_rows_bounds (sensors s)). lia. }
  assert (Hsen5 : forall i r, (i < N)%nat -> sensors s !! i = Some r ->
            sensors s5 !! i
            = Some (with_screen_buf "N/A" (with_enabled (config i) r))).
  { intros i r Hi Hr. rewrite Fsens, load_rows_lookup.
    rewrite !bool_decide_true by lia. rewrite Hr. reflexivity. }
  (* the rows are started *)
  change (broadcast_init MSG_START 0 s5)
    with (start_lines (seq 0 (length (sensor_rows s5))) s5).
  rewrite Hlen5.
  destruct (start_lines_spec (seq 0 N) (NoDup_seq 0 N) s5)
    as (Ss & Sp & Sc & Sr & Slen & Srows).
  assert (Scount : num_of_disabled_sensors (start_lines (seq 0 N) s5) = 0
                   /\ current_sensor (start_lines (seq 0 N) s5) = 0).
  { destruct N as [|N']; [lia|].
    change (start_lines (seq 0 (S N')) s5)
      with (start_lines (seq 1 N')
              (snd (sensor_proc_msg_init MSG_START 0
                      (toggle_proc_msg MSG_START 0 0 s5)))).
    pose proof (start_line 0 s5) as H0. simpl in H0.
    destruct H0 as (_ & _ & _ & _ & H0).
    destruct (Hrow5 0%nat ltac:(lia)) as (d & Hd & Hd5).
    rewrite Hd5 in H0. simpl dp3 in H0. cbv iota in H0.
    destruct H0 as (_ & Hnum & Hcur & _).
    simpl d1 in Hnum, Hcur. rewrite (Hpos 0%nat d Hd) in Hnum, Hcur.
    apply start_lines_counter; [exact Hnum | apply Hcur; reflexivity]. }
  set (s6 := start_lines (seq 0 N) s5) in *. clearbody s6.
  assert (Hrow6 : forall i, (i < N)%nat ->
            exists d', sensor_rows s6 !! i = Some d'
                       /\ d1 d' = Z.of_nat i /\ dp3 d' = Some i
                       /\ flag_set (flags d') D_DISABLED = false
                       /\ d2 d' = if config i =? 0 then 1 else 0).
  { intros i Hi. destruct (Hrow5 i Hi) as (d & Hd & Hd5).
    destruct (Hrs i Hi) as [r Hr].
    destruct (Srows i _ Hd5) as (d' & Hd' & Hcase).
    rewrite bool_decide_true in Hcase by (apply elem_of_seq; lia).
    simpl dp3 in Hcase. cbv iota in Hcase.
    destruct Hcase as (E1 & E2 & E3 & E4).
    exists d'. split; [exact Hd'|]. simpl in E1, E2.
    split; [rewrite E1; apply (Hpos i d Hd)|]. split; [exact E2|].
    split; [exact E3|].
    rewrite E4. unfold sensor_at. rewrite (Hsen5 i r Hi Hr). simpl.
    destruct (config i =? 0); reflexivity. }
  assert (Hinv : drawn_upto config (sensors s) N 0 s6).
  { split; [|split; [congruence|split; [|split]]].
    - split.
      + intros j d Hd.
        assert (Hj : (j < N)%nat)
          by (rewrite <- Hlen5, <- Slen; eapply lookup_lt_Some; eauto).
        destruct (Hrow6 j Hj) as (d' & Hd' & E & _). congruence.
      + intros j j' d d' k Hd Hd' Hk Hk'.
        assert (Hj : (j < N)%nat)
          by (rewrite <- Hlen5, <- Slen; eapply lookup_lt_Some; eauto).
        assert (Hj' : (j' < N)%nat)
          by (rewrite <- Hlen5, <- Slen; eapply lookup_lt_Some; eauto).
        destruct (Hrow6 j Hj) as (x & Hx & _ & Ex & _).
        destruct (Hrow6 j' Hj') as (x' & Hx' & _ & Ex' & _).
        congruence.
    - rewrite (proj1 Scount). symmetry. apply disabled_rows_none.
      intros i d Hd.
      assert (Hi : (i < N)%nat)
        by (rewrite <- Hlen5, <- Slen; eapply lookup_lt_Some; eauto).
      destruct (Hrow6 i Hi) as (x & Hx & _ & _ & Ex & _). congruence.
    - intros i Hi. destruct (Hrow6 i Hi) as (d' & Hd' & _ & E2 & E3 & E4).
      exists d'. rewrite bool_decide_false by lia. auto.
    - intros i r Hi Hr. rewrite Ss, (Hsen5 i r Hi Hr).
      rewrite bool_decide_false by lia. reflexivity. }
  (* the rows are drawn *)
  change (fold_left _ (seq 0 (length (sensor_rows s6))) s6)
    with (draw_rows (seq 0 (length (sensor_rows s6))) s6).
  rewrite Slen, Hlen5.
  pose proof (draw_rows_spec config (sensors s) N Hrs N 0%nat s6
                (Nat.le_refl _) Hinv) as Hfinal.
  simpl plus in Hfinal.
  destruct (frame_draw_rows (seq 0 N) s6) as (D1 & D2 & D3 & D4).
  set (s7 := draw_rows (seq 0 N) s6) in *. clearbody s7.
  destruct Hfinal as (_ & _ & Hnum & Hrows & Hsens).
  split; [congruence|]. split; [rewrite D3, Sc, Fpage; reflexivity|].
  split; [rewrite D2; apply Scount|].
  split; [rewrite D4, Sr, Freset; reflexivity|].
  split; [exact Hnum|].
  intros i r Hi Hr.
  destruct (Hrows i Hi) as (d' & Hd' & E1 & E2 & _).
  exists d'. rewrite bool_decide_true in E2 by exact Hi.
  split; [exact Hd'|]. split; [exact E1|]. split; [exact E2|].
  rewrite (Hsens i r Hi Hr), bool_decide_true by exact Hi. reflexivity.
Qed.

Lemma opening_restores_saved_states_witness :
  let s := program_start READY METRIC in
  let s' := display_sensor_dialog fourth_switched_off s in
  sensors_on_page s' = Z.of_nat (length (sensor_rows s))
  /\ current_page s' = 0 /\ current_sensor s' = 0
  /\ reset_hardware s' = true
  /\ num_of_disabled_sensors s' = disabled_rows (sensor_rows s')
  /\ forall i r,
       (i < length (sensor_rows s))%nat -> sensors s !! i = Some r ->
       exists d',
         sensor_rows s' !! i = Some d' /\ dp3 d' = Some i
         /\ flag_set (flags d') D_DISABLED = (fourth_switched_off i =? 0)
         /\ sensors s' !! i
            = Some (with_screen_buf
                      (if fourth_switched_off i =? 0
                       then "not monitoring" else "N/A")
                      (with_enabled (fourth_switched_off i) r)).
Proof.
  apply (opening_restores_saved_states fourth_switched_off
           (program_start READY METRIC)).
  - intros j d. do 9 (destruct j as [|j]; [intros [= <-]; reflexivity|]).
    discriminate.
  - vm_compute. lia.
  - vm_compute. discriminate.
Defined.
